(** * okta-awscli: the command-line driver [oktaawscli/okta_awscli.py]

    A shallow embedding of the driver script and the properties its
    specification states about it.  The driver is glue between three
    collaborator classes ([OktaAuth], [OktaAuthConfig], [AwsAuth]) whose
    code lives in other modules; they are taken here as an interface whose
    methods act on an arbitrary outside world.  Every run of the driver
    yields an outcome, the new state of the outside world and the trace of
    everything it did, in order. *)

From Stdlib Require Import ZArith List Ascii String Bool Lia Sorted Permutation.
From stdpp Require Import base option list sorting strings pretty gmap.

Open Scope string_scope.
Open Scope list_scope.
Open Scope Z_scope.

(** ** Python values and built-ins used by the driver *)

Module Py.

(** Exceptions the driver can see.  [LoadError] is a subclass of [OSError]
    in [http.cookiejar]; the driver names both in its handlers.
    [UnicodeDecodeError] is what reading a text file raises on bytes that
    are not valid in its encoding; it is not an [OSError]. *)
Inductive exn : Type :=
| ValueError
| IndexError
| EOFError
| KeyError (key : string)
| OSError (msg : string)
| LoadError (msg : string)
| UnicodeDecodeError (reason : string)
| SystemExit (code : Z)
| OtherError (name : string).

Inductive outcome (A : Type) : Type :=
| Ret (a : A)
| Raise (e : exn).
Arguments Ret {A} a.
Arguments Raise {A} e.

(** Values found in the dictionary returned by the role-assumption call:
    strings for the keys and token, a datetime for the expiration. *)
Inductive pyval : Type :=
| PStr (s : string)
| PDatetime (epoch : Z).

(** Truthiness of an optional string ([None] and [""] are falsy). *)
Definition truthy (o : option string) : bool :=
  match o with
  | None => false
  | Some s => negb (String.eqb s "")
  end.

(** *** [int(str)]

    A [str] is kept as the bytes of its UTF-8 encoding.  [int] reads it
    code point by code point, as CPython does: white space is skipped on
    both sides, a sign may follow, and the rest must be decimal digits,
    of any script, with single underscores allowed between two digits. *)

(** The payload of a continuation byte [10xxxxxx]. *)
Definition continuation (c : ascii) : option Z :=
  let n := Z.of_nat (nat_of_ascii c) in
  if (128 <=? n) && (n <? 192) then Some (n - 128) else None.

(** A decoded code point, refused when a shorter encoding exists or when
    it lies beyond U+10FFFF. *)
Definition scalar (least : Z) (c : Z) : option Z :=
  if (least <=? c) && (c <=? 1114111) then Some c else None.

(** The code points of a byte string; [None] when the bytes are not the
    UTF-8 encoding of any string. *)
Fixpoint code_points (l : list ascii) : option (list Z) :=
  match l with
  | [] => Some []
  | b0 :: l1 =>
      let n0 := Z.of_nat (nat_of_ascii b0) in
      if n0 <? 128 then cons n0 <$> code_points l1
      else if n0 <? 192 then None
      else if n0 <? 224 then
        match l1 with
        | b1 :: l2 =>
            c1 ← continuation b1;
            c ← scalar 128 ((n0 - 192) * 64 + c1);
            cons c <$> code_points l2
        | _ => None
        end
      else if n0 <? 240 then
        match l1 with
        | b1 :: b2 :: l3 =>
            c1 ← continuation b1;
            c2 ← continuation b2;
            c ← scalar 2048 (((n0 - 224) * 64 + c1) * 64 + c2);
            cons c <$> code_points l3
        | _ => None
        end
      else if n0 <? 248 then
        match l1 with
        | b1 :: b2 :: b3 :: l4 =>
            c1 ← continuation b1;
            c2 ← continuation b2;
            c3 ← continuation b3;
            c ← scalar 65536 ((((n0 - 240) * 64 + c1) * 64 + c2) * 64 + c3);
            cons c <$> code_points l4
        | _ => None
        end
      else None
  end.

(** White space [int] skips: the ASCII characters 9 to 13 and 32, and the
    white space of Unicode beyond ASCII.  The separators 28 to 31 are
    white space for [str.strip] but not here. *)
Definition is_space (c : Z) : bool :=
  (9 <=? c) && (c <=? 13) || (c =? 32) || (c =? 133) || (c =? 160) || (c =? 5760)
  || (8192 <=? c) && (c <=? 8202) || (c =? 8232) || (c =? 8233) || (c =? 8239)
  || (c =? 8287) || (c =? 12288).

(** The code points of the digit zero of every script with decimal digits
    (Unicode 14.0, the character database of CPython 3.11); the nine
    code points after each are its digits one to nine. *)
Definition decimal_zeros : list Z :=
  [48; 1632; 1776; 1984; 2406; 2534; 2662; 2790; 2918; 3046; 3174; 3302; 3430; 3558;
   3664; 3792; 3872; 4160; 4240; 6112; 6160; 6470; 6608; 6784; 6800; 6992; 7088; 7232;
   7248; 42528; 43216; 43264; 43472; 43504; 43600; 44016; 65296; 66720; 68912; 69734;
   69872; 69942; 70096; 70384; 70736; 70864; 71248; 71360; 71472; 71904; 72016; 72784;
   73040; 73120; 92768; 92864; 93008; 120782; 120792; 120802; 120812; 120822; 123200;
   123632; 125264; 130032].

(** The value of a decimal digit. *)
Definition decimal (c : Z) : option Z :=
  (fun zero => c - zero) <$>
    List.find (fun zero => (zero <=? c) && (c <? zero + 10)) decimal_zeros.

Definition is_digit (c : Z) : bool :=
  match decimal c with Some _ => true | None => false end.

Definition digit_val (c : Z) : Z := default 0 (decimal c).

Fixpoint lstrip (l : list Z) : list Z :=
  match l with
  | c :: l' => if is_space c then lstrip l' else l
  | [] => []
  end.

Definition strip (l : list Z) : list Z :=
  rev (lstrip (rev (lstrip l))).

(** Decimal digits, single underscores allowed between two digits. *)
Fixpoint digits_value (l : list Z) (acc : Z) (after_digit : bool) : option Z :=
  match l with
  | [] => if after_digit then Some acc else None
  | c :: l' =>
      if is_digit c then digits_value l' (10 * acc + digit_val c) true
      else if (c =? 95) && after_digit then digits_value l' acc false
      else None
  end.

(** CPython refuses decimal literals of more than 4300 digits (the
    default limit of [sys.set_int_max_str_digits]). *)
Definition max_str_digits : nat := 4300.

Definition unsigned_value (l : list Z) : option Z :=
  if (max_str_digits <? length (filter (fun c => is_digit c = true) l))%nat
  then None
  else digits_value l 0 false.

(** [int] on the code points of a string. *)
Definition int_of_code_points (l : list Z) : option Z :=
  match strip l with
  | c :: l' =>
      if c =? 45 then Z.opp <$> unsigned_value l'
      else if c =? 43 then unsigned_value l'
      else unsigned_value (c :: l')
  | [] => None
  end.

(** [int(s)]; [None] stands for [ValueError]. *)
Definition int (s : string) : option Z :=
  code_points (list_ascii_of_string s) ≫= int_of_code_points.

(** The UTF-8 encoding of a code point and of a string of code points
    ([str.encode] with lone surrogates passed through). *)
Definition byte (n : Z) : ascii := ascii_of_nat (Z.to_nat n).

Definition utf8_char (c : Z) : list ascii :=
  if c <? 128 then [byte c]
  else if c <? 2048 then [byte (192 + c / 64); byte (128 + c mod 64)]
  else if c <? 65536 then
    [byte (224 + c / 4096); byte (128 + (c / 64) mod 64); byte (128 + c mod 64)]
  else
    [byte (240 + c / 262144); byte (128 + (c / 4096) mod 64);
     byte (128 + (c / 64) mod 64); byte (128 + c mod 64)].

Definition utf8 (l : list Z) : string :=
  string_of_list_ascii (flat_map utf8_char l).

(** *** [lst[i]] with Python's negative indices *)

Definition index {A} (l : list A) (i : Z) : option A :=
  let n := Z.of_nat (length l) in
  if (0 <=? i) && (i <? n) then l !! Z.to_nat i
  else if (- n <=? i) && (i <? 0) then l !! Z.to_nat (n + i)
  else None.

(** *** [sorted] on strings: code-point order, which on the byte
    representation is the lexicographic order of [String.le]. *)
Definition sorted (l : list string) : list string := merge_sort String.le l.

(** [enumerate(l)] *)
Definition enumerate {A} (l : list A) : list (nat * A) := imap (fun i x => (i, x)) l.

End Py.
Export Py.

(** ** Objects of the driver *)

(** Logging levels used by the driver, with their numeric values. *)
Inductive level : Type := DEBUG | INFO | WARNING.

Definition level_no (l : level) : Z :=
  match l with DEBUG => 10 | INFO => 20 | WARNING => 30 end.

(** The logger built by [main]: level [DEBUG], one stream handler whose
    level depends on the flags. *)
Record Logger : Type := { handler_level : level }.

(** A record reaches the console when its level is at least the handler's. *)
Definition shown (logger : Logger) (lvl : level) : bool :=
  level_no (handler_level logger) <=? level_no lvl.

(** The [--lookup] option: off, on, or a path. *)
Inductive lookup_opt : Type := LookupOff | LookupOn | LookupPath (path : string).

Module AwsAuth.
(** Modelled from the spec: the constructor of [AwsAuth] is in another
    module; the object keeps the credential-profile name it was built
    with, which [get_credentials] reads back as [aws_auth.profile] to
    choose the destination. *)
Record t : Type :=
  { profile : option string;
    okta_profile : string;
    lookup : lookup_opt;
    verbose : bool }.
End AwsAuth.

Module OktaAuth.
(** Arguments [get_credentials] builds the [OktaAuth] object from. *)
Record t : Type :=
  { okta_profile : string;
    verbose : bool;
    totp_token : option string;
    okta_username : option string;
    okta_password : option string;
    cookie_jar : option string;
    user_agent : option string }.
End OktaAuth.

(** Arguments of deferred-format log calls. *)
Inductive logarg : Type :=
| LStr (s : string)
| LJar (filename : string)
| LExn (e : exn).

(** What a run does, in order.  Calls into other modules carry their
    arguments and what came back. *)
Inductive event : Type :=
| Print (line : string)
| Log (lvl : level) (msg : string) (args : list logarg)
| Input (prompt : string) (r : outcome string)
| WriteFile (path content : string) (r : outcome unit)
| Configure (r : outcome unit)
| GetOktaProfiles (r : outcome (list string))
| NewAwsAuth (a : AwsAuth.t) (r : outcome unit)
| CheckStsToken (a : AwsAuth.t) (r : outcome bool)
| CookieLoad (filename : string) (ignore_discard ignore_expires : bool) (r : outcome unit)
| CookieSave (filename : string) (ignore_discard ignore_expires : bool) (r : outcome unit)
| NewOktaAuthConfig (r : outcome unit)
| NewOktaAuth (o : OktaAuth.t) (r : outcome unit)
| GetAssertion (o : OktaAuth.t) (persistent : bool) (r : outcome (string * string))
| ChooseAwsRole (a : AwsAuth.t) (assertion : string) (refresh_role : bool)
    (r : outcome (string * string))
| WriteRoleToProfile (okta_profile role_arn : string) (r : outcome unit)
| DurationFor (okta_profile : string) (r : outcome Z)
| GetStsToken (a : AwsAuth.t) (role_arn principal_arn assertion : string) (duration : Z)
    (r : outcome (gmap string pyval))
| WriteStsToken (a : AwsAuth.t)
    (access_key_id secret_access_key session_token_expiry session_token : pyval)
    (r : outcome unit)
| ExecuteAwsArgs (a : AwsAuth.t) (args : list string) (r : outcome unit).

(** The other modules and the operating system, acting on an outside
    world [W] (configuration files, credential files, the network, the
    terminal). *)
Record Collaborators (W : Type) : Type :=
  { version_string : string;
    home : string;
    str_datetime : Z -> string;
    os_input : string -> W -> outcome string * W;
    os_write_file : string -> string -> W -> outcome unit * W;
    jar_load : string -> bool -> bool -> W -> outcome unit * W;
    jar_save : string -> bool -> bool -> W -> outcome unit * W;
    config_configure : Logger -> W -> outcome unit * W;
    config_get_okta_profiles : W -> outcome (list string) * W;
    config_init : Logger -> W -> outcome unit * W;
    config_write_role_to_profile : string -> string -> W -> outcome unit * W;
    config_duration_for : string -> W -> outcome Z * W;
    okta_init : OktaAuth.t -> W -> outcome unit * W;
    okta_get_assertion : OktaAuth.t -> bool -> W -> outcome (string * string) * W;
    aws_init : AwsAuth.t -> W -> outcome unit * W;
    aws_check_sts_token : AwsAuth.t -> W -> outcome bool * W;
    aws_choose_aws_role : AwsAuth.t -> string -> bool -> W -> outcome (string * string) * W;
    aws_get_sts_token :
      AwsAuth.t -> string -> string -> string -> Z -> W -> outcome (gmap string pyval) * W;
    aws_write_sts_token : AwsAuth.t -> pyval -> pyval -> pyval -> pyval -> W -> outcome unit * W;
    aws_execute_aws_args : AwsAuth.t -> list string -> W -> outcome unit * W }.

(** ** Runs: outcome, outside world and trace *)

Record run (W A : Type) : Type :=
  { result : outcome A; world : W; trace : list event }.
Arguments result {W A} r.
Arguments world {W A} r.
Arguments trace {W A} r.

Definition M (W A : Type) : Type := W -> run W A.

Definition ret {W A} (a : A) : M W A :=
  fun w => {| result := Ret a; world := w; trace := [] |}.

Definition raise {W A} (e : exn) : M W A :=
  fun w => {| result := Raise e; world := w; trace := [] |}.

Definition bind {W A B} (m : M W A) (k : A -> M W B) : M W B :=
  fun w =>
    let r1 := m w in
    match result r1 with
    | Ret a =>
        let r2 := k a (world r1) in
        {| result := result r2; world := world r2; trace := trace r1 ++ trace r2 |}
    | Raise e => {| result := Raise e; world := world r1; trace := trace r1 |}
    end.

(** [try: m except ...: h]; [h e = None] when no handler matches [e]. *)
Definition try_except {W A} (m : M W A) (h : exn -> option (M W A)) : M W A :=
  fun w =>
    let r1 := m w in
    match result r1 with
    | Ret _ => r1
    | Raise e =>
        match h e with
        | Some k =>
            let r2 := k (world r1) in
            {| result := result r2; world := world r2; trace := trace r1 ++ trace r2 |}
        | None => r1
        end
    end.

(** An action of the driver itself: it cannot fail and leaves one event. *)
Definition emit {W} (e : event) : M W unit :=
  fun w => {| result := Ret tt; world := w; trace := [e] |}.

(** A call into another module: the reply is recorded with the call. *)
Definition call {W A} (f : W -> outcome A * W) (ev : outcome A -> event) : M W A :=
  fun w => let '(r, w') := f w in {| result := r; world := w'; trace := [ev r] |}.

Declare Scope py_scope.
Delimit Scope py_scope with py.
Notation "x <- c ;; k" := (bind c (fun x => k))
  (at level 100, c at next level, right associativity) : py_scope.
Notation "c ;; k" := (bind c (fun _ => k))
  (at level 100, right associativity) : py_scope.
Open Scope py_scope.

Fixpoint for_each {W A} (l : list A) (body : A -> M W unit) : M W unit :=
  match l with
  | [] => ret tt
  | x :: l' => body x ;; for_each l' body
  end.

Definition of_option {W A} (o : option A) (e : exn) : M W A :=
  match o with Some a => ret a | None => raise e end.

(** ** The driver *)

(** Command-line options, as [click] hands them to [main]. *)
Module Args.
Record t : Type :=
  { okta_profile : option string;
    profile : option string;
    verbose : bool;
    version : bool;
    debug : bool;
    force : bool;
    cache : bool;
    lookup : lookup_opt;
    awscli_args : list string;
    refresh_role : bool;
    token : option string;
    okta_username : option string;
    okta_password : option string;
    config : bool;
    switch : bool;
    cookie_jar : option string;
    persistent_okta_session : bool;
    user_agent : option string }.
End Args.

Section Driver.
Context {W : Type} (C : Collaborators W).

Definition print (line : string) : M W unit := emit (Print line).

Definition log (lvl : level) (msg : string) (args : list logarg) : M W unit :=
  emit (Log lvl msg args).

(** ["%s" % v] *)
Definition py_str (v : pyval) : string :=
  match v with
  | PStr s => s
  | PDatetime t => str_datetime W C t
  end.

(** [d[key]] *)
Definition getitem (d : gmap string pyval) (key : string) : M W pyval :=
  of_option (d !! key) (KeyError key).

Definition okta_switch (logger : Logger) : M W string :=
  profiles <- call (config_get_okta_profiles W C) GetOktaProfiles ;;
  let okta_profiles := sorted profiles in
  let okta_profile_selected :=
    if (length okta_profiles =? 1)%nat then Some 0 else None in
  okta_profile_selected <-
    match okta_profile_selected with
    | None =>
        print "Available Okta profiles:" ;;
        for_each (enumerate okta_profiles)
          (fun '(index, profile) =>
             print (pretty (index + 1)%nat +:+ ": " +:+ profile)) ;;
        answer <- call (os_input W C "Please select Okta profile: ")
                    (Input "Please select Okta profile: ") ;;
        n <- of_option (Py.int answer) ValueError ;;
        let okta_profile_selected := n - 1 in
        chosen <- of_option (index okta_profiles okta_profile_selected) IndexError ;;
        log DEBUG ("Selected " +:+ chosen) [] ;;
        ret okta_profile_selected
    | Some i => ret i
    end ;;
  of_option (index okta_profiles okta_profile_selected) IndexError.

Definition console_output (access_key_id secret_access_key session_token : pyval)
    (verbose : bool) : M W string :=
  let exports :=
    String.concat (String (ascii_of_nat 10) "")
      [ "export AWS_ACCESS_KEY_ID=" +:+ py_str access_key_id;
        "export AWS_SECRET_ACCESS_KEY=" +:+ py_str secret_access_key;
        "export AWS_SESSION_TOKEN=" +:+ py_str session_token ] in
  (if verbose then
     print "Use these to set your environment variables:" ;;
     print exports
   else ret tt) ;;
  ret exports.

Definition get_credentials (aws_auth : AwsAuth.t) (okta_profile : string)
    (profile : option string) (verbose : bool) (logger : Logger)
    (totp_token : option string) (cache refresh_role : bool)
    (okta_username okta_password cookie_jar : option string)
    (persistent_okta_session : bool) (user_agent : option string) : M W unit :=
  call (config_init W C logger) NewOktaAuthConfig ;;
  let okta :=
    {| OktaAuth.okta_profile := okta_profile; OktaAuth.verbose := verbose;
       OktaAuth.totp_token := totp_token; OktaAuth.okta_username := okta_username;
       OktaAuth.okta_password := okta_password; OktaAuth.cookie_jar := cookie_jar;
       OktaAuth.user_agent := user_agent |} in
  call (okta_init W C okta) (NewOktaAuth okta) ;;
  got <- call (okta_get_assertion W C okta persistent_okta_session)
           (GetAssertion okta persistent_okta_session) ;;
  let assertion := snd got in
  role <- call (aws_choose_aws_role W C aws_auth assertion refresh_role)
            (ChooseAwsRole aws_auth assertion refresh_role) ;;
  let '(principal_arn, role_arn) := role in
  call (config_write_role_to_profile W C okta_profile role_arn)
    (WriteRoleToProfile okta_profile role_arn) ;;
  duration <- call (config_duration_for W C okta_profile) (DurationFor okta_profile) ;;
  sts_token <- call (aws_get_sts_token W C aws_auth role_arn principal_arn assertion duration)
                 (GetStsToken aws_auth role_arn principal_arn assertion duration) ;;
  access_key_id <- getitem sts_token "AccessKeyId" ;;
  secret_access_key <- getitem sts_token "SecretAccessKey" ;;
  session_token <- getitem sts_token "SessionToken" ;;
  session_token_expiry <- getitem sts_token "Expiration" ;;
  log INFO ("Session token expires on: " +:+ py_str session_token_expiry) [] ;;
  if negb (truthy (AwsAuth.profile aws_auth)) then
    exports <- console_output access_key_id secret_access_key session_token verbose ;;
    if cache then
      let path := home W C +:+ "/.okta-credentials.cache" in
      call (os_write_file W C path exports) (WriteFile path exports)
    else ret tt
  else
    call (aws_write_sts_token W C aws_auth access_key_id secret_access_key
            session_token_expiry session_token)
      (WriteStsToken aws_auth access_key_id secret_access_key
         session_token_expiry session_token).

Definition main (a : Args.t) : M W unit :=
  (if Args.version a then
     print (version_string W C) ;;
     raise (SystemExit 0)
   else ret tt) ;;
  let logger :=
    {| handler_level :=
         if Args.debug a then DEBUG else if Args.verbose a then INFO else WARNING |} in
  (if Args.config a then call (config_configure W C logger) Configure else ret tt) ;;
  let okta_profile :=
    match Args.okta_profile a with
    | Some s => if truthy (Some s) then s else "default"
    | None => "default"
    end in
  okta_profile <- (if Args.switch a then okta_switch logger else ret okta_profile) ;;
  let aws_auth :=
    {| AwsAuth.profile := Args.profile a; AwsAuth.okta_profile := okta_profile;
       AwsAuth.lookup := Args.lookup a; AwsAuth.verbose := Args.verbose a |} in
  call (aws_init W C aws_auth) (NewAwsAuth aws_auth) ;;
  renew <- (if Args.force a then ret true
            else valid <- call (aws_check_sts_token W C aws_auth) (CheckStsToken aws_auth) ;;
                 ret (negb valid)) ;;
  (if renew then
     (if Args.force a && truthy (Args.profile a) then
        log INFO "Force option selected,                 getting new credentials anyway." []
      else ret tt) ;;
     let persistent := Args.persistent_okta_session a in
     match Args.cookie_jar a with
     | Some filename =>
         try_except
           (call (jar_load W C filename persistent persistent)
              (CookieLoad filename persistent persistent) ;;
            log DEBUG "Loaded cookies from %s: %r" [LStr filename; LJar filename])
           (fun e =>
              match e with
              | LoadError _ | OSError _ =>
                  Some (log DEBUG "Error loading cookies from %s: %s" [LStr filename; LExn e])
              | _ => None
              end)
     | None => ret tt
     end ;;
     get_credentials aws_auth okta_profile (Args.profile a) (Args.verbose a) logger
       (Args.token a) (Args.cache a) (Args.refresh_role a) (Args.okta_username a)
       (Args.okta_password a) (Args.cookie_jar a) persistent (Args.user_agent a) ;;
     match Args.cookie_jar a with
     | Some filename =>
         try_except
           (call (jar_save W C filename persistent persistent)
              (CookieSave filename persistent persistent) ;;
            log DEBUG "Saved cookies to %s" [LStr filename])
           (fun e =>
              match e with
              | LoadError _ | OSError _ =>
                  Some (log WARNING "Failed to save cookies to %s: %s" [LStr filename; LExn e])
              | _ => None
              end)
     | None => ret tt
     end
   else ret tt) ;;
  match Args.awscli_args a with
  | [] => ret tt
  | _ :: _ => call (aws_execute_aws_args W C aws_auth (Args.awscli_args a))
                (ExecuteAwsArgs aws_auth (Args.awscli_args a))
  end.

End Driver.

(** ** The body of [main], block by block

    The same statements as in [main], named so that lemmas can speak about
    one block at a time; [main_blocks] below shows that [main] is their
    sequence. *)

Section Blocks.
Context {W : Type} (C : Collaborators W).

Definition main_logger (a : Args.t) : Logger :=
  {| handler_level :=
       if Args.debug a then DEBUG else if Args.verbose a then INFO else WARNING |}.

Definition main_aws_auth (a : Args.t) (okta_profile : string) : AwsAuth.t :=
  {| AwsAuth.profile := Args.profile a; AwsAuth.okta_profile := okta_profile;
     AwsAuth.lookup := Args.lookup a; AwsAuth.verbose := Args.verbose a |}.

(** [if version: ...] *)
Definition main_version (a : Args.t) : M W unit :=
  if Args.version a then
    print (version_string W C) ;;
    raise (SystemExit 0)
  else ret tt.

(** [if config: ...] *)
Definition main_config (a : Args.t) : M W unit :=
  if Args.config a then call (config_configure W C (main_logger a)) Configure else ret tt.

(** [if not okta_profile: ...] and [if switch: ...] *)
Definition main_switch (a : Args.t) : M W string :=
  let okta_profile :=
    match Args.okta_profile a with
    | Some s => if truthy (Some s) then s else "default"
    | None => "default"
    end in
  if Args.switch a then okta_switch C (main_logger a) else ret okta_profile.

(** [force or not aws_auth.check_sts_token()] *)
Definition main_check (a : Args.t) (aws_auth : AwsAuth.t) : M W bool :=
  if Args.force a then ret true
  else valid <- call (aws_check_sts_token W C aws_auth) (CheckStsToken aws_auth) ;;
       ret (negb valid).

Definition main_force_note (a : Args.t) : M W unit :=
  if Args.force a && truthy (Args.profile a) then
    log INFO "Force option selected,                 getting new credentials anyway." []
  else ret tt.

(** The first [if cookie_jar is not None: ...] *)
Definition main_load_cookies (a : Args.t) : M W unit :=
  let persistent := Args.persistent_okta_session a in
  match Args.cookie_jar a with
  | Some filename =>
      try_except
        (call (jar_load W C filename persistent persistent)
           (CookieLoad filename persistent persistent) ;;
         log DEBUG "Loaded cookies from %s: %r" [LStr filename; LJar filename])
        (fun e =>
           match e with
           | LoadError _ | OSError _ =>
               Some (log DEBUG "Error loading cookies from %s: %s" [LStr filename; LExn e])
           | _ => None
           end)
  | None => ret tt
  end.

Definition main_get_credentials (a : Args.t) (okta_profile : string) (aws_auth : AwsAuth.t)
  : M W unit :=
  get_credentials C aws_auth okta_profile (Args.profile a) (Args.verbose a) (main_logger a)
    (Args.token a) (Args.cache a) (Args.refresh_role a) (Args.okta_username a)
    (Args.okta_password a) (Args.cookie_jar a) (Args.persistent_okta_session a)
    (Args.user_agent a).

(** The second [if cookie_jar is not None: ...] *)
Definition main_save_cookies (a : Args.t) : M W unit :=
  let persistent := Args.persistent_okta_session a in
  match Args.cookie_jar a with
  | Some filename =>
      try_except
        (call (jar_save W C filename persistent persistent)
           (CookieSave filename persistent persistent) ;;
         log DEBUG "Saved cookies to %s" [LStr filename])
        (fun e =>
           match e with
           | LoadError _ | OSError _ =>
               Some (log WARNING "Failed to save cookies to %s: %s" [LStr filename; LExn e])
           | _ => None
           end)
  | None => ret tt
  end.

(** The body of [if force or not aws_auth.check_sts_token():] *)
Definition main_renew (a : Args.t) (okta_profile : string) (aws_auth : AwsAuth.t) : M W unit :=
  main_force_note a ;;
  main_load_cookies a ;;
  main_get_credentials a okta_profile aws_auth ;;
  main_save_cookies a.

(** [if awscli_args: ...] *)
Definition main_awscli (a : Args.t) (aws_auth : AwsAuth.t) : M W unit :=
  match Args.awscli_args a with
  | [] => ret tt
  | _ :: _ => call (aws_execute_aws_args W C aws_auth (Args.awscli_args a))
                (ExecuteAwsArgs aws_auth (Args.awscli_args a))
  end.

End Blocks.

(** ** Reading traces *)

(** Events that only the renewal branch of [main] produces: the cookie
    jar, the identity provider, role resolution, the role-assumption call
    and the two credential destinations. *)
Definition renewal_event (e : event) : bool :=
  match e with
  | CookieLoad _ _ _ _ | CookieSave _ _ _ _
  | NewOktaAuthConfig _ | NewOktaAuth _ _ | GetAssertion _ _ _
  | ChooseAwsRole _ _ _ _ | WriteRoleToProfile _ _ _ | DurationFor _ _
  | GetStsToken _ _ _ _ _ _ | WriteStsToken _ _ _ _ _ _ | WriteFile _ _ _ => true
  | _ => false
  end.

Definition is_check (e : event) : bool :=
  match e with CheckStsToken _ _ => true | _ => false end.

Definition is_print (e : event) : bool :=
  match e with Print _ => true | _ => false end.

Definition is_write_file (e : event) : bool :=
  match e with WriteFile _ _ _ => true | _ => false end.

Definition is_write_sts_token (e : event) : bool :=
  match e with WriteStsToken _ _ _ _ _ _ => true | _ => false end.

Definition is_cookie_load (e : event) : bool :=
  match e with CookieLoad _ _ _ _ => true | _ => false end.

Definition is_cookie_save (e : event) : bool :=
  match e with CookieSave _ _ _ _ => true | _ => false end.

Definition is_choose_aws_role (e : event) : bool :=
  match e with ChooseAwsRole _ _ _ _ => true | _ => false end.

Definition is_get_sts_token (e : event) : bool :=
  match e with GetStsToken _ _ _ _ _ _ => true | _ => false end.

Definition is_log (e : event) : bool :=
  match e with Log _ _ _ => true | _ => false end.

(** Events of [main] before it decides whether to renew. *)
Definition setup_event (e : event) : bool :=
  match e with
  | Print _ | Log _ _ _ | Input _ _ | Configure _ | GetOktaProfiles _ | NewAwsAuth _ _ => true
  | _ => false
  end.

(** Events of [get_credentials]. *)
Definition issuance_event (e : event) : bool :=
  match e with
  | Print _ | Log _ _ _
  | NewOktaAuthConfig _ | NewOktaAuth _ _ | GetAssertion _ _ _
  | ChooseAwsRole _ _ _ _ | WriteRoleToProfile _ _ _ | DurationFor _ _
  | GetStsToken _ _ _ _ _ _ | WriteStsToken _ _ _ _ _ _ | WriteFile _ _ _ => true
  | _ => false
  end.

Definition is_execute_aws_args (e : event) : bool :=
  match e with ExecuteAwsArgs _ _ _ => true | _ => false end.

(** The exceptions the two [except] clauses around the cookie jar catch. *)
Definition is_os_error (e : exn) : bool :=
  match e with OSError _ | LoadError _ => true | _ => false end.

(** [seg] occurs in [t] as a run of consecutive events. *)
Definition segment (seg t : list event) : Prop :=
  exists pre post, t = pre ++ seg ++ post.

(** Every event of every run of [m] satisfies [P]. *)
Definition emits {W A} (P : event -> Prop) (m : M W A) : Prop :=
  forall w, Forall P (trace (m w)).

(** [r] with the events [t] in front of its trace. *)
Definition prepend {W A} (t : list event) (r : run W A) : run W A :=
  {| result := result r; world := world r; trace := t ++ trace r |}.

(** What [okta_switch] prints before it asks, and its prompt. *)
Definition menu_lines (l : list string) : list event :=
  Print "Available Okta profiles:" ::
  map (fun '(index, profile) => Print (pretty (index + 1)%nat +:+ ": " +:+ profile))
    (enumerate l).

Definition switch_prompt : string := "Please select Okta profile: ".

(** The export lines [console_output] builds. *)
Definition export_lines {W} (C : Collaborators W)
    (access_key_id secret_access_key session_token : pyval) : string :=
  String.concat (String (ascii_of_nat 10) "")
    [ "export AWS_ACCESS_KEY_ID=" +:+ py_str C access_key_id;
      "export AWS_SECRET_ACCESS_KEY=" +:+ py_str C secret_access_key;
      "export AWS_SESSION_TOKEN=" +:+ py_str C session_token ].

Definition cache_path {W} (C : Collaborators W) : string :=
  home W C +:+ "/.okta-credentials.cache".

(** The [OktaAuth] object [get_credentials] builds. *)
Definition okta_of (okta_profile : string) (verbose : bool) (totp_token : option string)
    (okta_username okta_password cookie_jar user_agent : option string) : OktaAuth.t :=
  {| OktaAuth.okta_profile := okta_profile; OktaAuth.verbose := verbose;
     OktaAuth.totp_token := totp_token; OktaAuth.okta_username := okta_username;
     OktaAuth.okta_password := okta_password; OktaAuth.cookie_jar := cookie_jar;
     OktaAuth.user_agent := user_agent |}.

(** The trace of [get_credentials] up to the point where it holds the
    credentials: assertion [got], role [(principal_arn, role_arn)],
    duration, and the provider's reply [sts_token] with expiration
    [expiry]. *)
Definition issuance {W} (C : Collaborators W) (aws : AwsAuth.t) (okta : OktaAuth.t)
    (persistent refresh_role : bool) (got : string * string)
    (principal_arn role_arn : string) (duration : Z) (sts_token : gmap string pyval)
    (expiry : pyval) : list event :=
  [ NewOktaAuthConfig (Ret tt);
    NewOktaAuth okta (Ret tt);
    GetAssertion okta persistent (Ret got);
    ChooseAwsRole aws (snd got) refresh_role (Ret (principal_arn, role_arn));
    WriteRoleToProfile (OktaAuth.okta_profile okta) role_arn (Ret tt);
    DurationFor (OktaAuth.okta_profile okta) (Ret duration);
    GetStsToken aws role_arn principal_arn (snd got) duration (Ret sts_token);
    Log INFO ("Session token expires on: " +:+ py_str C expiry) [] ].

(** What a successful [get_credentials] does with the credentials. *)
Definition delivery {W} (C : Collaborators W) (aws : AwsAuth.t) (verbose cache : bool)
    (access_key_id secret_access_key session_token_expiry session_token : pyval)
  : list event :=
  if truthy (AwsAuth.profile aws) then
    [ WriteStsToken aws access_key_id secret_access_key session_token_expiry session_token
        (Ret tt) ]
  else
    (if verbose then
       [ Print "Use these to set your environment variables:";
         Print (export_lines C access_key_id secret_access_key session_token) ]
     else []) ++
    (if cache then
       [ WriteFile (cache_path C)
           (export_lines C access_key_id secret_access_key session_token) (Ret tt) ]
     else []).

(** ** Role resolution and the cached-credential check, from the specification

    [AwsAuth.choose_aws_role] and [AwsAuth.check_sts_token] live in
    [oktaawscli/aws_auth.py]; the driver only calls them. *)

Module Spec.

(** Modelled from the spec: a RoleBinding, the pair of a principal
    identifier and a role identifier extracted from the assertion (the
    parser is in [oktaawscli/aws_auth.py]). *)
Record RoleBinding : Type := { principal : string; role : string }.

Global Instance RoleBinding_eq_dec : EqDecision RoleBinding.
Proof. solve_decision. Defined.

(** Modelled from the spec: where the choice of a ResolvedRole came from,
    and the two RoleResolutionErrors. *)
Inductive source : Type := OnlyOption | Cache | Interactive.

Inductive error : Type := NoRoles | InvalidSelection.

(** Modelled from the spec: the order of the role menu, by role
    identifier. *)
Definition role_le (b1 b2 : RoleBinding) : Prop := String.le (role b1) (role b2).

Global Instance role_le_dec : RelDecision role_le.
Proof. intros b1 b2. unfold role_le. apply _. Defined.

Global Instance role_le_total : Total role_le.
Proof. intros b1 b2. unfold role_le. apply total, _. Qed.

(** Modelled from the spec: the role bindings of an assertion are
    deduplicated and kept sorted by role identifier. *)
Definition sorted_bindings (bindings : list RoleBinding) : list RoleBinding :=
  merge_sort role_le (remove_dups bindings).

(** Modelled from the spec: the menu shown for interactive selection,
    the sorted bindings numbered from 1. *)
Definition menu (bindings : list RoleBinding) : list (nat * RoleBinding) :=
  imap (fun i b => (S i, b)) (sorted_bindings bindings).

(** Modelled from the spec: the answer to the menu; anything that is not
    a number between 1 and the number of entries is an error. *)
Definition select (entries : list RoleBinding) (answer : string)
  : RoleBinding * source + error :=
  match Py.int answer with
  | None => inr InvalidSelection
  | Some k =>
      if (1 <=? k) && (k <=? Z.of_nat (length entries)) then
        match entries !! Z.to_nat (k - 1) with
        | Some b => inl (b, Interactive)
        | None => inr InvalidSelection
        end
      else inr InvalidSelection
  end.

(** Modelled from the spec: the cached role decides when refresh is not
    forced and a binding with that role is among the entries. *)
Definition cached_binding (entries : list RoleBinding) (cached_role : option string)
    (force_refresh : bool) : option RoleBinding :=
  if force_refresh then None
  else
    match cached_role with
    | Some r => List.find (fun b => String.eqb (role b) r) entries
    | None => None
    end.

(** Modelled from the spec: [resolve_role], the policy of the Role
    Resolver (the code is [AwsAuth.choose_aws_role], not in this file).
    [answer] is what the user types if the menu is shown. *)
Definition resolve_role (bindings : list RoleBinding) (cached_role : option string)
    (force_refresh : bool) (answer : string) : RoleBinding * source + error :=
  match sorted_bindings bindings with
  | [] => inr NoRoles
  | [b] => inl (b, OnlyOption)
  | entries =>
      match cached_binding entries cached_role force_refresh with
      | Some b => inl (b, Cache)
      | None => select entries answer
      end
  end.

(** Modelled from the spec: a CredentialProfile record of the credential
    store, with its absolute expiration time. *)
Record CredentialProfile : Type :=
  { access_key_id : string;
    secret_access_key : string;
    session_token : string;
    expiration : Z }.

(** Modelled from the spec: the validity check on the cached credential
    (the code is [AwsAuth.check_sts_token], not in this file): a record
    exists for the profile, its token is well formed, and
    [now < expiration - safety_margin].  What makes a token well formed
    and the size of the margin are left open by the specification. *)
Definition check_sts_token (well_formed : string -> bool) (safety_margin : Z)
    (store : gmap string CredentialProfile) (profile : option string) (now : Z) : bool :=
  match profile with
  | Some name =>
      match store !! name with
      | Some c => well_formed (session_token c) && (now <? expiration c - safety_margin)
      | None => false
      end
  | None => false
  end.

End Spec.

(** ** A scripted outside world

    A small world against which the driver can be run: the terminal is a
    list of lines still to be read, the replies of the identity provider
    and of the cloud provider are fixed in advance, and the configuration,
    credential and cache stores are finite maps. *)

Module Script.

Record world : Type :=
  { stdin : list string;
    okta_profiles : list string;
    cached_valid : outcome bool;
    load_reply : outcome unit;
    save_reply : outcome unit;
    role_reply : outcome (string * string);
    sts_reply : outcome (gmap string pyval);
    last_role : gmap string string;
    credentials : gmap string (pyval * pyval * pyval * pyval);
    files : gmap string string }.

Definition read_line (prompt : string) (w : world) : outcome string * world :=
  match stdin w with
  | line :: rest =>
      (Ret line,
       {| stdin := rest; okta_profiles := okta_profiles w; cached_valid := cached_valid w;
          load_reply := load_reply w; save_reply := save_reply w;
          role_reply := role_reply w; sts_reply := sts_reply w;
          last_role := last_role w; credentials := credentials w; files := files w |})
  | [] => (Raise EOFError, w)
  end.

Definition write_file (path content : string) (w : world) : outcome unit * world :=
  (Ret tt,
   {| stdin := stdin w; okta_profiles := okta_profiles w; cached_valid := cached_valid w;
      load_reply := load_reply w; save_reply := save_reply w;
      role_reply := role_reply w; sts_reply := sts_reply w;
      last_role := last_role w; credentials := credentials w;
      files := <[path := content]> (files w) |}).

Definition write_role_to_profile (okta_profile role_arn : string) (w : world)
  : outcome unit * world :=
  (Ret tt,
   {| stdin := stdin w; okta_profiles := okta_profiles w; cached_valid := cached_valid w;
      load_reply := load_reply w; save_reply := save_reply w;
      role_reply := role_reply w; sts_reply := sts_reply w;
      last_role := <[okta_profile := role_arn]> (last_role w);
      credentials := credentials w; files := files w |}).

Definition write_sts_token (a : AwsAuth.t) (k s e t : pyval) (w : world)
  : outcome unit * world :=
  (Ret tt,
   {| stdin := stdin w; okta_profiles := okta_profiles w; cached_valid := cached_valid w;
      load_reply := load_reply w; save_reply := save_reply w;
      role_reply := role_reply w; sts_reply := sts_reply w;
      last_role := last_role w;
      credentials := <[default "" (AwsAuth.profile a) := (k, s, e, t)]> (credentials w);
      files := files w |}).

Definition reply {A} (f : world -> outcome A) (w : world) : outcome A * world := (f w, w).

Definition collaborators : Collaborators world :=
  {| version_string := "0.5.4";
     home := "/home/user";
     str_datetime := fun t => pretty t;
     os_input := read_line;
     os_write_file := write_file;
     jar_load := fun _ _ _ => reply load_reply;
     jar_save := fun _ _ _ => reply save_reply;
     config_configure := fun _ => reply (fun _ => Ret tt);
     config_get_okta_profiles := reply (fun w => Ret (okta_profiles w));
     config_init := fun _ => reply (fun _ => Ret tt);
     config_write_role_to_profile := write_role_to_profile;
     config_duration_for := fun _ => reply (fun _ => Ret 3600);
     okta_init := fun _ => reply (fun _ => Ret tt);
     okta_get_assertion := fun _ _ => reply (fun _ => Ret ("aws", "PHNhbWw+"));
     aws_init := fun _ => reply (fun _ => Ret tt);
     aws_check_sts_token := fun _ => reply cached_valid;
     aws_choose_aws_role := fun _ _ _ => reply role_reply;
     aws_get_sts_token := fun _ _ _ _ _ => reply sts_reply;
     aws_write_sts_token := write_sts_token;
     aws_execute_aws_args := fun _ _ => reply (fun _ => Ret tt) |}.

Definition sts_token : gmap string pyval :=
  {[ "AccessKeyId" := PStr "ASIAEXAMPLE";
     "SecretAccessKey" := PStr "secret";
     "SessionToken" := PStr "token";
     "Expiration" := PDatetime 1700003600 ]}.

Definition w0 : world :=
  {| stdin := []; okta_profiles := ["prod"; "dev"]; cached_valid := Ret false;
     load_reply := Ret tt; save_reply := Ret tt;
     role_reply := Ret ("arn:aws:iam::1:saml-provider/okta", "arn:aws:iam::1:role/Admin");
     sts_reply := Ret sts_token;
     last_role := ∅; credentials := ∅; files := ∅ |}.

Definition with_stdin (lines : list string) (w : world) : world :=
  {| stdin := lines; okta_profiles := okta_profiles w; cached_valid := cached_valid w;
     load_reply := load_reply w; save_reply := save_reply w;
     role_reply := role_reply w; sts_reply := sts_reply w;
     last_role := last_role w; credentials := credentials w; files := files w |}.

Definition with_cached_valid (r : outcome bool) (w : world) : world :=
  {| stdin := stdin w; okta_profiles := okta_profiles w; cached_valid := r;
     load_reply := load_reply w; save_reply := save_reply w;
     role_reply := role_reply w; sts_reply := sts_reply w;
     last_role := last_role w; credentials := credentials w; files := files w |}.

Definition with_jar (l s : outcome unit) (w : world) : world :=
  {| stdin := stdin w; okta_profiles := okta_profiles w; cached_valid := cached_valid w;
     load_reply := l; save_reply := s;
     role_reply := role_reply w; sts_reply := sts_reply w;
     last_role := last_role w; credentials := credentials w; files := files w |}.

Definition with_sts (r : outcome (gmap string pyval)) (w : world) : world :=
  {| stdin := stdin w; okta_profiles := okta_profiles w; cached_valid := cached_valid w;
     load_reply := load_reply w; save_reply := save_reply w;
     role_reply := role_reply w; sts_reply := r;
     last_role := last_role w; credentials := credentials w; files := files w |}.

Definition logger : Logger := {| handler_level := WARNING |}.

(** Options of a plain run: console destination, nothing else set. *)
Definition plain : Args.t :=
  {| Args.okta_profile := None; Args.profile := None; Args.verbose := false;
     Args.version := false; Args.debug := false; Args.force := false;
     Args.cache := false; Args.lookup := LookupOff; Args.awscli_args := [];
     Args.refresh_role := false; Args.token := None; Args.okta_username := None;
     Args.okta_password := None; Args.config := false; Args.switch := false;
     Args.cookie_jar := None; Args.persistent_okta_session := false;
     Args.user_agent := None |}.

Definition with_profile (name : string) (a : Args.t) : Args.t :=
  {| Args.okta_profile := Args.okta_profile a; Args.profile := Some name;
     Args.verbose := Args.verbose a; Args.version := Args.version a;
     Args.debug := Args.debug a; Args.force := Args.force a;
     Args.cache := Args.cache a; Args.lookup := Args.lookup a;
     Args.awscli_args := Args.awscli_args a; Args.refresh_role := Args.refresh_role a;
     Args.token := Args.token a; Args.okta_username := Args.okta_username a;
     Args.okta_password := Args.okta_password a; Args.config := Args.config a;
     Args.switch := Args.switch a; Args.cookie_jar := Args.cookie_jar a;
     Args.persistent_okta_session := Args.persistent_okta_session a;
     Args.user_agent := Args.user_agent a |}.

Definition with_cookie_jar (file : string) (a : Args.t) : Args.t :=
  {| Args.okta_profile := Args.okta_profile a; Args.profile := Args.profile a;
     Args.verbose := Args.verbose a; Args.version := Args.version a;
     Args.debug := Args.debug a; Args.force := Args.force a;
     Args.cache := Args.cache a; Args.lookup := Args.lookup a;
     Args.awscli_args := Args.awscli_args a; Args.refresh_role := Args.refresh_role a;
     Args.token := Args.token a; Args.okta_username := Args.okta_username a;
     Args.okta_password := Args.okta_password a; Args.config := Args.config a;
     Args.switch := Args.switch a; Args.cookie_jar := Some file;
     Args.persistent_okta_session := Args.persistent_okta_session a;
     Args.user_agent := Args.user_agent a |}.

(** [get_credentials] as [main] calls it for the options [a]. *)
Definition get_credentials_for (a : Args.t) : M world unit :=
  let aws_auth :=
    {| AwsAuth.profile := Args.profile a; AwsAuth.okta_profile := "default";
       AwsAuth.lookup := Args.lookup a; AwsAuth.verbose := Args.verbose a |} in
  get_credentials collaborators aws_auth "default" (Args.profile a) (Args.verbose a) logger
    (Args.token a) (Args.cache a) (Args.refresh_role a) (Args.okta_username a)
    (Args.okta_password a) (Args.cookie_jar a) (Args.persistent_okta_session a)
    (Args.user_agent a).

End Script.

(** An assertion with two distinct roles, one listed twice. *)
Definition two_roles : list Spec.RoleBinding :=
  [ {| Spec.principal := "arn:aws:iam::1:saml-provider/okta";
       Spec.role := "arn:aws:iam::1:role/ReadOnly" |};
    {| Spec.principal := "arn:aws:iam::1:saml-provider/okta";
       Spec.role := "arn:aws:iam::1:role/Admin" |};
    {| Spec.principal := "arn:aws:iam::1:saml-provider/okta";
       Spec.role := "arn:aws:iam::1:role/ReadOnly" |} ].

(** ** [UnionParamType] *)

Module Click.

(** What [t.convert(value, param, ctx)] of a [click.ParamType] does: it
    returns the converted value, raises [click.BadParameter], or raises
    something else. *)
Inductive conv (A : Type) : Type :=
| Converted (a : A)
| BadParameter (msg : string)
| Fails (e : exn).
Arguments Converted {A} a.
Arguments BadParameter {A} msg.
Arguments Fails {A} e.

(** The loop of [UnionParamType.convert] from the type [types] on, with
    the value of [last_error] so far; [raise None] is a [TypeError]. *)
Fixpoint convert_from {V A} (types : list (V -> conv A)) (value : V)
    (last_error : option string) : conv A :=
  match types with
  | [] =>
      match last_error with
      | Some msg => BadParameter msg
      | None => Fails (OtherError "TypeError")
      end
  | t :: rest =>
      match t value with
      | Converted a => Converted a
      | BadParameter msg => convert_from rest value (Some msg)
      | Fails e => Fails e
      end
  end.

Definition convert {V A} (click_param_types : list (V -> conv A)) (value : V) : conv A :=
  convert_from click_param_types value None.

Definition is_bad_parameter {A} (c : conv A) : bool :=
  match c with BadParameter _ => true | _ => false end.

End Click.

(** ** More about traces *)

Definition raised {A} (r : outcome A) : option exn :=
  match r with Ret _ => None | Raise e => Some e end.

(** The exception a call came back with, if it raised. *)
Definition reply_exn (e : event) : option exn :=
  match e with
  | Print _ | Log _ _ _ => None
  | Input _ r => raised r
  | WriteFile _ _ r => raised r
  | Configure r => raised r
  | GetOktaProfiles r => raised r
  | NewAwsAuth _ r => raised r
  | CheckStsToken _ r => raised r
  | CookieLoad _ _ _ r => raised r
  | CookieSave _ _ _ r => raised r
  | NewOktaAuthConfig r => raised r
  | NewOktaAuth _ r => raised r
  | GetAssertion _ _ r => raised r
  | ChooseAwsRole _ _ _ r => raised r
  | WriteRoleToProfile _ _ r => raised r
  | DurationFor _ r => raised r
  | GetStsToken _ _ _ _ _ r => raised r
  | WriteStsToken _ _ _ _ _ r => raised r
  | ExecuteAwsArgs _ _ r => raised r
  end.

(** The exceptions [main] handles itself: an [OSError] (or [LoadError])
    of loading or saving the cookie jar. *)
Definition caught_by_main (ev : event) (e : exn) : bool :=
  (is_cookie_load ev || is_cookie_save ev) && is_os_error e.

Definition never_caught (ev : event) (e : exn) : bool := false.

(** In every run of [m], a call that raises an exception which [c] does
    not mark as caught is the last thing the run does, and the run raises
    that exception. *)
Definition stops_unless {W A} (c : event -> exn -> bool) (m : M W A) : Prop :=
  forall w ev e,
    In ev (trace (m w)) -> reply_exn ev = Some e -> c ev e = false ->
    result (m w) = Raise e /\ exists pre, trace (m w) = pre ++ [ev].

(** The method (or built-in) an event is a call of. *)
Definition kind (e : event) : nat :=
  match e with
  | Print _ => 0 | Log _ _ _ => 1 | Input _ _ => 2 | WriteFile _ _ _ => 3
  | Configure _ => 4 | GetOktaProfiles _ => 5 | NewAwsAuth _ _ => 6
  | CheckStsToken _ _ => 7 | CookieLoad _ _ _ _ => 8 | CookieSave _ _ _ _ => 9
  | NewOktaAuthConfig _ => 10 | NewOktaAuth _ _ => 11 | GetAssertion _ _ _ => 12
  | ChooseAwsRole _ _ _ _ => 13 | WriteRoleToProfile _ _ _ => 14 | DurationFor _ _ => 15
  | GetStsToken _ _ _ _ _ _ => 16 | WriteStsToken _ _ _ _ _ _ => 17
  | ExecuteAwsArgs _ _ _ => 18
  end%nat.

Definition of_kind (n : nat) (e : event) : bool := Nat.eqb (kind e) n.

Definition count_events (p : event -> bool) (t : list event) : nat :=
  length (List.filter p t).

(** Every run of [m] has at most [n] events satisfying [p]. *)
Definition at_most {W A} (n : nat) (p : event -> bool) (m : M W A) : Prop :=
  forall w, (count_events p (trace (m w)) <= n)%nat.

(** ** Traces and the outside world *)

(** The call recorded by [ev], made in the world [w], came back with the
    reply the event records and left the world [w']: the method the event
    names was applied to the arguments the event carries.  Printing and
    logging leave the outside world as it is. *)
Definition performed {W} (C : Collaborators W) (ev : event) (w w' : W) : Prop :=
  match ev with
  | Print _ | Log _ _ _ => w' = w
  | Input prompt r => os_input W C prompt w = (r, w')
  | WriteFile path content r => os_write_file W C path content w = (r, w')
  | Configure r => exists logger, config_configure W C logger w = (r, w')
  | GetOktaProfiles r => config_get_okta_profiles W C w = (r, w')
  | NewAwsAuth a r => aws_init W C a w = (r, w')
  | CheckStsToken a r => aws_check_sts_token W C a w = (r, w')
  | CookieLoad f d x r => jar_load W C f d x w = (r, w')
  | CookieSave f d x r => jar_save W C f d x w = (r, w')
  | NewOktaAuthConfig r => exists logger, config_init W C logger w = (r, w')
  | NewOktaAuth o r => okta_init W C o w = (r, w')
  | GetAssertion o persistent r => okta_get_assertion W C o persistent w = (r, w')
  | ChooseAwsRole a assertion refresh r =>
      aws_choose_aws_role W C a assertion refresh w = (r, w')
  | WriteRoleToProfile okta_profile role_arn r =>
      config_write_role_to_profile W C okta_profile role_arn w = (r, w')
  | DurationFor okta_profile r => config_duration_for W C okta_profile w = (r, w')
  | GetStsToken a role_arn principal_arn assertion duration r =>
      aws_get_sts_token W C a role_arn principal_arn assertion duration w = (r, w')
  | WriteStsToken a k s x t r => aws_write_sts_token W C a k s x t w = (r, w')
  | ExecuteAwsArgs a args r => aws_execute_aws_args W C a args w = (r, w')
  end.

(** The calls recorded in [t], made one after the other from the world
    [w], each in the world the one before left, end in the world [w']. *)
Fixpoint replays {W} (C : Collaborators W) (t : list event) (w w' : W) : Prop :=
  match t with
  | [] => w' = w
  | ev :: t' => exists w1, performed C ev w w1 /\ replays C t' w1 w'
  end.

(** The trace of every run of [m] accounts for what the run did to the
    outside world. *)
Definition faithful {W A} (C : Collaborators W) (m : M W A) : Prop :=
  forall w, replays C (trace (m w)) w (world (m w)).

(** The keys [get_credentials] reads from the provider's reply, in the
    order it reads them, and the first of them the reply lacks. *)
Definition sts_keys : list string :=
  ["AccessKeyId"; "SecretAccessKey"; "SessionToken"; "Expiration"].

Definition first_missing (sts_token : gmap string pyval) : option string :=
  List.find (fun key => bool_decide (sts_token !! key = None)) sts_keys.

(** The Okta profile [main] works with when [--switch] is off. *)
Definition given_okta_profile (a : Args.t) : string :=
  match Args.okta_profile a with
  | Some s => if truthy (Some s) then s else "default"
  | None => "default"
  end.

(** ** More scripted runs *)

Module Scenario.

Definition with_okta_profiles (ps : list string) (w : Script.world) : Script.world :=
  {| Script.stdin := Script.stdin w; Script.okta_profiles := ps;
     Script.cached_valid := Script.cached_valid w;
     Script.load_reply := Script.load_reply w; Script.save_reply := Script.save_reply w;
     Script.role_reply := Script.role_reply w; Script.sts_reply := Script.sts_reply w;
     Script.last_role := Script.last_role w; Script.credentials := Script.credentials w;
     Script.files := Script.files w |}.

Definition with_role (r : outcome (string * string)) (w : Script.world) : Script.world :=
  {| Script.stdin := Script.stdin w; Script.okta_profiles := Script.okta_profiles w;
     Script.cached_valid := Script.cached_valid w;
     Script.load_reply := Script.load_reply w; Script.save_reply := Script.save_reply w;
     Script.role_reply := r; Script.sts_reply := Script.sts_reply w;
     Script.last_role := Script.last_role w; Script.credentials := Script.credentials w;
     Script.files := Script.files w |}.

(** Options: everything as in [a] but the listed field. *)
Definition options (a : Args.t) (okta_profile : option string)
    (verbose version force cache config switch : bool) (awscli_args : list string) : Args.t :=
  {| Args.okta_profile := okta_profile; Args.profile := Args.profile a;
     Args.verbose := verbose; Args.version := version;
     Args.debug := Args.debug a; Args.force := force;
     Args.cache := cache; Args.lookup := Args.lookup a;
     Args.awscli_args := awscli_args; Args.refresh_role := Args.refresh_role a;
     Args.token := Args.token a; Args.okta_username := Args.okta_username a;
     Args.okta_password := Args.okta_password a; Args.config := config;
     Args.switch := switch; Args.cookie_jar := Args.cookie_jar a;
     Args.persistent_okta_session := Args.persistent_okta_session a;
     Args.user_agent := Args.user_agent a |}.

Definition with_okta_profile (o : option string) (a : Args.t) : Args.t :=
  options a o (Args.verbose a) (Args.version a) (Args.force a) (Args.cache a)
    (Args.config a) (Args.switch a) (Args.awscli_args a).

Definition with_version (a : Args.t) : Args.t :=
  options a (Args.okta_profile a) (Args.verbose a) true (Args.force a) (Args.cache a)
    (Args.config a) (Args.switch a) (Args.awscli_args a).

Definition with_force (a : Args.t) : Args.t :=
  options a (Args.okta_profile a) (Args.verbose a) (Args.version a) true (Args.cache a)
    (Args.config a) (Args.switch a) (Args.awscli_args a).

Definition with_flags (verbose cache : bool) (a : Args.t) : Args.t :=
  options a (Args.okta_profile a) verbose (Args.version a) (Args.force a) cache
    (Args.config a) (Args.switch a) (Args.awscli_args a).

Definition with_switch (a : Args.t) : Args.t :=
  options a (Args.okta_profile a) (Args.verbose a) (Args.version a) (Args.force a)
    (Args.cache a) (Args.config a) true (Args.awscli_args a).

Definition with_awscli_args (args : list string) (a : Args.t) : Args.t :=
  options a (Args.okta_profile a) (Args.verbose a) (Args.version a) (Args.force a)
    (Args.cache a) (Args.config a) (Args.switch a) args.

(** A reply of the provider without the secret key. *)
Definition sts_token_without_secret : gmap string pyval :=
  {[ "AccessKeyId" := PStr "ASIAEXAMPLE";
     "SessionToken" := PStr "token";
     "Expiration" := PDatetime 1700003600 ]}.

(** Two parameter types in the style of [click.BOOL] and [click.Path]. *)
Definition flag_type (value : string) : Click.conv (bool + string) :=
  if String.eqb value "true" then Click.Converted (inl true)
  else if String.eqb value "false" then Click.Converted (inl false)
  else Click.BadParameter (value +:+ " is not a valid boolean").

Definition path_type (value : string) : Click.conv (bool + string) :=
  if String.eqb value "" then Click.BadParameter "empty path"
  else Click.Converted (inr value).

End Scenario.

(** * Properties *)

(** ** Runs of sequenced actions *)

Section RunFacts.
Context {W : Type}.

Lemma call_eq {A} (f : W -> outcome A * W) (ev : outcome A -> event) w :
  call f ev w = {| result := fst (f w); world := snd (f w); trace := [ev (fst (f w))] |}.
Proof. unfold call. destruct (f w). reflexivity. Qed.

Lemma prepend_nil {A} (r : run W A) : prepend [] r = r.
Proof. destruct r. reflexivity. Qed.

Lemma bind_ret {A B} (a : A) (k : A -> M W B) w : bind (ret a) k w = k a w.
Proof. unfold bind, ret. cbn. destruct (k a w). reflexivity. Qed.

Lemma bind_raise {A B} e (k : A -> M W B) w :
  bind (raise e) k w = {| result := Raise e; world := w; trace := [] |}.
Proof. reflexivity. Qed.

Lemma bind_emit {B} e (k : unit -> M W B) w : bind (emit e) k w = prepend [e] (k tt w).
Proof. reflexivity. Qed.

Lemma bind_call {A B} (f : W -> outcome A * W) ev (k : A -> M W B) w :
  bind (call f ev) k w =
  match fst (f w) with
  | Ret a => prepend [ev (Ret a)] (k a (snd (f w)))
  | Raise e => {| result := Raise e; world := snd (f w); trace := [ev (Raise e)] |}
  end.
Proof. unfold bind. rewrite call_eq. cbn. destruct (fst (f w)); reflexivity. Qed.

Lemma bind_of_option {A B} (o : option A) e (k : A -> M W B) w :
  bind (of_option o e) k w =
  match o with
  | Some a => k a w
  | None => {| result := Raise e; world := w; trace := [] |}
  end.
Proof. destruct o; [apply bind_ret | reflexivity]. Qed.

Lemma bind_assoc {A B D} (m : M W A) (k : A -> M W B) (k' : B -> M W D) w :
  bind (bind m k) k' w = bind m (fun a => bind (k a) k') w.
Proof.
  unfold bind. destruct (m w) as [[a|e] w1 t1]; cbn; [|reflexivity].
  destruct (k a w1) as [[b|e] w2 t2]; cbn; [|reflexivity].
  by rewrite app_assoc.
Qed.

Lemma bind_eq {A B} (m : M W A) (k : A -> M W B) w r w1 t1 :
  m w = {| result := r; world := w1; trace := t1 |} ->
  bind m k w =
  match r with
  | Ret a => prepend t1 (k a w1)
  | Raise e => {| result := Raise e; world := w1; trace := t1 |}
  end.
Proof. intros H. unfold bind. rewrite H. destruct r; reflexivity. Qed.

Lemma for_each_emit {A} (l : list A) (body : A -> M W unit) (ev : A -> event) (w : W) :
  (forall x w', body x w' = {| result := Ret tt; world := w'; trace := [ev x] |}) ->
  for_each l body w = {| result := Ret tt; world := w; trace := map ev l |}.
Proof.
  intros H. revert w. induction l as [|x l IH]; intros w; [reflexivity|].
  cbn [for_each]. unfold bind. rewrite H. cbn [result world trace]. rewrite IH.
  reflexivity.
Qed.

Lemma emits_ret {A} P (a : A) : emits P (@ret W A a).
Proof. intros w. constructor. Qed.

Lemma emits_raise {A} P e : emits P (@raise W A e).
Proof. intros w. constructor. Qed.

Lemma emits_emit (P : event -> Prop) e : P e -> emits P (@emit W e).
Proof. intros H w. repeat constructor. exact H. Qed.

Lemma emits_call {A} (P : event -> Prop) (f : W -> outcome A * W) ev :
  (forall r, P (ev r)) -> emits P (call f ev).
Proof. intros H w. rewrite call_eq. repeat constructor. apply H. Qed.

Lemma emits_bind {A B} P (m : M W A) (k : A -> M W B) :
  emits P m -> (forall a, emits P (k a)) -> emits P (bind m k).
Proof.
  intros Hm Hk w. unfold bind. specialize (Hm w).
  destruct (result (m w)); cbn [trace]; [|exact Hm].
  apply Forall_app. split; [exact Hm | apply Hk].
Qed.

Lemma emits_try_except {A} P (m : M W A) h :
  emits P m -> (forall e k, h e = Some k -> emits P k) -> emits P (try_except m h).
Proof.
  intros Hm Hh w. unfold try_except. specialize (Hm w).
  destruct (result (m w)); [exact Hm|].
  destruct (h e) eqn:He; [|exact Hm].
  cbn [trace]. apply Forall_app. split; [exact Hm | eapply Hh, He].
Qed.

Lemma emits_for_each {A} P (l : list A) (body : A -> M W unit) :
  (forall x, emits P (body x)) -> emits P (for_each l body).
Proof.
  intros H. induction l as [|x l IH]; cbn [for_each].
  - apply emits_ret.
  - apply emits_bind; auto.
Qed.

Lemma emits_of_option {A} P (o : option A) e : emits P (@of_option W A o e).
Proof. destruct o; [apply emits_ret | apply emits_raise]. Qed.

Lemma emits_impl {A} (P Q : event -> Prop) (m : M W A) :
  (forall e, P e -> Q e) -> emits P m -> emits Q m.
Proof. intros H Hm w. eapply Forall_impl; [apply Hm | exact H]. Qed.

Lemma segment_here seg post : segment seg (seg ++ post).
Proof. exists [], post. reflexivity. Qed.

Lemma segment_app_r seg pre t : segment seg t -> segment seg (pre ++ t).
Proof. intros (p & q & ->). exists (pre ++ p), q. by rewrite <- app_assoc. Qed.

Lemma segment_app_l seg t post : segment seg t -> segment seg (t ++ post).
Proof.
  intros (p & q & ->). exists p, (q ++ post). by rewrite <- !app_assoc.
Qed.

End RunFacts.

(** Decompose [emits] goals along the structure of the action. *)
Ltac emits_step :=
  lazymatch goal with
  | |- emits _ (bind _ _) => apply emits_bind; [|intros ?]
  | |- emits _ (ret _) => apply emits_ret
  | |- emits _ (raise _) => apply emits_raise
  | |- emits _ (of_option _ _) => apply emits_of_option
  | |- emits _ (getitem _ _) => apply emits_of_option
  | |- emits _ (call _ _) => apply emits_call; intros ?; reflexivity
  | |- emits _ (emit _) => apply emits_emit; reflexivity
  | |- emits _ (print _) => apply emits_emit; reflexivity
  | |- emits _ (log _ _ _) => apply emits_emit; reflexivity
  | |- emits _ (for_each _ _) => apply emits_for_each; intros ?
  | |- emits _ (try_except _ _) =>
      apply emits_try_except;
      [|let e := fresh "e" in let k := fresh "k" in let H := fresh "H" in
        intros e k H; destruct e; inversion H; subst; clear H]
  | |- emits _ (if ?b then _ else _) => destruct b
  | |- emits _ (match ?x with _ => _ end) => destruct x
  | |- emits _ (let '(_, _) := ?x in _) => destruct x
  end.

Ltac emits_auto := repeat emits_step.

Section DriverFacts.
Context {W : Type} (C : Collaborators W).

Lemma main_blocks (a : Args.t) :
  main C a =
  (main_version C a ;;
   main_config C a ;;
   okta_profile <- main_switch C a ;;
   let aws_auth := main_aws_auth a okta_profile in
   call (aws_init W C aws_auth) (NewAwsAuth aws_auth) ;;
   renew <- main_check C a aws_auth ;;
   (if renew then main_renew C a okta_profile aws_auth else ret tt) ;;
   main_awscli C a aws_auth).
Proof. reflexivity. Qed.

Lemma okta_switch_events logger :
  emits (fun e => setup_event e = true) (okta_switch C logger).
Proof. unfold okta_switch. emits_auto. Qed.

Lemma console_output_events k s t v :
  emits (fun e => is_print e = true) (console_output C k s t v).
Proof. unfold console_output. emits_auto. Qed.

Lemma get_credentials_events aws okta_profile profile verbose logger totp cache refresh
    user pass jar persistent agent :
  emits (fun e => issuance_event e = true)
    (get_credentials C aws okta_profile profile verbose logger totp cache refresh
       user pass jar persistent agent).
Proof.
  unfold get_credentials. emits_auto.
  eapply emits_impl; [|apply console_output_events].
  intros []; simpl; congruence.
Qed.

(** *** [okta_switch] *)

(** Every run of [okta_switch], spelled out. *)
Lemma okta_switch_run logger w :
  okta_switch C logger w =
  let '(r, w1) := config_get_okta_profiles W C w in
  match r with
  | Raise e => {| result := Raise e; world := w1; trace := [GetOktaProfiles (Raise e)] |}
  | Ret ps =>
      let l := Py.sorted ps in
      if (length l =? 1)%nat then
        {| result := match Py.index l 0 with Some p => Ret p | None => Raise IndexError end;
           world := w1; trace := [GetOktaProfiles (Ret ps)] |}
      else
        let '(r2, w2) := os_input W C switch_prompt w1 in
        let shown := GetOktaProfiles (Ret ps) :: menu_lines l ++ [Input switch_prompt r2] in
        match r2 with
        | Raise e => {| result := Raise e; world := w2; trace := shown |}
        | Ret answer =>
            match Py.int answer with
            | None => {| result := Raise ValueError; world := w2; trace := shown |}
            | Some n =>
                match Py.index l (n - 1) with
                | None => {| result := Raise IndexError; world := w2; trace := shown |}
                | Some p =>
                    {| result := Ret p; world := w2;
                       trace := shown ++ [Log DEBUG ("Selected " +:+ p) []] |}
                end
            end
        end
  end.
Proof.
  unfold okta_switch, switch_prompt. rewrite bind_call.
  destruct (config_get_okta_profiles W C w) as [[ps|e] w1]; cbn [fst snd];
    [|reflexivity].
  cbv zeta.
  destruct (length (Py.sorted ps) =? 1)%nat.
  - rewrite bind_ret. unfold of_option.
    destruct (Py.index (Py.sorted ps) 0); reflexivity.
  - unfold print at 1, log. rewrite !bind_assoc, bind_emit, bind_assoc.
    erewrite (bind_eq (for_each _ _)).
    2:{ apply (for_each_emit _ _
                 (fun '(index, profile) =>
                    Print (pretty (index + 1)%nat +:+ ": " +:+ profile))).
        intros [] ?. reflexivity. }
    rewrite bind_assoc, bind_call.
    destruct (os_input W C "Please select Okta profile: " w1) as [[answer|e] w2];
      cbn [fst snd].
    2:{ unfold prepend, menu_lines. cbn [result world trace app]. reflexivity. }
    rewrite bind_assoc, bind_of_option.
    destruct (Py.int answer) as [n|].
    2:{ unfold prepend, menu_lines. cbn [result world trace app].
        rewrite ?app_nil_r. reflexivity. }
    rewrite bind_assoc, bind_of_option.
    destruct (Py.index (Py.sorted ps) (n - 1)) as [p|] eqn:Hp.
    2:{ unfold prepend, menu_lines. cbn [result world trace app].
        rewrite ?app_nil_r. reflexivity. }
    rewrite bind_assoc, bind_emit, bind_ret. unfold of_option. rewrite Hp.
    unfold prepend, menu_lines. cbn [result world trace ret app].
    rewrite <- !app_assoc. reflexivity.
Qed.

End DriverFacts.
(** ** Built-ins *)

Example int_ok : map Py.int ["2"; " 12 "; "-3"; "+0"; "1_000"; "007"]
               = [Some 2; Some 12; Some (-3); Some 0; Some 1000; Some 7].
Proof. vm_compute. reflexivity. Qed.

Example int_bad : map Py.int [""; "x"; "-"; "1__0"; "_1"; "1_"; "- 1"; "1.5"]
                = [None; None; None; None; None; None; None; None].
Proof. vm_compute. reflexivity. Qed.

(** Digits and white space beyond ASCII count: fullwidth and Arabic-Indic
    digits, a no-break space (bytes 194 160) before the digit. *)
Example int_unicode :
  map Py.int ["２"; "٣"; "１_２"; "-٣٣"; String (ascii_of_nat 194) (String (ascii_of_nat 160) "2")]
  = [Some 2; Some 3; Some 12; Some (-33); Some 2].
Proof. vm_compute. reflexivity. Qed.

(** The separators 28 to 31 are not skipped, and superscript or circled
    digits are no decimal digits. *)
Example int_not_skipped :
  map Py.int [String (ascii_of_nat 28) "2"; String "2" (String (ascii_of_nat 31) "");
              "²"; "①"; String (ascii_of_nat 255) "1"]
  = [None; None; None; None; None].
Proof. vm_compute. reflexivity. Qed.

(** UTF-8: decoding inverts encoding. *)
Lemma byte_value n : 0 <= n < 256 -> Z.of_nat (nat_of_ascii (Py.byte n)) = n.
Proof. intros H. unfold Py.byte. rewrite nat_ascii_embedding by lia. lia. Qed.

Lemma continuation_byte m : 0 <= m < 64 -> Py.continuation (Py.byte (128 + m)) = Some m.
Proof.
  intros H. unfold Py.continuation. rewrite byte_value by lia. cbv zeta.
  destruct (Z.leb_spec 128 (128 + m)); [|lia].
  destruct (Z.ltb_spec (128 + m) 192); [|lia].
  cbn [andb]. f_equal. lia.
Qed.

Lemma scalar_in_range least c : least <= c <= 1114111 -> Py.scalar least c = Some c.
Proof.
  intros H. unfold Py.scalar.
  destruct (Z.leb_spec least c); [|lia]. destruct (Z.leb_spec c 1114111); [|lia].
  reflexivity.
Qed.

Lemma code_points_cons b0 l1 :
  Py.code_points (b0 :: l1) =
  let n0 := Z.of_nat (nat_of_ascii b0) in
  if n0 <? 128 then cons n0 <$> Py.code_points l1
  else if n0 <? 192 then None
  else if n0 <? 224 then
    match l1 with
    | b1 :: l2 =>
        c1 ← Py.continuation b1;
        c ← Py.scalar 128 ((n0 - 192) * 64 + c1);
        cons c <$> Py.code_points l2
    | _ => None
    end
  else if n0 <? 240 then
    match l1 with
    | b1 :: b2 :: l3 =>
        c1 ← Py.continuation b1;
        c2 ← Py.continuation b2;
        c ← Py.scalar 2048 (((n0 - 224) * 64 + c1) * 64 + c2);
        cons c <$> Py.code_points l3
    | _ => None
    end
  else if n0 <? 248 then
    match l1 with
    | b1 :: b2 :: b3 :: l4 =>
        c1 ← Py.continuation b1;
        c2 ← Py.continuation b2;
        c3 ← Py.continuation b3;
        c ← Py.scalar 65536 ((((n0 - 240) * 64 + c1) * 64 + c2) * 64 + c3);
        cons c <$> Py.code_points l4
    | _ => None
    end
  else None.
Proof. reflexivity. Qed.

Ltac decide_ltb :=
  repeat match goal with
         | |- context [?a <? ?b] => destruct (Z.ltb_spec a b); [try lia | try lia]
         end.

Lemma code_points_char c l :
  0 <= c <= 1114111 ->
  Py.code_points (Py.utf8_char c ++ l) = cons c <$> Py.code_points l.
Proof.
  intros Hc. unfold Py.utf8_char.
  destruct (Z.ltb_spec c 128) as [H1|H1];
    [|destruct (Z.ltb_spec c 2048) as [H2|H2];
      [|destruct (Z.ltb_spec c 65536) as [H3|H3]]];
    cbn [app]; rewrite code_points_cons; cbv zeta.
  - rewrite byte_value by lia. destruct (Z.ltb_spec c 128); [reflexivity | lia].
  - assert (0 <= c mod 64 < 64) by (Z.to_euclidean_division_equations; lia).
    assert (2 <= c / 64 < 32) by (Z.to_euclidean_division_equations; lia).
    rewrite byte_value by lia. decide_ltb.
    rewrite continuation_byte by lia. cbn [mbind option_bind].
    replace ((192 + c / 64 - 192) * 64 + c mod 64) with c
      by (Z.to_euclidean_division_equations; lia).
    rewrite scalar_in_range by lia. reflexivity.
  - assert (0 <= c mod 64 < 64) by (Z.to_euclidean_division_equations; lia).
    assert (0 <= (c / 64) mod 64 < 64) by (Z.to_euclidean_division_equations; lia).
    assert (0 <= c / 4096 < 16) by (Z.to_euclidean_division_equations; lia).
    rewrite byte_value by lia. decide_ltb.
    rewrite !continuation_byte by lia. cbn [mbind option_bind].
    replace (((224 + c / 4096 - 224) * 64 + (c / 64) mod 64) * 64 + c mod 64) with c.
    2:{ Z.to_euclidean_division_equations; lia. }
    rewrite scalar_in_range by lia. reflexivity.
  - assert (0 <= c mod 64 < 64) by (Z.to_euclidean_division_equations; lia).
    assert (0 <= (c / 64) mod 64 < 64) by (Z.to_euclidean_division_equations; lia).
    assert (0 <= (c / 4096) mod 64 < 64) by (Z.to_euclidean_division_equations; lia).
    assert (0 <= c / 262144 < 8) by (Z.to_euclidean_division_equations; lia).
    rewrite byte_value by lia. decide_ltb.
    rewrite !continuation_byte by lia. cbn [mbind option_bind].
    replace ((((240 + c / 262144 - 240) * 64 + (c / 4096) mod 64) * 64 + (c / 64) mod 64) * 64
             + c mod 64) with c.
    2:{ Z.to_euclidean_division_equations; lia. }
    rewrite scalar_in_range by lia. reflexivity.
Qed.

(** The code points of an encoded string are the code points encoded. *)
Lemma code_points_utf8 (l : list Z) :
  Forall (fun c => 0 <= c <= 1114111) l ->
  Py.code_points (list_ascii_of_string (Py.utf8 l)) = Some l.
Proof.
  unfold Py.utf8. rewrite list_ascii_of_string_of_list_ascii.
  induction 1 as [|c l Hc Hl IH]; [reflexivity|].
  cbn [flat_map]. rewrite code_points_char by exact Hc. rewrite IH. reflexivity.
Qed.

(** [int] reads an encoded string by its code points. *)
Lemma int_utf8 (l : list Z) :
  Forall (fun c => 0 <= c <= 1114111) l ->
  Py.int (Py.utf8 l) = Py.int_of_code_points l.
Proof. intros H. unfold Py.int. rewrite (code_points_utf8 l H). reflexivity. Qed.

Example int_by_code_point :
  map (fun l => Py.int (Py.utf8 l))
    [[65298]; [160; 50]; [8195; 45; 1635; 10]; [28; 50]; [50; 31]; [178]; [55296; 49]]
  = [Some 2; Some 2; Some (-3); None; None; None; None].
Proof. vm_compute. reflexivity. Qed.

Example index_ok : map (Py.index ["a"; "b"; "c"]) [0; 2; 3; -1; -3; -4]
                 = [Some "a"; Some "c"; None; Some "c"; Some "a"; None].
Proof. vm_compute. reflexivity. Qed.

Example sorted_ok : Py.sorted ["prod"; "default"; "dev"] = ["default"; "dev"; "prod"].
Proof. vm_compute. reflexivity. Qed.

Lemma sorted_length (l : list string) : length (Py.sorted l) = length l.
Proof. apply Permutation_length, merge_sort_Permutation. Qed.

Lemma sorted_Sorted (l : list string) : Sorted String.le (Py.sorted l).
Proof. apply Sorted_merge_sort, _. Qed.

Lemma index_nonneg {A} (l : list A) (i : Z) :
  0 <= i < Z.of_nat (length l) ->
  exists x, l !! Z.to_nat i = Some x /\ Py.index l i = Some x.
Proof.
  intros H. destruct (lookup_lt_is_Some_2 l (Z.to_nat i)) as [x Hx]; [lia|].
  exists x. split; [exact Hx|]. unfold Py.index.
  replace (0 <=? i) with true by lia. replace (i <? Z.of_nat (length l)) with true by lia.
  exact Hx.
Qed.

Lemma index_negative {A} (l : list A) (i : Z) :
  - Z.of_nat (length l) <= i < 0 ->
  exists x, l !! Z.to_nat (Z.of_nat (length l) + i) = Some x /\ Py.index l i = Some x.
Proof.
  intros H.
  destruct (lookup_lt_is_Some_2 l (Z.to_nat (Z.of_nat (length l) + i))) as [x Hx]; [lia|].
  exists x. split; [exact Hx|]. unfold Py.index.
  replace (0 <=? i) with false by lia. replace (i <? 0) with true by lia.
  replace (- Z.of_nat (length l) <=? i) with true by lia. exact Hx.
Qed.

Lemma index_out_of_range {A} (l : list A) (i : Z) :
  i < - Z.of_nat (length l) \/ Z.of_nat (length l) <= i -> Py.index l i = None.
Proof.
  intros H. unfold Py.index.
  destruct (0 <=? i) eqn:E1, (i <? Z.of_nat (length l)) eqn:E2,
    (- Z.of_nat (length l) <=? i) eqn:E3, (i <? 0) eqn:E4; try reflexivity; lia.
Qed.

Section SwitchFacts.
Context {W : Type} (C : Collaborators W).

Lemma menu_lines_prints l e : In e (menu_lines l) -> is_print e = true.
Proof.
  unfold menu_lines. intros [<-|H]; [reflexivity|].
  apply in_map_iff in H as ([i p] & <- & _). reflexivity.
Qed.

(** What a run of [okta_switch] that asked its question did: the profiles
    it read, the answer it got, its result and its trace. *)
Lemma okta_switch_asked logger w ps answer :
  In (GetOktaProfiles (Ret ps)) (trace (okta_switch C logger w)) ->
  In (Input switch_prompt (Ret answer)) (trace (okta_switch C logger w)) ->
  result (okta_switch C logger w) =
  match Py.int answer with
  | None => Raise ValueError
  | Some n =>
      match Py.index (Py.sorted ps) (n - 1) with
      | None => Raise IndexError
      | Some p => Ret p
      end
  end.
Proof.
  rewrite okta_switch_run.
  destruct (config_get_okta_profiles W C w) as [[ps'|e] w1]; cbn [trace].
  2:{ intros [H|[]]; discriminate H. }
  cbv zeta. destruct (length (Py.sorted ps') =? 1)%nat.
  { cbn [trace]. intros _ [H|[]]; discriminate H. }
  destruct (os_input W C switch_prompt w1) as [r2 w2].
  assert (Hps : forall t, In (GetOktaProfiles (Ret ps))
             (GetOktaProfiles (Ret ps') :: menu_lines (Py.sorted ps') ++ t) ->
             (forall e, In e t -> e <> GetOktaProfiles (Ret ps)) -> ps' = ps).
  { intros t [H|H] Ht; [congruence|]. apply in_app_or in H as [H|H].
    - apply menu_lines_prints in H. discriminate H.
    - destruct (Ht _ H eq_refl). }
  assert (Hans : forall t, In (Input switch_prompt (Ret answer))
             (GetOktaProfiles (Ret ps') :: menu_lines (Py.sorted ps') ++ Input switch_prompt r2 :: t) ->
             (forall e, In e t -> is_log e = true) -> r2 = Ret answer).
  { intros t [H|H] Ht; [discriminate H|]. apply in_app_or in H as [H|[H|H]].
    - apply menu_lines_prints in H. discriminate H.
    - congruence.
    - apply Ht in H. discriminate H. }
  destruct r2 as [answer'|e]; cbn [trace].
  2:{ intros _ H. apply (Hans []) in H; [discriminate H | intros ? []]. }
  destruct (Py.int answer') as [n|] eqn:Hn; cbn [trace].
  2:{ intros H1 H2. apply (Hps [_]) in H1; [|intros ? [<-|[]]; discriminate].
      apply (Hans []) in H2; [|intros ? []]. injection H2 as ->. subst ps'.
      rewrite Hn. reflexivity. }
  destruct (Py.index (Py.sorted ps') (n - 1)) as [p|] eqn:Hp; cbn [trace result].
  - cbn [app]. rewrite <- app_assoc. cbn [app]. intros H1 H2.
    apply (Hps [_; _]) in H1; [|intros ? [<-|[<-|[]]]; discriminate].
    apply (Hans [_]) in H2; [|intros ? [<-|[]]; reflexivity].
    injection H2 as ->. subst ps'. rewrite Hn, Hp. reflexivity.
  - intros H1 H2. apply (Hps [_]) in H1; [|intros ? [<-|[]]; discriminate].
    apply (Hans []) in H2; [|intros ? []]. injection H2 as ->. subst ps'.
    rewrite Hn, Hp. reflexivity.
Qed.

(** When [okta_switch] asks and the answer parses as the number [a], with
    [n] profiles configured, an answer from 1 to [n] selects that entry of
    the sorted list, an answer from [-(n-1)] to 0 selects entry [n + a]
    counted from 1 (the list is indexed from its end, 0 being the last
    profile), and every other answer, [-n] included, ends the run with
    [IndexError]. *)
Lemma okta_switch_answer_cases logger w ps answer a :
  In (GetOktaProfiles (Ret ps)) (trace (okta_switch C logger w)) ->
  In (Input switch_prompt (Ret answer)) (trace (okta_switch C logger w)) ->
  Py.int answer = Some a ->
  (1 <= a <= Z.of_nat (length ps) ->
   exists p, Py.sorted ps !! Z.to_nat (a - 1) = Some p /\
             result (okta_switch C logger w) = Ret p) /\
  (- Z.of_nat (length ps) < a <= 0 ->
   exists p, Py.sorted ps !! Z.to_nat (Z.of_nat (length ps) + a - 1) = Some p /\
             result (okta_switch C logger w) = Ret p) /\
  (a <= - Z.of_nat (length ps) \/ Z.of_nat (length ps) < a ->
   result (okta_switch C logger w) = Raise IndexError).
Proof.
  intros H1 H2 Ha. rewrite (okta_switch_asked _ _ _ _ H1 H2), Ha.
  rewrite <- (sorted_length ps). repeat split.
  - intros Hr. destruct (index_nonneg (Py.sorted ps) (a - 1)) as (p & Hp & ->); [lia|].
    exists p. split; [exact Hp | reflexivity].
  - intros Hr. destruct (index_negative (Py.sorted ps) (a - 1)) as (p & Hp & ->); [lia|].
    exists p. split; [|reflexivity]. rewrite <- Hp. f_equal. lia.
  - intros Hr. rewrite index_out_of_range; [reflexivity | lia].
Qed.

(** C9 (as amended): with more than one configured profile, [n] of them,
    and an answer that [int] reads as the number [a]: the answer 0 and
    the negative answers of absolute value less than [n] select a profile
    counted from the end of the sorted list (entry [n + a], 0 being the
    last one) and the run returns it; the answers above [n], and the
    negative answers of absolute value [n] or more, end the run with
    [IndexError]; the answers from 1 to [n] select the entry shown with
    that number. *)
Theorem okta_switch_answer_range logger w ps answer a :
  In (GetOktaProfiles (Ret ps)) (trace (okta_switch C logger w)) ->
  (1 < length ps)%nat ->
  In (Input switch_prompt (Ret answer)) (trace (okta_switch C logger w)) ->
  Py.int answer = Some a ->
  (a = 0 \/ a < 0 /\ Z.abs a < Z.of_nat (length ps) ->
   exists p, Py.sorted ps !! Z.to_nat (Z.of_nat (length ps) + a - 1) = Some p /\
             result (okta_switch C logger w) = Ret p) /\
  (Z.of_nat (length ps) < a \/ a < 0 /\ Z.of_nat (length ps) <= Z.abs a ->
   result (okta_switch C logger w) = Raise IndexError) /\
  (1 <= a <= Z.of_nat (length ps) ->
   exists p, Py.sorted ps !! Z.to_nat (a - 1) = Some p /\
             result (okta_switch C logger w) = Ret p).
Proof.
  intros H1 Hn H2 Ha.
  destruct (okta_switch_answer_cases logger w ps answer a H1 H2 Ha) as (Hup & Hdown & Hout).
  split; [intros Hr; apply Hdown; lia|].
  split; [intros Hr; apply Hout; lia | exact Hup].
Qed.

End SwitchFacts.

(** Two profiles, answer ["0"]: the last profile of the sorted list. *)
Lemma okta_switch_answer_range_witness :
  result (okta_switch Script.collaborators Script.logger
            (Script.with_stdin ["0"] Script.w0)) = Ret "prod".
Proof.
  pose proof (okta_switch_answer_range Script.collaborators Script.logger
                (Script.with_stdin ["0"] Script.w0) ["prod"; "dev"] "0" 0) as H.
  destruct H as (H & _ & _).
  - vm_compute. tauto.
  - cbn [length]. lia.
  - vm_compute. tauto.
  - reflexivity.
  - destruct H as (p & Hp & ->); [left; reflexivity|].
    vm_compute in Hp. congruence.
Defined.

(** C9 as stated fails at the answer [-n]: with two profiles the answer
    ["-2"] has absolute value 2, yet nothing is selected; the run ends
    with [IndexError]. *)
Lemma okta_switch_minus_n_raises :
  Py.int "-2" = Some (-2) /\
  Z.abs (-2) <= Z.of_nat (length (Script.okta_profiles Script.w0)) /\
  result (okta_switch Script.collaborators Script.logger
            (Script.with_stdin ["-2"] Script.w0)) = Raise IndexError.
Proof. vm_compute. repeat split; congruence. Qed.

(** ** Traces *)

Lemma segment_here2 a b post : segment [a; b] (a :: b :: post).
Proof. exists [], post. reflexivity. Qed.

Lemma segment_here3 a b c post : segment [a; b; c] (a :: b :: c :: post).
Proof. exists [], post. reflexivity. Qed.

(** Case analysis on [In e t] for an explicit trace [t]. *)
Ltac in_cases H :=
  cbn [In app] in H;
  repeat match type of H with
    | _ \/ _ => destruct H as [H|H]
    | False => destruct H
    end;
  simplify_eq.

(** ** Reading the run of a sequence *)

Section BindFacts.
Context {W : Type}.

Lemma trace_call {A} (f : W -> outcome A * W) ev w :
  trace (call f ev w) = [ev (result (call f ev w))].
Proof. rewrite call_eq. reflexivity. Qed.

Lemma trace_bind_ret {A B} (m : M W A) (k : A -> M W B) w a :
  result (m w) = Ret a ->
  trace (bind m k w) = trace (m w) ++ trace (k a (world (m w))).
Proof. intros H. unfold bind. rewrite H. reflexivity. Qed.

Lemma result_bind_ret {A B} (m : M W A) (k : A -> M W B) w a :
  result (m w) = Ret a -> result (bind m k w) = result (k a (world (m w))).
Proof. intros H. unfold bind. rewrite H. reflexivity. Qed.

Lemma trace_bind_raise {A B} (m : M W A) (k : A -> M W B) w e :
  result (m w) = Raise e -> trace (bind m k w) = trace (m w).
Proof. intros H. unfold bind. rewrite H. reflexivity. Qed.

Lemma result_bind_raise {A B} (m : M W A) (k : A -> M W B) w e :
  result (m w) = Raise e -> result (bind m k w) = Raise e.
Proof. intros H. unfold bind. rewrite H. reflexivity. Qed.

Lemma bind_returns {A B} (m : M W A) (k : A -> M W B) w b :
  result (bind m k w) = Ret b ->
  exists a, result (m w) = Ret a /\ result (k a (world (m w))) = Ret b.
Proof.
  unfold bind. destruct (result (m w)) as [a|e]; cbn [result]; [eauto | discriminate].
Qed.

Lemma In_trace_bind {A B} (m : M W A) (k : A -> M W B) w e :
  In e (trace (bind m k w)) ->
  In e (trace (m w)) \/
  exists a, result (m w) = Ret a /\ In e (trace (k a (world (m w)))).
Proof.
  unfold bind. destruct (result (m w)) as [a|e']; cbn [trace]; [|tauto].
  intros H. apply in_app_or in H as [H|H]; eauto.
Qed.

Lemma goal_bind_r {A B} (m : M W A) (k : A -> M W B) w a (G : list event -> Prop) :
  (forall pre t, G t -> G (pre ++ t)) ->
  result (m w) = Ret a ->
  G (trace (k a (world (m w)))) -> G (trace (bind m k w)).
Proof. intros HG H Hk. rewrite (trace_bind_ret _ _ _ _ H). by apply HG. Qed.

Lemma of_option_returns {A} (o : option A) e (w : W) a :
  result (of_option o e w) = Ret a ->
  o = Some a /\ trace (of_option o e w) = [] /\ world (of_option o e w) = w.
Proof. destruct o; cbn; [intros [= ->]; auto | discriminate]. Qed.

Lemma emits_not_In {A} (p : event -> bool) (m : M W A) w e :
  In e (trace (m w)) -> p e = true -> emits (fun x => p x = false) m -> False.
Proof.
  intros Hin He Hm. specialize (Hm w). rewrite Forall_forall in Hm.
  apply list_elem_of_In, Hm in Hin. congruence.
Qed.

End BindFacts.

(** ** [get_credentials] *)

Section GetCredentialsFacts.
Context {W : Type} (C : Collaborators W).
Variables (aws : AwsAuth.t) (okta_profile : string) (profile : option string)
  (verbose : bool) (logger : Logger) (totp_token : option string)
  (cache refresh_role : bool) (okta_username okta_password cookie_jar : option string)
  (persistent_okta_session : bool) (user_agent : option string).

Local Abbreviation gc :=
  (get_credentials C aws okta_profile profile verbose logger totp_token cache refresh_role
     okta_username okta_password cookie_jar persistent_okta_session user_agent).

(** [get_credentials] starts by building the configuration object. *)
Lemma get_credentials_head w :
  exists r rest, trace (gc w) = NewOktaAuthConfig r :: rest.
Proof.
  unfold get_credentials. rewrite bind_call.
  destruct (fst (config_init W C logger w)); cbn [prepend trace app]; eauto.
Qed.

(** Follow an event of the trace into the continuation of the first
    statement, which is a call that cannot have produced it. *)
Ltac skip_call HG Hin :=
  let H := fresh "Hret" in
  apply In_trace_bind in Hin as [Hin|(? & H & Hin)];
  [ rewrite trace_call in Hin; destruct Hin as [Hin|[]]; discriminate Hin
  | apply (goal_bind_r _ _ _ _ _ HG H); clear H ].

(** Follow an event of the trace past a call that returned, keeping the
    event of that call in front of the trace. *)
Ltac walk_call Hin a :=
  let H := fresh "Hcall" in
  apply In_trace_bind in Hin as [Hin|(a & H & Hin)];
  [ rewrite trace_call in Hin; destruct Hin as [Hin|[]]; discriminate Hin
  | rewrite (trace_bind_ret _ _ _ _ H), (result_bind_ret _ _ _ _ H), trace_call, H;
    clear H ].

(** Whenever role resolution returns a role, the very next thing
    [get_credentials] does is the call that writes the role's identifier
    to the selected Okta profile; if that call raises, the run ends there
    with its exception. *)
Lemma role_written_next w aws' assertion refresh principal_arn role_arn :
  In (ChooseAwsRole aws' assertion refresh (Ret (principal_arn, role_arn))) (trace (gc w)) ->
  exists pre r post,
    trace (gc w) =
      pre ++ ChooseAwsRole aws' assertion refresh (Ret (principal_arn, role_arn))
          :: WriteRoleToProfile okta_profile role_arn r :: post /\
    (forall e, r = Raise e -> post = [] /\ result (gc w) = Raise e).
Proof.
  intros Hin. unfold get_credentials in Hin |- *.
  walk_call Hin u1. walk_call Hin u2. walk_call Hin got. cbv zeta in *.
  apply In_trace_bind in Hin as [Hin|(role & Hrole & Hin)].
  - rewrite trace_call in Hin. destruct Hin as [Hin|[]].
    injection Hin as <- <- <- Hrole.
    rewrite (trace_bind_ret _ _ _ _ Hrole), (result_bind_ret _ _ _ _ Hrole), trace_call, Hrole.
    refine (ex_intro _ [_; _; _] _). cbn [app].
    match goal with
    | |- context [bind (call ?f ?ev) ?k ?w0] =>
        destruct (result (call f ev w0)) as [u|e] eqn:Hw
    end.
    + rewrite (trace_bind_ret _ _ _ _ Hw), trace_call, Hw.
      exists (Ret u). eexists. split; [reflexivity | discriminate].
    + rewrite (trace_bind_raise _ _ _ _ Hw), (result_bind_raise _ _ _ _ Hw), trace_call, Hw.
      exists (Raise e), []. split; [reflexivity|]. intros e' [= <-]. split; reflexivity.
  - exfalso. destruct role as [pa ra].
    apply (emits_not_In is_choose_aws_role _ _ _ Hin eq_refl).
    unfold console_output. emits_auto.
Qed.

Ltac ret_call Hr a :=
  let H := fresh "Hcall" in
  apply bind_returns in Hr as (a & H & Hr);
  rewrite (trace_bind_ret _ _ _ _ H), trace_call, H; clear H.

Ltac ret_item Hr a E :=
  let H := fresh "Hitem" in
  apply bind_returns in Hr as (a & H & Hr);
  rewrite (trace_bind_ret _ _ _ _ H);
  apply of_option_returns in H as (E & -> & H); rewrite H in Hr |- *; clear H.

(** A run of [get_credentials] that returns has this trace, and no other. *)
Lemma get_credentials_success w :
  result (gc w) = Ret tt ->
  exists got principal_arn role_arn duration sts_token k s t x,
    sts_token !! "AccessKeyId" = Some k /\
    sts_token !! "SecretAccessKey" = Some s /\
    sts_token !! "SessionToken" = Some t /\
    sts_token !! "Expiration" = Some x /\
    trace (gc w) =
      issuance C aws
        (okta_of okta_profile verbose totp_token okta_username okta_password cookie_jar
           user_agent)
        persistent_okta_session refresh_role got principal_arn role_arn duration sts_token x
      ++ delivery C aws verbose cache k s x t.
Proof.
  unfold get_credentials, getitem, log. intros Hr.
  ret_call Hr u1. ret_call Hr u2. ret_call Hr got. cbv zeta in *.
  ret_call Hr role. destruct role as [pa ra].
  ret_call Hr u3. ret_call Hr du. ret_call Hr d.
  ret_item Hr k Ek. ret_item Hr s Es. ret_item Hr t Et. ret_item Hr x Ex.
  rewrite bind_emit in Hr |- *. cbn [prepend result trace] in Hr |- *.
  destruct u1, u2, u3.
  exists got, pa, ra, du, d, k, s, t, x. repeat (split; [assumption|]).
  unfold delivery, issuance, okta_of. cbn [app OktaAuth.okta_profile]. do 8 f_equal.
  destruct (truthy (AwsAuth.profile aws)); cbn [negb] in Hr |- *.
  - rewrite trace_call, Hr. reflexivity.
  - unfold console_output, print in Hr |- *.
    rewrite bind_assoc in Hr |- *.
    destruct verbose.
    + rewrite bind_assoc, !bind_emit, bind_ret in Hr |- *.
      cbn [prepend result trace app] in Hr |- *. do 2 f_equal.
      destruct cache; [rewrite trace_call, Hr|]; reflexivity.
    + rewrite !bind_ret in Hr |- *.
      destruct cache; [rewrite trace_call, Hr|]; reflexivity.
Qed.

(** The role-assumption call comes right after the call that persisted
    the resolved role and the look-up of the duration; when it raises,
    [get_credentials] raises the same exception at once. *)
Lemma role_written_before_sts w aws' role_arn principal_arn assertion duration r :
  In (GetStsToken aws' role_arn principal_arn assertion duration r) (trace (gc w)) ->
  exists pre post,
    trace (gc w) =
      pre ++ WriteRoleToProfile okta_profile role_arn (Ret tt)
          :: DurationFor okta_profile (Ret duration)
          :: GetStsToken aws' role_arn principal_arn assertion duration r :: post /\
    (forall e, r = Raise e -> post = [] /\ result (gc w) = Raise e).
Proof.
  intros Hin. unfold get_credentials in Hin |- *.
  walk_call Hin u1. walk_call Hin u2. walk_call Hin got. cbv zeta in *.
  walk_call Hin role. destruct role as [pa ra].
  walk_call Hin u3. walk_call Hin du. destruct u3.
  apply In_trace_bind in Hin as [Hin|(d & Hd & Hin)].
  - rewrite trace_call in Hin. destruct Hin as [Hin|[]].
    injection Hin as <- <- <- <- <- Hr.
    refine (ex_intro _ [_; _; _; _] _). cbn [app].
    destruct r as [d|e].
    + rewrite (trace_bind_ret _ _ _ _ Hr), trace_call, Hr. eexists.
      split; [reflexivity | discriminate].
    + rewrite (trace_bind_raise _ _ _ _ Hr), (result_bind_raise _ _ _ _ Hr), trace_call, Hr.
      exists []. split; [reflexivity|].
      intros e' [= <-]. split; reflexivity.
  - exfalso. apply (emits_not_In is_get_sts_token _ _ _ Hin eq_refl).
    unfold console_output. emits_auto.
Qed.

Lemma issuance_not_delivery okta got principal_arn role_arn duration sts_token x :
  Forall (fun e => is_print e = false /\ is_write_file e = false /\
                   is_write_sts_token e = false)
    (issuance C aws okta persistent_okta_session refresh_role got principal_arn role_arn
       duration sts_token x).
Proof. unfold issuance. repeat constructor. Qed.

(** A run of [get_credentials] that returns ends with
    the delivery of the credentials it took from the provider's reply, and
    nothing before that is printed or written.  With a named profile the
    delivery is the one call that writes the profile record; without one
    it is the two printed lines if and only if [verbose] is set, followed
    by the write of the same export lines to [~/.okta-credentials.cache]
    if and only if [cache] is set. *)
Lemma credentials_delivery w :
  let run := get_credentials C aws okta_profile profile verbose logger totp_token cache
               refresh_role okta_username okta_password cookie_jar
               persistent_okta_session user_agent w in
  result run = Ret tt ->
  exists sts_token k s t x pre,
    sts_token !! "AccessKeyId" = Some k /\
    sts_token !! "SecretAccessKey" = Some s /\
    sts_token !! "SessionToken" = Some t /\
    sts_token !! "Expiration" = Some x /\
    (exists role_arn principal_arn assertion duration,
       In (GetStsToken aws role_arn principal_arn assertion duration (Ret sts_token)) pre) /\
    Forall (fun e => is_print e = false /\ is_write_file e = false /\
                     is_write_sts_token e = false) pre /\
    trace run =
      pre ++
      (if truthy (AwsAuth.profile aws) then [WriteStsToken aws k s x t (Ret tt)]
       else
         (if verbose then
            [Print "Use these to set your environment variables:";
             Print (export_lines C k s t)]
          else []) ++
         (if cache then [WriteFile (cache_path C) (export_lines C k s t) (Ret tt)]
          else [])).
Proof.
  intros run Hr. subst run.
  destruct (get_credentials_success w Hr)
    as (got & pa & ra & du & d & k & s & t & x & Hk & Hs & Ht & Hx & Htr).
  exists d, k, s, t, x. eexists. repeat (split; [eassumption|]).
  split; [|split; [apply issuance_not_delivery | exact Htr]].
  exists ra, pa, (snd got), du. unfold issuance. cbn [In]. tauto.
Qed.

End GetCredentialsFacts.

(** *** Runs against the scripted world *)

(** After the failed role-assumption call the scripted configuration
    store holds the new role. *)
Example role_kept_after_failed_issuance :
  let r := Script.get_credentials_for Script.plain
             (Script.with_sts (Raise (OtherError "ClientError")) Script.w0) in
  result r = Raise (OtherError "ClientError") /\
  Script.last_role (world r) !! "default" = Some "arn:aws:iam::1:role/Admin".
Proof. vm_compute. split; reflexivity. Qed.

Lemma credentials_delivery_witness :
  exists sts_token k s t x pre,
    sts_token !! "AccessKeyId" = Some k /\
    sts_token !! "SecretAccessKey" = Some s /\
    sts_token !! "SessionToken" = Some t /\
    sts_token !! "Expiration" = Some x /\
    (exists role_arn principal_arn assertion duration,
       In (GetStsToken (main_aws_auth (Script.with_profile "dev" Script.plain) "default")
             role_arn principal_arn assertion duration (Ret sts_token)) pre) /\
    Forall (fun e => is_print e = false /\ is_write_file e = false /\
                     is_write_sts_token e = false) pre /\
    trace (Script.get_credentials_for (Script.with_profile "dev" Script.plain) Script.w0) =
      pre ++
      [WriteStsToken (main_aws_auth (Script.with_profile "dev" Script.plain) "default")
         k s x t (Ret tt)].
Proof.
  unfold Script.get_credentials_for.
  apply (credentials_delivery Script.collaborators
           (main_aws_auth (Script.with_profile "dev" Script.plain) "default")).
  vm_compute. reflexivity.
Defined.

(** The profile record the scripted run leaves behind carries the
    provider's expiration. *)
Example expiry_in_profile_record :
  Script.credentials
    (world (Script.get_credentials_for (Script.with_profile "dev" Script.plain) Script.w0))
    !! "dev"
  = Some (PStr "ASIAEXAMPLE", PStr "secret", PDatetime 1700003600, PStr "token").
Proof. vm_compute. reflexivity. Qed.
(** ** [main] *)

Section SkipFacts.
Context {W : Type}.

Lemma bind_run {A B} (m : M W A) (k : A -> M W B) w :
  bind m k w =
  match result (m w) with
  | Ret a => prepend (trace (m w)) (k a (world (m w)))
  | Raise e => {| result := Raise e; world := world (m w); trace := trace (m w) |}
  end.
Proof. reflexivity. Qed.

(** An event that the first statement cannot produce is looked for in
    the rest of the sequence; what is proved there is carried back over
    the events of the first statement. *)
Lemma run_skip {A B} (p : event -> bool) (m : M W A) (k : A -> M W B) w e
    (G : run W B -> Prop) :
  (forall pre r, Forall (fun x => p x = false) pre -> G r -> G (prepend pre r)) ->
  p e = true ->
  emits (fun x => p x = false) m ->
  (forall a w1, In e (trace (k a w1)) -> G (k a w1)) ->
  In e (trace (bind m k w)) -> G (bind m k w).
Proof.
  intros HG He Hm Hk Hin. rewrite bind_run in Hin |- *.
  destruct (result (m w)) as [a|err].
  - cbn [prepend trace] in Hin. apply in_app_or in Hin as [Hin|Hin].
    + destruct (emits_not_In p m w e Hin He Hm).
    + apply HG; [apply Hm | apply Hk, Hin].
  - cbn [trace] in Hin. destruct (emits_not_In p m w e Hin He Hm).
Qed.

(** The event is produced by the first statement and by nothing after. *)
Lemma In_first {A B} (p : event -> bool) (m : M W A) (k : A -> M W B) w e :
  p e = true ->
  (forall a, emits (fun x => p x = false) (k a)) ->
  In e (trace (bind m k w)) -> In e (trace (m w)).
Proof.
  intros He Hk Hin. apply In_trace_bind in Hin as [Hin|(a & _ & Hin)]; [exact Hin|].
  destruct (emits_not_In p (k a) _ e Hin He (Hk a)).
Qed.

Lemma trace_bind_prefix {A B} (m : M W A) (k : A -> M W B) w :
  exists rest, trace (bind m k w) = trace (m w) ++ rest.
Proof.
  rewrite bind_run. destruct (result (m w)); cbn [prepend trace]; [eauto|].
  exists []. by rewrite app_nil_r.
Qed.

End SkipFacts.

(** Prove that no event of a block of [main] is of a given kind. *)
Ltac emits_main :=
  unfold main_version, main_config, main_switch, okta_switch, main_check, main_renew,
    main_force_note, main_load_cookies, main_get_credentials, get_credentials,
    console_output, main_save_cookies, main_awscli;
  emits_auto.

Section MainFacts.
Context {W : Type} (C : Collaborators W).

(** A failed load that the handlers catch: the block logs and returns. *)
Lemma main_load_cookies_failed a w f d x e :
  In (CookieLoad f d x (Raise e)) (trace (main_load_cookies C a w)) ->
  is_os_error e = true ->
  result (main_load_cookies C a w) = Ret tt /\
  trace (main_load_cookies C a w) =
    [CookieLoad f d x (Raise e);
     Log DEBUG "Error loading cookies from %s: %s" [LStr f; LExn e]].
Proof.
  unfold main_load_cookies. destruct (Args.cookie_jar a) as [f'|]; [|intros []].
  unfold try_except, log. rewrite bind_call.
  destruct (jar_load W C f' _ _ w) as [[u|e'] w1]; cbn [fst snd].
  - cbn [prepend emit result trace app]. intros Hin. in_cases Hin.
  - cbn [result trace].
    destruct e'; cbn [trace emit app world];
      intros Hin; in_cases Hin; try discriminate; auto.
Qed.

(** C3 (as amended): when loading the cookie jar fails with an [OSError]
    (a missing or unreadable file) or with [LoadError] (a file the jar
    reports as malformed), [main] logs the error and goes on to
    [get_credentials], whose first call follows. *)
Theorem cookie_load_failure_recovered a w f d x e :
  In (CookieLoad f d x (Raise e)) (trace (main C a w)) ->
  is_os_error e = true ->
  exists r,
    segment [CookieLoad f d x (Raise e);
             Log DEBUG "Error loading cookies from %s: %s" [LStr f; LExn e];
             NewOktaAuthConfig r] (trace (main C a w)).
Proof.
  intros Hin He. revert Hin.
  set (G := fun r : run W unit => exists r0,
             segment [CookieLoad f d x (Raise e);
                      Log DEBUG "Error loading cookies from %s: %s" [LStr f; LExn e];
                      NewOktaAuthConfig r0] (trace r)).
  assert (HG : forall pre (r : run W unit),
             Forall (fun x => is_cookie_load x = false) pre -> G r -> G (prepend pre r)).
  { intros pre r _ [r0 Hr]. exists r0. by apply segment_app_r. }
  match goal with |- _ -> ?g => change g with (G (main C a w)) end.
  rewrite main_blocks.
  pose proof (fun A m k w => run_skip (A := A) is_cookie_load m k w
                (CookieLoad f d x (Raise e)) G HG eq_refl) as skip.
  apply skip; [emits_main | intros _ w1].
  apply skip; [emits_main | intros _ w2].
  apply skip; [emits_main | intros okta_profile w3]. cbv zeta.
  set (aws := main_aws_auth a okta_profile).
  apply skip; [emits_main | intros _ w4].
  apply skip; [emits_main | intros renew w5].
  intros Hin. apply (In_first is_cookie_load) in Hin; [|reflexivity|intros ?; emits_main].
  unfold G.
  destruct (trace_bind_prefix (if renew then main_renew C a okta_profile aws else ret tt)
              (fun _ => main_awscli C a aws) w5) as [rest ->].
  enough (G (main_renew C a okta_profile aws w5)) as [r0 Hr0].
  { exists r0. destruct renew; [by apply segment_app_l | destruct Hin]. }
  destruct renew; [|destruct Hin]. revert Hin. unfold main_renew.
  apply skip; [emits_main | intros _ w6].
  intros Hin. apply (In_first is_cookie_load) in Hin; [|reflexivity|intros ?; emits_main].
  destruct (main_load_cookies_failed _ _ _ _ _ _ Hin He) as [Hres Htr].
  unfold G. rewrite (trace_bind_ret _ _ _ _ Hres), Htr.
  destruct (trace_bind_prefix (main_get_credentials C a okta_profile aws)
              (fun _ => main_save_cookies C a) (world (main_load_cookies C a w6)))
    as [rest' ->].
  destruct (get_credentials_head C aws okta_profile (Args.profile a) (Args.verbose a)
              (main_logger a) (Args.token a) (Args.cache a) (Args.refresh_role a)
              (Args.okta_username a) (Args.okta_password a) (Args.cookie_jar a)
              (Args.persistent_okta_session a) (Args.user_agent a)
              (world (main_load_cookies C a w6))) as (r0 & rest0 & Hhead).
  exists r0. unfold main_get_credentials. rewrite Hhead. cbn [app]. apply segment_here3.
Qed.




Lemma setup_not_renewal e : setup_event e = true -> renewal_event e = false.
Proof. destruct e; cbn; congruence. Qed.

Lemma execute_not_renewal e : is_execute_aws_args e = true -> renewal_event e = false.
Proof. destruct e; cbn; congruence. Qed.

Lemma main_awscli_events a aws : emits (fun e => is_execute_aws_args e = true) (main_awscli C a aws).
Proof. emits_main. Qed.

(** C1: when [force] is off and the check of the cached credentials
    answers yes, the run has no event of the renewal branch (no cookie
    jar load or save, no call of the identity provider, of role
    resolution, of the role-assumption service, no credential written):
    before the check come only the set-up events, and after it only the
    last statement of [main], as which the run ends. *)
Theorem cached_credentials_skip_renewal a w aws :
  Args.force a = false ->
  In (CheckStsToken aws (Ret true)) (trace (main C a w)) ->
  Forall (fun e => renewal_event e = false) (trace (main C a w)) /\
  exists pre w',
    trace (main C a w) = pre ++ CheckStsToken aws (Ret true) :: trace (main_awscli C a aws w') /\
    Forall (fun e => setup_event e = true) pre /\
    result (main C a w) = result (main_awscli C a aws w').
Proof.
  intros Hforce Hin.
  set (G := fun r : run W unit => exists pre w',
             trace r = pre ++ CheckStsToken aws (Ret true) :: trace (main_awscli C a aws w') /\
             Forall (fun e => setup_event e = true) pre /\
             result r = result (main_awscli C a aws w')).
  enough (G (main C a w)) as (pre & w' & Htr & Hpre & Hres).
  { split; [|exists pre, w'; auto]. rewrite Htr. apply Forall_app. split.
    - eapply Forall_impl; [exact Hpre | apply setup_not_renewal].
    - constructor; [reflexivity|].
      eapply Forall_impl; [apply main_awscli_events | apply execute_not_renewal]. }
  assert (HG : forall pre (r : run W unit),
             Forall (fun x => negb (setup_event x) = false) pre -> G r -> G (prepend pre r)).
  { intros pre r Hp (pre' & w' & Htr & Hpre & Hres). exists (pre ++ pre'), w'.
    cbn [prepend trace result]. split; [by rewrite Htr, app_assoc|]. split; [|exact Hres].
    apply Forall_app. split; [|exact Hpre].
    eapply Forall_impl; [exact Hp|]. intros ev H. cbn beta in H. destruct (setup_event ev); [reflexivity | discriminate H]. }
  revert Hin. rewrite main_blocks.
  pose proof (fun A m k w => run_skip (A := A) (fun x => negb (setup_event x)) m k w
                (CheckStsToken aws (Ret true)) G HG eq_refl) as skip.
  apply skip; [emits_main | intros _ w1].
  apply skip; [emits_main | intros _ w2].
  apply skip; [emits_main | intros okta_profile w3]. cbv zeta.
  set (aws0 := main_aws_auth a okta_profile).
  apply skip; [emits_main | intros _ w4].
  unfold main_check. rewrite Hforce, bind_assoc, bind_call.
  destruct (aws_check_sts_token W C aws0 w4) as [[valid|err] w5]; cbn [fst snd].
  2:{ cbn [trace]. intros H. in_cases H. }
  rewrite bind_ret. cbn [prepend trace app]. intros [H|H].
  - injection H as -> ->. cbn [negb]. rewrite bind_ret.
    exists [], w5. cbn [prepend trace result app]. auto.
  - exfalso. apply (emits_not_In is_check _ _ _ H eq_refl). emits_main.
Qed.

(** When the check answers no, [main] runs the renewal branch next. *)
Lemma failed_check_renews a w aws :
  In (CheckStsToken aws (Ret false)) (trace (main C a w)) ->
  exists pre w',
    trace (main C a w) =
    pre ++ CheckStsToken aws (Ret false)
        :: trace ((main_renew C a (AwsAuth.okta_profile aws) aws ;; main_awscli C a aws) w').
Proof.
  set (G := fun r : run W unit => exists pre w',
             trace r =
             pre ++ CheckStsToken aws (Ret false)
                 :: trace ((main_renew C a (AwsAuth.okta_profile aws) aws ;;
                            main_awscli C a aws) w')).
  assert (HG : forall pre (r : run W unit),
             Forall (fun x => is_check x = false) pre -> G r -> G (prepend pre r)).
  { intros pre r _ (pre' & w' & Htr). exists (pre ++ pre'), w'.
    cbn [prepend trace]. by rewrite Htr, app_assoc. }
  change (In (CheckStsToken aws (Ret false)) (trace (main C a w)) -> G (main C a w)).
  rewrite main_blocks.
  pose proof (fun A m k w => run_skip (A := A) is_check m k w
                (CheckStsToken aws (Ret false)) G HG eq_refl) as skip.
  apply skip; [emits_main | intros _ w1].
  apply skip; [emits_main | intros _ w2].
  apply skip; [emits_main | intros okta_profile w3]. cbv zeta.
  apply skip; [emits_main | intros _ w4].
  unfold main_check. destruct (Args.force a).
  { rewrite bind_ret. intros H. exfalso.
    apply (emits_not_In is_check _ _ _ H eq_refl). emits_main. }
  rewrite bind_assoc, bind_call.
  destruct (aws_check_sts_token W C (main_aws_auth a okta_profile) w4)
    as [[valid|err] w5]; cbn [fst snd].
  2:{ cbn [trace]. intros H. in_cases H. }
  rewrite bind_ret. cbn [prepend trace app]. intros [H|H].
  - injection H as <- ->. cbn [negb]. exists [], w5. reflexivity.
  - exfalso. apply (emits_not_In is_check _ _ _ H eq_refl). emits_main.
Qed.
End MainFacts.
(** *** Runs of [main] against the scripted world *)

Lemma cached_credentials_skip_renewal_witness :
  Forall (fun e => renewal_event e = false)
    (trace (main Script.collaborators (Script.with_profile "dev" Script.plain)
              (Script.with_cached_valid (Ret true) Script.w0))) /\
  exists pre w',
    trace (main Script.collaborators (Script.with_profile "dev" Script.plain)
             (Script.with_cached_valid (Ret true) Script.w0)) =
      pre ++ CheckStsToken (main_aws_auth (Script.with_profile "dev" Script.plain) "default")
               (Ret true)
          :: trace (main_awscli Script.collaborators (Script.with_profile "dev" Script.plain)
                      (main_aws_auth (Script.with_profile "dev" Script.plain) "default") w') /\
    Forall (fun e => setup_event e = true) pre /\
    result (main Script.collaborators (Script.with_profile "dev" Script.plain)
              (Script.with_cached_valid (Ret true) Script.w0)) =
    result (main_awscli Script.collaborators (Script.with_profile "dev" Script.plain)
              (main_aws_auth (Script.with_profile "dev" Script.plain) "default") w').
Proof.
  apply cached_credentials_skip_renewal; [reflexivity|].
  vm_compute. right. left. reflexivity.
Defined.

(** Two runs in a row: the first renews and fills the profile record, the
    second finds it valid, calls nothing but the check, and leaves the
    record as it was. *)
Example second_run_uses_cache :
  let a := Script.with_profile "dev" Script.plain in
  let first := main Script.collaborators a Script.w0 in
  let second := main Script.collaborators a
                  (Script.with_cached_valid (Ret true) (world first)) in
  result first = Ret tt /\
  trace second = [NewAwsAuth (main_aws_auth a "default") (Ret tt);
                  CheckStsToken (main_aws_auth a "default") (Ret true)] /\
  result second = Ret tt /\
  Script.credentials (world second) = Script.credentials (world first) /\
  Script.credentials (world first) !! "dev"
  = Some (PStr "ASIAEXAMPLE", PStr "secret", PDatetime 1700003600, PStr "token").
Proof. vm_compute. repeat split; reflexivity. Qed.

Lemma cookie_load_failure_recovered_witness :
  exists r,
    segment [CookieLoad "/tmp/jar" false false (Raise (LoadError "not LWP"));
             Log DEBUG "Error loading cookies from %s: %s"
               [LStr "/tmp/jar"; LExn (LoadError "not LWP")];
             NewOktaAuthConfig r]
      (trace (main Script.collaborators (Script.with_cookie_jar "/tmp/jar" Script.plain)
                (Script.with_jar (Raise (LoadError "not LWP")) (Ret tt) Script.w0))).
Proof.
  apply cookie_load_failure_recovered; [|reflexivity].
  vm_compute. do 2 right. left. reflexivity.
Defined.


(** The same run, evaluated: it returns although the save failed. *)
Example run_survives_failed_save :
  result (main Script.collaborators (Script.with_cookie_jar "/tmp/jar" Script.plain)
            (Script.with_jar (Ret tt) (Raise (OSError "read-only")) Script.w0)) = Ret tt.
Proof. vm_compute. reflexivity. Qed.
(** ** The specification's role resolution and validity check *)

Section SpecFacts.

Lemma sorted_bindings_Sorted bindings :
  Sorted Spec.role_le (Spec.sorted_bindings bindings).
Proof. apply Sorted_merge_sort, _. Qed.

Lemma sorted_bindings_perm bindings :
  Spec.sorted_bindings bindings ≡ₚ remove_dups bindings.
Proof. apply merge_sort_Permutation. Qed.

Lemma sorted_bindings_NoDup bindings : NoDup (Spec.sorted_bindings bindings).
Proof. rewrite sorted_bindings_perm. apply NoDup_remove_dups. Qed.

Lemma sorted_bindings_elem bindings b :
  b ∈ Spec.sorted_bindings bindings <-> b ∈ bindings.
Proof. rewrite sorted_bindings_perm. apply elem_of_remove_dups. Qed.

Lemma imap_numbered {A} (l : list A) (j : nat) :
  map fst (imap (fun i b => (j + i, b)%nat) l) = seq j (length l) /\
  map snd (imap (fun i b => (j + i, b)%nat) l) = l.
Proof.
  revert j. induction l as [|x l IH]; intros j; [split; reflexivity|].
  cbn [imap map length seq fst snd]. rewrite Nat.add_0_r.
  destruct (IH (S j)) as [IH1 IH2].
  erewrite imap_ext; [rewrite IH1, IH2; split; reflexivity|].
  intros i y _. cbn. f_equal. lia.
Qed.

Lemma menu_numbered bindings :
  map fst (Spec.menu bindings) = seq 1 (length (Spec.sorted_bindings bindings)) /\
  map snd (Spec.menu bindings) = Spec.sorted_bindings bindings.
Proof. apply (imap_numbered (Spec.sorted_bindings bindings) 1). Qed.

Lemma select_spec entries answer :
  (Py.int answer = None -> Spec.select entries answer = inr Spec.InvalidSelection) /\
  (forall k, Py.int answer = Some k ->
     k < 1 \/ Z.of_nat (length entries) < k ->
     Spec.select entries answer = inr Spec.InvalidSelection) /\
  (forall k, Py.int answer = Some k ->
     1 <= k <= Z.of_nat (length entries) ->
     exists b, entries !! Z.to_nat (k - 1) = Some b /\
               Spec.select entries answer = inl (b, Spec.Interactive)).
Proof.
  unfold Spec.select. repeat split.
  - intros ->. reflexivity.
  - intros k -> Hk.
    destruct (1 <=? k) eqn:E1, (k <=? Z.of_nat (length entries)) eqn:E2;
      cbn [andb]; try reflexivity; lia.
  - intros k -> Hk.
    replace (1 <=? k) with true by lia.
    replace (k <=? Z.of_nat (length entries)) with true by lia. cbn [andb].
    destruct (lookup_lt_is_Some_2 entries (Z.to_nat (k - 1))) as [b Hb]; [lia|].
    exists b. rewrite Hb. auto.
Qed.

(** C7: in the specification's role resolution, when more than one
    binding remains and no cached role decides, the menu is the
    deduplicated bindings sorted by role identifier and numbered 1..N; an
    answer that is not a number, or a number outside 1..N, is the error
    [InvalidSelection]; only a number from 1 to N selects, and it selects
    exactly that entry. *)
Theorem interactive_selection_checked bindings cached_role force_refresh answer :
  (1 < length (Spec.sorted_bindings bindings))%nat ->
  Spec.cached_binding (Spec.sorted_bindings bindings) cached_role force_refresh = None ->
  Sorted Spec.role_le (Spec.sorted_bindings bindings) /\
  NoDup (Spec.sorted_bindings bindings) /\
  (forall b, b ∈ Spec.sorted_bindings bindings <-> b ∈ bindings) /\
  map fst (Spec.menu bindings) = seq 1 (length (Spec.sorted_bindings bindings)) /\
  map snd (Spec.menu bindings) = Spec.sorted_bindings bindings /\
  (Py.int answer = None ->
   Spec.resolve_role bindings cached_role force_refresh answer = inr Spec.InvalidSelection) /\
  (forall k, Py.int answer = Some k ->
     k < 1 \/ Z.of_nat (length (Spec.sorted_bindings bindings)) < k ->
     Spec.resolve_role bindings cached_role force_refresh answer
     = inr Spec.InvalidSelection) /\
  (forall k, Py.int answer = Some k ->
     1 <= k <= Z.of_nat (length (Spec.sorted_bindings bindings)) ->
     exists b, Spec.sorted_bindings bindings !! Z.to_nat (k - 1) = Some b /\
               Spec.resolve_role bindings cached_role force_refresh answer
               = inl (b, Spec.Interactive)).
Proof.
  intros Hlen Hcache.
  split; [apply sorted_bindings_Sorted|]. split; [apply sorted_bindings_NoDup|].
  split; [apply sorted_bindings_elem|].
  destruct (menu_numbered bindings) as [Hn Hs]. split; [exact Hn|]. split; [exact Hs|].
  assert (Hres : Spec.resolve_role bindings cached_role force_refresh answer
                 = Spec.select (Spec.sorted_bindings bindings) answer).
  { unfold Spec.resolve_role.
    destruct (Spec.sorted_bindings bindings) as [|b1 [|b2 l]] eqn:E;
      cbn [length] in Hlen; try lia.
    rewrite Hcache. reflexivity. }
  rewrite Hres. apply select_spec.
Qed.

(** C8: in the specification's validity check, a cached credential whose
    expiration is exactly [now + safety_margin] is not valid, while one
    time unit earlier a well-formed one still is; and a run of [main]
    whose check gives that answer goes on with the renewal branch. *)
Theorem boundary_credential_is_expired well_formed safety_margin store name c now :
  store !! name = Some c ->
  Spec.expiration c = now + safety_margin ->
  Spec.check_sts_token well_formed safety_margin store (Some name) now = false /\
  (well_formed (Spec.session_token c) = true ->
   Spec.check_sts_token well_formed safety_margin store (Some name) (now - 1) = true) /\
  (forall W (C : Collaborators W) a w aws,
     In (CheckStsToken aws
           (Ret (Spec.check_sts_token well_formed safety_margin store (Some name) now)))
       (trace (main C a w)) ->
     exists pre w',
       trace (main C a w) =
       pre ++ CheckStsToken aws (Ret false)
           :: trace ((main_renew C a (AwsAuth.okta_profile aws) aws ;;
                      main_awscli C a aws) w')).
Proof.
  intros Hc He.
  assert (Hb : Spec.check_sts_token well_formed safety_margin store (Some name) now = false).
  { unfold Spec.check_sts_token. rewrite Hc, He.
    replace (now <? now + safety_margin - safety_margin) with false by lia.
    apply andb_false_r. }
  split; [exact Hb|]. split.
  - intros Hw. unfold Spec.check_sts_token. rewrite Hc, He, Hw. cbn [andb]. lia.
  - intros W C a w aws. rewrite Hb. apply failed_check_renews.
Qed.

End SpecFacts.

Lemma interactive_selection_checked_witness :
  Spec.resolve_role two_roles None false "0" = inr Spec.InvalidSelection /\
  Spec.resolve_role two_roles None false "3" = inr Spec.InvalidSelection /\
  Spec.resolve_role two_roles None false "two" = inr Spec.InvalidSelection /\
  Spec.resolve_role two_roles None false "2"
  = inl ({| Spec.principal := "arn:aws:iam::1:saml-provider/okta";
            Spec.role := "arn:aws:iam::1:role/ReadOnly" |}, Spec.Interactive).
Proof.
  assert (Hlen : (1 < length (Spec.sorted_bindings two_roles))%nat) by (vm_compute; lia).
  assert (Hc : Spec.cached_binding (Spec.sorted_bindings two_roles) None false = None)
    by reflexivity.
  split; [|split; [|split]].
  - destruct (interactive_selection_checked two_roles None false "0" Hlen Hc)
      as (_ & _ & _ & _ & _ & _ & H & _).
    apply (H 0); [reflexivity | left; lia].
  - destruct (interactive_selection_checked two_roles None false "3" Hlen Hc)
      as (_ & _ & _ & _ & _ & _ & H & _).
    apply (H 3); [reflexivity | right; vm_compute; reflexivity].
  - destruct (interactive_selection_checked two_roles None false "two" Hlen Hc)
      as (_ & _ & _ & _ & _ & H & _).
    apply H. reflexivity.
  - destruct (interactive_selection_checked two_roles None false "2" Hlen Hc)
      as (_ & _ & _ & _ & _ & _ & _ & H).
    destruct (H 2) as (b & Hb & ->); [reflexivity | vm_compute; split; congruence|].
    vm_compute in Hb. congruence.
Defined.

Lemma boundary_credential_is_expired_witness :
  let c := {| Spec.access_key_id := "ASIAEXAMPLE"; Spec.secret_access_key := "secret";
              Spec.session_token := "token"; Spec.expiration := 1700003600 |} in
  Spec.check_sts_token (fun t => negb (String.eqb t "")) 300 {[ "dev" := c ]} (Some "dev")
    1700003300 = false /\
  Spec.check_sts_token (fun t => negb (String.eqb t "")) 300 {[ "dev" := c ]} (Some "dev")
    1700003299 = true /\
  exists pre w',
    trace (main Script.collaborators (Script.with_profile "dev" Script.plain) Script.w0) =
    pre ++ CheckStsToken (main_aws_auth (Script.with_profile "dev" Script.plain) "default")
             (Ret false)
        :: trace ((main_renew Script.collaborators (Script.with_profile "dev" Script.plain)
                     "default"
                     (main_aws_auth (Script.with_profile "dev" Script.plain) "default") ;;
                   main_awscli Script.collaborators (Script.with_profile "dev" Script.plain)
                     (main_aws_auth (Script.with_profile "dev" Script.plain) "default")) w').
Proof.
  intros c.
  destruct (boundary_credential_is_expired (fun t => negb (String.eqb t "")) 300
              {[ "dev" := c ]} "dev" c 1700003300) as (H1 & H2 & H3);
    [apply lookup_singleton_eq | reflexivity |].
  split; [exact H1|]. split; [apply H2; reflexivity|].
  apply (H3 _ Script.collaborators (Script.with_profile "dev" Script.plain) Script.w0
            (main_aws_auth (Script.with_profile "dev" Script.plain) "default")).
  rewrite H1. vm_compute. right. left. reflexivity.
Defined.

(** * Further properties of the driver *)

(** ** [UnionParamType.convert] *)

Section ClickFacts.
Context {V A : Type}.
Implicit Types (types : list (V -> Click.conv A)) (value : V).

Lemma convert_from_decides types value last_error pre t post :
  types = pre ++ t :: post ->
  Forall (fun u => Click.is_bad_parameter (u value) = true) pre ->
  Click.is_bad_parameter (t value) = false ->
  Click.convert_from types value last_error = t value.
Proof.
  intros -> Hpre Ht. revert last_error.
  induction Hpre as [|u pre Hu _ IH]; intros last_error; cbn [app Click.convert_from].
  - destruct (t value); [reflexivity | discriminate Ht | reflexivity].
  - destruct (u value); try discriminate Hu. apply IH.
Qed.

(** The first parameter type that does not raise [BadParameter] decides:
    its converted value is returned, or its other exception propagates,
    whatever the types after it would do. *)
Theorem union_first_decides types value pre t post :
  types = pre ++ t :: post ->
  Forall (fun u => Click.is_bad_parameter (u value) = true) pre ->
  Click.is_bad_parameter (t value) = false ->
  Click.convert types value = t value.
Proof. apply convert_from_decides. Qed.

Lemma convert_from_all_bad types value last_error :
  Forall (fun u => Click.is_bad_parameter (u value) = true) types ->
  Click.convert_from types value last_error =
  match last types with
  | Some t => t value
  | None =>
      match last_error with
      | Some msg => Click.BadParameter msg
      | None => Click.Fails (OtherError "TypeError")
      end
  end.
Proof.
  intros H. revert last_error.
  induction H as [|u types Hu Hall IH]; intros last_error; [reflexivity|].
  cbn [Click.convert_from]. destruct (u value) as [|msg|] eqn:E; try discriminate Hu.
  rewrite IH. destruct types as [|u' types]; [cbn; by rewrite E|].
  change (last (u :: u' :: types)) with (last (u' :: types)).
  destruct (last (u' :: types)) eqn:El; [reflexivity|].
  by apply last_None in El.
Qed.

(** When every parameter type raises [BadParameter], the error raised is
    the one of the last type; with no type at all, [raise None] is a
    [TypeError]. *)
Theorem union_all_bad_raises_last types value :
  Forall (fun u => Click.is_bad_parameter (u value) = true) types ->
  Click.convert types value =
  match last types with
  | Some t => t value
  | None => Click.Fails (OtherError "TypeError")
  end.
Proof. intros H. unfold Click.convert. by rewrite convert_from_all_bad. Qed.

End ClickFacts.

Lemma union_first_decides_witness :
  Click.convert [Scenario.flag_type; Scenario.path_type] "roles.json"
  = Click.Converted (inr "roles.json").
Proof.
  rewrite (union_first_decides [Scenario.flag_type; Scenario.path_type] "roles.json"
             [Scenario.flag_type] Scenario.path_type []).
  - reflexivity.
  - reflexivity.
  - repeat constructor.
  - reflexivity.
Defined.

Lemma union_all_bad_raises_last_witness :
  Click.convert [Scenario.flag_type; Scenario.path_type] ""
  = Click.BadParameter "empty path".
Proof.
  rewrite (union_all_bad_raises_last [Scenario.flag_type; Scenario.path_type] "").
  - reflexivity.
  - repeat constructor.
Defined.

(** ** Exceptions and repetitions in runs *)

Section StopFacts.
Context {W : Type}.
Implicit Types (c : event -> exn -> bool).

Lemma stops_ret {A} c (a : A) : stops_unless c (@ret W A a).
Proof. intros w ev e []. Qed.

Lemma stops_raise {A} c e : stops_unless c (@raise W A e).
Proof. intros w ev e' []. Qed.

Lemma stops_of_option {A} c (o : option A) e : stops_unless c (@of_option W A o e).
Proof. destruct o; [apply stops_ret | apply stops_raise]. Qed.

Lemma stops_emit c e : reply_exn e = None -> stops_unless c (@emit W e).
Proof. intros He w ev e' [<-|[]] H. congruence. Qed.

Lemma stops_call {A} c (f : W -> outcome A * W) ev :
  (forall r, reply_exn (ev r) = raised r) -> stops_unless c (call f ev).
Proof.
  intros Hev w ev0 e. rewrite call_eq. cbn [trace result].
  intros [<-|[]] H _. rewrite Hev in H.
  destruct (fst (f w)); [discriminate H|]. injection H as ->.
  split; [reflexivity|]. by exists [].
Qed.

Lemma stops_bind {A B} c (m : M W A) (k : A -> M W B) :
  stops_unless c m -> (forall a, stops_unless c (k a)) -> stops_unless c (bind m k).
Proof.
  intros Hm Hk w ev e Hin He Hc. rewrite bind_run in Hin |- *.
  destruct (result (m w)) as [a|e'] eqn:Hr.
  - cbn [prepend trace result] in Hin |- *. apply in_app_or in Hin as [Hin|Hin].
    + destruct (Hm w ev e Hin He Hc) as [Hres _]. congruence.
    + destruct (Hk a _ ev e Hin He Hc) as [Hres [pre Hpre]].
      split; [exact Hres|]. exists (trace (m w) ++ pre). by rewrite Hpre, app_assoc.
  - cbn [trace result] in Hin |- *.
    destruct (Hm w ev e Hin He Hc) as [Hres Hpre]. split; [congruence | exact Hpre].
Qed.

Lemma stops_for_each {A} c (l : list A) (body : A -> M W unit) :
  (forall x, stops_unless c (body x)) -> stops_unless c (for_each l body).
Proof.
  intros H. induction l as [|x l IH]; cbn [for_each].
  - apply stops_ret.
  - apply stops_bind; auto.
Qed.

Lemma stops_mono {A} c c' (m : M W A) :
  (forall ev e, c ev e = true -> c' ev e = true) ->
  stops_unless c m -> stops_unless c' m.
Proof.
  intros H Hm w ev e Hin He Hc. apply (Hm w ev e Hin He).
  destruct (c ev e) eqn:E; [|reflexivity]. apply H in E. congruence.
Qed.

Lemma count_events_app p t1 t2 :
  count_events p (t1 ++ t2) = (count_events p t1 + count_events p t2)%nat.
Proof. unfold count_events. by rewrite List.filter_app, length_app. Qed.

Lemma at_most_none {A} p (m : M W A) :
  emits (fun e => p e = false) m -> at_most 0 p m.
Proof.
  intros Hm w. specialize (Hm w). unfold count_events.
  induction Hm as [|e t He _ IH]; [reflexivity|]. cbn [List.filter]. by rewrite He.
Qed.

Lemma at_most_mono {A} n n' p (m : M W A) :
  (n <= n')%nat -> at_most n p m -> at_most n' p m.
Proof. intros Hn Hm w. specialize (Hm w). lia. Qed.

Lemma at_most_call {A} p (f : W -> outcome A * W) ev : at_most 1 p (call f ev).
Proof.
  intros w. rewrite call_eq. unfold count_events. cbn [trace List.filter].
  destruct (p _); cbn; lia.
Qed.

Lemma at_most_bind {A B} n1 n2 p (m : M W A) (k : A -> M W B) :
  at_most n1 p m -> (forall a, at_most n2 p (k a)) -> at_most (n1 + n2) p (bind m k).
Proof.
  intros Hm Hk w. rewrite bind_run. specialize (Hm w).
  destruct (result (m w)) as [a|e]; cbn [prepend trace].
  - rewrite count_events_app. specialize (Hk a (world (m w))). lia.
  - lia.
Qed.

Lemma at_most_try_except {A} n1 n2 p (m : M W A) h :
  at_most n1 p m -> (forall e k, h e = Some k -> at_most n2 p k) ->
  at_most (n1 + n2) p (try_except m h).
Proof.
  intros Hm Hh w. unfold try_except. specialize (Hm w).
  destruct (result (m w)) as [a|e]; [lia|].
  destruct (h e) as [k|] eqn:He; [|lia].
  cbn [trace]. rewrite count_events_app. specialize (Hh e k He (world (m w))). lia.
Qed.

End StopFacts.

(** Decompose [stops_unless] goals along the structure of the action. *)
Ltac stops_step :=
  lazymatch goal with
  | |- stops_unless _ (bind _ _) => apply stops_bind; [|intros ?]
  | |- stops_unless _ (ret _) => apply stops_ret
  | |- stops_unless _ (raise _) => apply stops_raise
  | |- stops_unless _ (of_option _ _) => apply stops_of_option
  | |- stops_unless _ (getitem _ _) => apply stops_of_option
  | |- stops_unless _ (call _ _) => apply stops_call; intros ?; reflexivity
  | |- stops_unless _ (emit _) => apply stops_emit; reflexivity
  | |- stops_unless _ (print _) => apply stops_emit; reflexivity
  | |- stops_unless _ (log _ _ _) => apply stops_emit; reflexivity
  | |- stops_unless _ (for_each _ _) => apply stops_for_each; intros ?
  | |- stops_unless _ (if ?b then _ else _) => destruct b
  | |- stops_unless _ (match ?x with _ => _ end) => destruct x
  | |- stops_unless _ (let '(_, _) := ?x in _) => destruct x
  end.

Ltac stops_auto := repeat stops_step.

(** Bound by one the events of a kind, whichever statement has them. *)
Ltac at_most_one :=
  lazymatch goal with
  | |- at_most 1 _ (bind _ _) =>
      first
        [ apply (at_most_bind 0 1); [apply at_most_none; solve [emits_auto] | intros ?; at_most_one]
        | apply (at_most_bind 1 0); [at_most_one | intros ?; apply at_most_none; solve [emits_auto]] ]
  | |- at_most 1 _ (call _ _) => apply at_most_call
  | |- at_most 1 _ (try_except _ _) =>
      apply (at_most_try_except 1 0);
      [ at_most_one
      | let e := fresh "e" in let k := fresh "k" in let H := fresh "H" in
        intros e k H; apply at_most_none; destruct e; inversion H; subst; clear H;
        solve [emits_auto] ]
  | |- at_most 1 _ (if ?b then _ else _) => destruct b; at_most_one
  | |- at_most 1 _ (match ?x with _ => _ end) => destruct x; at_most_one
  | |- at_most 1 _ (let '(_, _) := ?x in _) => destruct x; at_most_one
  | |- at_most 1 _ _ =>
      apply (at_most_mono 0 1); [lia | apply at_most_none; solve [emits_auto]]
  end.

Section MoreFacts.
Context {W : Type} (C : Collaborators W).

Lemma main_load_cookies_stops a : stops_unless caught_by_main (main_load_cookies C a).
Proof.
  unfold main_load_cookies. destruct (Args.cookie_jar a) as [f|]; [|apply stops_ret].
  intros w ev e. unfold try_except, log. rewrite bind_call.
  destruct (jar_load W C f _ _ w) as [[u|e'] w1]; cbn [fst snd].
  - cbn [prepend emit result trace app]. intros Hin He. in_cases Hin; discriminate He.
  - cbn [result trace].
    destruct e'; cbn [trace emit app world result];
      intros Hin He Hc; cbn [In] in Hin;
      repeat (destruct Hin as [<-|Hin];
              [cbv in He;
               first [ discriminate He
                     | injection He as <-; cbv in Hc;
                       first [discriminate Hc | split; [reflexivity | by exists []]] ]|]);
      destruct Hin.
Qed.

Lemma main_save_cookies_stops a : stops_unless caught_by_main (main_save_cookies C a).
Proof.
  unfold main_save_cookies. destruct (Args.cookie_jar a) as [f|]; [|apply stops_ret].
  intros w ev e. unfold try_except, log. rewrite bind_call.
  destruct (jar_save W C f _ _ w) as [[u|e'] w1]; cbn [fst snd].
  - cbn [prepend emit result trace app]. intros Hin He. in_cases Hin; discriminate He.
  - cbn [result trace].
    destruct e'; cbn [trace emit app world result];
      intros Hin He Hc; cbn [In] in Hin;
      repeat (destruct Hin as [<-|Hin];
              [cbv in He;
               first [ discriminate He
                     | injection He as <-; cbv in Hc;
                       first [discriminate Hc | split; [reflexivity | by exists []]] ]|]);
      destruct Hin.
Qed.

Lemma get_credentials_stops c aws okta_profile profile verbose logger totp cache refresh
    user pass jar persistent agent :
  stops_unless c
    (get_credentials C aws okta_profile profile verbose logger totp cache refresh
       user pass jar persistent agent).
Proof. unfold get_credentials, console_output. stops_auto. Qed.

Lemma okta_switch_stops c logger : stops_unless c (okta_switch C logger).
Proof. unfold okta_switch. stops_auto. Qed.

Lemma main_stops a : stops_unless caught_by_main (main C a).
Proof.
  rewrite main_blocks.
  apply stops_bind; [unfold main_version; stops_auto | intros _].
  apply stops_bind; [unfold main_config; stops_auto | intros _].
  apply stops_bind; [unfold main_switch; destruct (Args.switch a);
                       [apply okta_switch_stops | apply stops_ret] | intros okta_profile].
  cbv zeta. apply stops_bind; [stops_auto | intros _].
  apply stops_bind; [unfold main_check; stops_auto | intros renew].
  apply stops_bind; [|intros _; unfold main_awscli; stops_auto].
  destruct renew; [|apply stops_ret]. unfold main_renew.
  apply stops_bind; [unfold main_force_note; stops_auto | intros _].
  apply stops_bind; [apply main_load_cookies_stops | intros _].
  apply stops_bind; [apply get_credentials_stops | intros _].
  apply main_save_cookies_stops.
Qed.

Lemma main_at_most_once a n : (2 <= n)%nat -> at_most 1 (of_kind n) (main C a).
Proof.
  intros Hn. unfold main, okta_switch, get_credentials, console_output.
  do 19 (destruct n as [|n]; [try lia; at_most_one|]).
  apply (at_most_mono 0 1); [lia | apply at_most_none; emits_auto].
Qed.

End MoreFacts.

(** ** More about [okta_switch] *)

Lemma index_In {A} (l : list A) (i : Z) (x : A) : Py.index l i = Some x -> In x l.
Proof.
  unfold Py.index. intros H. apply list_elem_of_In.
  destruct (_ && _); [by eapply list_elem_of_lookup_2|].
  destruct (_ && _); [by eapply list_elem_of_lookup_2 | discriminate H].
Qed.

Lemma sorted_In (l : list string) (x : string) : In x (Py.sorted l) <-> In x l.
Proof.
  rewrite <- !list_elem_of_In. unfold Py.sorted. by rewrite merge_sort_Permutation.
Qed.

Section SwitchMore.
Context {W : Type} (C : Collaborators W).

(** The profiles a run of [okta_switch] worked with are the ones the
    configuration returned. *)
Lemma okta_switch_read logger w ps :
  In (GetOktaProfiles (Ret ps)) (trace (okta_switch C logger w)) ->
  fst (config_get_okta_profiles W C w) = Ret ps.
Proof.
  unfold okta_switch. intros Hin.
  apply In_trace_bind in Hin as [Hin|(ps' & _ & Hin)].
  - rewrite call_eq in Hin. destruct Hin as [Hin|[]]. by injection Hin.
  - exfalso. apply (emits_not_In (of_kind 5) _ _ _ Hin eq_refl). emits_auto.
Qed.

(** The run of [okta_switch] once the configuration has returned [ps]. *)
Lemma okta_switch_run_with logger w ps :
  In (GetOktaProfiles (Ret ps)) (trace (okta_switch C logger w)) ->
  exists w1,
    okta_switch C logger w =
    if (length (Py.sorted ps) =? 1)%nat then
      {| result := match Py.index (Py.sorted ps) 0 with
                   | Some p => Ret p
                   | None => Raise IndexError
                   end;
         world := w1; trace := [GetOktaProfiles (Ret ps)] |}
    else
      let '(r2, w2) := os_input W C switch_prompt w1 in
      let shown := GetOktaProfiles (Ret ps) :: menu_lines (Py.sorted ps)
                   ++ [Input switch_prompt r2] in
      match r2 with
      | Raise e => {| result := Raise e; world := w2; trace := shown |}
      | Ret answer =>
          match Py.int answer with
          | None => {| result := Raise ValueError; world := w2; trace := shown |}
          | Some n =>
              match Py.index (Py.sorted ps) (n - 1) with
              | None => {| result := Raise IndexError; world := w2; trace := shown |}
              | Some p =>
                  {| result := Ret p; world := w2;
                     trace := shown ++ [Log DEBUG ("Selected " +:+ p) []] |}
              end
          end
      end.
Proof.
  intros Hin. apply okta_switch_read in Hin. rewrite okta_switch_run.
  destruct (config_get_okta_profiles W C w) as [r w1]. cbn [fst] in Hin. subst r.
  exists w1. reflexivity.
Qed.

(** With exactly one configured profile, [okta_switch] returns it at
    once: nothing is printed, asked or logged. *)
Theorem okta_switch_single_profile logger w ps :
  In (GetOktaProfiles (Ret ps)) (trace (okta_switch C logger w)) ->
  length ps = 1%nat ->
  exists p, ps = [p] /\
            result (okta_switch C logger w) = Ret p /\
            trace (okta_switch C logger w) = [GetOktaProfiles (Ret ps)].
Proof.
  intros Hin Hlen. destruct (okta_switch_run_with _ _ _ Hin) as [w1 ->].
  destruct ps as [|p [|q ps]]; try discriminate Hlen. exists p.
  split; [reflexivity|]. split; reflexivity.
Qed.

(** Whatever is answered, a profile returned by [okta_switch] is one of
    the configured profiles. *)
Theorem okta_switch_returns_configured logger w ps p :
  In (GetOktaProfiles (Ret ps)) (trace (okta_switch C logger w)) ->
  result (okta_switch C logger w) = Ret p ->
  In p ps.
Proof.
  intros Hin. destruct (okta_switch_run_with _ _ _ Hin) as [w1 ->].
  destruct (length (Py.sorted ps) =? 1)%nat.
  - cbn [result]. destruct (Py.index (Py.sorted ps) 0) eqn:E; [|discriminate].
    intros [= ->]. exact (proj1 (sorted_In _ _) (index_In _ _ _ E)).
  - destruct (os_input W C switch_prompt w1) as [[answer|e] w2]; [|discriminate].
    destruct (Py.int answer) as [n|]; [|discriminate].
    destruct (Py.index (Py.sorted ps) (n - 1)) eqn:E; [|discriminate].
    cbn [result]. intros [= ->]. exact (proj1 (sorted_In _ _) (index_In _ _ _ E)).
Qed.

(** With no configured profile at all, [okta_switch] still asks, and
    every answer ends the run with an exception. *)
Theorem okta_switch_no_profiles logger w :
  In (GetOktaProfiles (Ret [])) (trace (okta_switch C logger w)) ->
  (exists r, In (Input switch_prompt r) (trace (okta_switch C logger w))) /\
  exists e, result (okta_switch C logger w) = Raise e.
Proof.
  intros Hin. destruct (okta_switch_run_with _ _ _ Hin) as [w1 ->].
  change (length (Py.sorted []) =? 1)%nat with false. cbv iota.
  destruct (os_input W C switch_prompt w1) as [[answer|e] w2].
  - destruct (Py.int answer) as [n|].
    + change (Py.sorted []) with (@nil string).
      replace (Py.index [] (n - 1)) with (@None string)
        by (unfold Py.index; cbn [length]; by repeat case_match).
      split; [|by eexists]. eexists. cbn. do 2 right. left. reflexivity.
    + split; [|by eexists]. eexists. cbn. do 2 right. left. reflexivity.
  - split; [|by eexists]. eexists. cbn. do 2 right. left. reflexivity.
Qed.

(** What the answer was, in a run that asked. *)
Lemma okta_switch_answered logger w answer :
  In (Input switch_prompt (Ret answer)) (trace (okta_switch C logger w)) ->
  exists ps w2,
    okta_switch C logger w =
    let shown := GetOktaProfiles (Ret ps) :: menu_lines (Py.sorted ps)
                 ++ [Input switch_prompt (Ret answer)] in
    match Py.int answer with
    | None => {| result := Raise ValueError; world := w2; trace := shown |}
    | Some n =>
        match Py.index (Py.sorted ps) (n - 1) with
        | None => {| result := Raise IndexError; world := w2; trace := shown |}
        | Some p =>
            {| result := Ret p; world := w2;
               trace := shown ++ [Log DEBUG ("Selected " +:+ p) []] |}
        end
    end.
Proof.
  rewrite okta_switch_run.
  destruct (config_get_okta_profiles W C w) as [[ps|e] w1]; cbn [trace].
  2:{ intros H. in_cases H. }
  cbv zeta. destruct (length (Py.sorted ps) =? 1)%nat.
  { cbn [trace]. intros H. in_cases H. }
  destruct (os_input W C switch_prompt w1) as [r2 w2].
  assert (Hans : forall t,
             In (Input switch_prompt (Ret answer))
               (GetOktaProfiles (Ret ps) :: menu_lines (Py.sorted ps)
                ++ Input switch_prompt r2 :: t) ->
             (forall e, In e t -> is_log e = true) -> r2 = Ret answer).
  { intros t [H|H] Ht; [discriminate H|]. apply in_app_or in H as [H|[H|H]].
    - apply menu_lines_prints in H. discriminate H.
    - congruence.
    - apply Ht in H. discriminate H. }
  intros Hin. exists ps, w2.
  assert (r2 = Ret answer) as ->.
  { destruct r2 as [answer'|e]; cbn [trace] in Hin.
    - destruct (Py.int answer'); [destruct (Py.index (Py.sorted ps) (z - 1))|];
        cbn [trace] in Hin.
      + cbn [app] in Hin. rewrite <- app_assoc in Hin.
        apply (Hans [_]) in Hin; [exact Hin | intros ? [<-|[]]; reflexivity].
      + apply (Hans []) in Hin; [exact Hin | intros ? []].
      + apply (Hans []) in Hin; [exact Hin | intros ? []].
    - apply (Hans []) in Hin; [exact Hin | intros ? []]. }
  reflexivity.
Qed.

(** An answer that is not a number ends [okta_switch] with [ValueError],
    after the menu was shown and before anything is selected or logged. *)
Theorem okta_switch_not_a_number logger w answer :
  In (Input switch_prompt (Ret answer)) (trace (okta_switch C logger w)) ->
  Py.int answer = None ->
  result (okta_switch C logger w) = Raise ValueError /\
  Forall (fun e => is_log e = false) (trace (okta_switch C logger w)).
Proof.
  intros Hin Hint. destruct (okta_switch_answered _ _ _ Hin) as (ps & w2 & ->).
  cbv zeta. rewrite Hint. cbn [result trace]. split; [reflexivity|].
  constructor; [reflexivity|]. apply Forall_app. split; [|by repeat constructor].
  apply Forall_forall. intros e He. apply list_elem_of_In, menu_lines_prints in He.
  by destruct e.
Qed.

(** The number typed selects the line shown with that number: when the
    answer is a number [k >= 1] and [okta_switch] returns a profile, the
    menu had printed that profile on the line numbered [k], and the
    selection is logged. *)
Theorem okta_switch_selects_shown_line logger w answer k p :
  In (Input switch_prompt (Ret answer)) (trace (okta_switch C logger w)) ->
  Py.int answer = Some k ->
  1 <= k ->
  result (okta_switch C logger w) = Ret p ->
  In (Print (pretty (Z.to_nat k) +:+ ": " +:+ p)) (trace (okta_switch C logger w)) /\
  In (Log DEBUG ("Selected " +:+ p) []) (trace (okta_switch C logger w)).
Proof.
  intros Hin Hint Hk. destruct (okta_switch_answered _ _ _ Hin) as (ps & w2 & ->).
  cbv zeta. rewrite Hint.
  destruct (Py.index (Py.sorted ps) (k - 1)) as [q|] eqn:E; [|discriminate].
  cbn [result trace]. intros [= ->]. split.
  - right. apply in_or_app. left. apply in_or_app. left.
    unfold menu_lines. right. apply in_map_iff.
    exists (Z.to_nat (k - 1), p). split.
    + replace (Z.to_nat (k - 1) + 1)%nat with (Z.to_nat k) by lia. reflexivity.
    + apply list_elem_of_In, list_elem_of_lookup. exists (Z.to_nat (k - 1)).
      unfold enumerate. rewrite list_lookup_imap.
      unfold Py.index in E.
      destruct (_ && _) eqn:Eb in E; [by rewrite E|].
      destruct (_ && _) eqn:Eb2 in E; [lia | discriminate E].
  - apply in_or_app. right. left. reflexivity.
Qed.

(** An exception of the configuration or of the terminal is not handled
    by [okta_switch]: the run raises it, and does nothing after the call
    that raised. *)
Theorem okta_switch_never_swallows logger w ev e :
  In ev (trace (okta_switch C logger w)) ->
  reply_exn ev = Some e ->
  result (okta_switch C logger w) = Raise e /\
  exists pre, trace (okta_switch C logger w) = pre ++ [ev].
Proof.
  intros Hin He. by apply (okta_switch_stops C never_caught logger w ev e).
Qed.

End SwitchMore.

(** ** More about [get_credentials] and [console_output] *)

(** Follow an event of the trace past a call that returned, keeping the
    event of that call in front of the trace. *)
Ltac pass_call Hin a :=
  let H := fresh "Hcall" in
  apply In_trace_bind in Hin as [Hin|(a & H & Hin)];
  [ rewrite trace_call in Hin; destruct Hin as [Hin|[]]; discriminate Hin
  | rewrite (trace_bind_ret _ _ _ _ H), ?(result_bind_ret _ _ _ _ H), trace_call, H;
    clear H ].

Section IssuanceMore.
Context {W : Type} (C : Collaborators W).
Variables (aws : AwsAuth.t) (okta_profile : string) (profile : option string)
  (verbose : bool) (logger : Logger) (totp_token : option string)
  (cache refresh_role : bool) (okta_username okta_password cookie_jar : option string)
  (persistent_okta_session : bool) (user_agent : option string).

(** [console_output] cannot fail and leaves the outside world alone; it
    returns the same three export lines whether or not it prints them,
    and what it prints under [verbose] is a heading and those lines. *)
Theorem console_output_run k s t w :
  result (console_output C k s t verbose w) = Ret (export_lines C k s t) /\
  world (console_output C k s t verbose w) = w /\
  trace (console_output C k s t verbose w) =
    if verbose then
      [Print "Use these to set your environment variables:"; Print (export_lines C k s t)]
    else [].
Proof. destruct verbose; repeat split; reflexivity. Qed.

(** An exception of any collaborator is not handled by
    [get_credentials]: the run raises it, and the call that raised is the
    last thing the run did. *)
Theorem get_credentials_never_swallows w ev e :
  let run := get_credentials C aws okta_profile profile verbose logger totp_token cache
               refresh_role okta_username okta_password cookie_jar
               persistent_okta_session user_agent w in
  In ev (trace run) ->
  reply_exn ev = Some e ->
  result run = Raise e /\ exists pre, trace run = pre ++ [ev].
Proof.
  intros run Hin He. subst run.
  by apply (get_credentials_stops C never_caught _ _ _ _ _ _ _ _ _ _ _ _ _ w ev e).
Qed.

(** The role-assumption call gets what the earlier calls returned: the
    assertion of [get_assertion], the role and principal of
    [choose_aws_role] (role first), and the duration configured for the
    Okta profile. *)
Theorem sts_call_arguments w aws' role_arn principal_arn assertion duration r :
  let run := get_credentials C aws okta_profile profile verbose logger totp_token cache
               refresh_role okta_username okta_password cookie_jar
               persistent_okta_session user_agent w in
  In (GetStsToken aws' role_arn principal_arn assertion duration r) (trace run) ->
  aws' = aws /\
  (exists label,
     In (GetAssertion
           (okta_of okta_profile verbose totp_token okta_username okta_password cookie_jar
              user_agent)
           persistent_okta_session (Ret (label, assertion))) (trace run)) /\
  In (ChooseAwsRole aws assertion refresh_role (Ret (principal_arn, role_arn))) (trace run) /\
  In (DurationFor okta_profile (Ret duration)) (trace run).
Proof.
  intros run Hin. subst run. unfold get_credentials in Hin |- *.
  pass_call Hin u1. pass_call Hin u2. pass_call Hin got. cbv zeta in *.
  pass_call Hin role. destruct role as [pa ra].
  pass_call Hin u3. pass_call Hin du.
  apply In_trace_bind in Hin as [Hin|(d & Hd & Hin)].
  - rewrite trace_call in Hin. destruct Hin as [Hin|[]].
    injection Hin as <- <- <- <- <- _. destruct got as [label assertion].
    split; [reflexivity|]. split; [exists label|]; cbn [In app snd]; tauto.
  - exfalso. apply (emits_not_In is_get_sts_token _ _ _ Hin eq_refl).
    unfold console_output. emits_auto.
Qed.

(** When the provider's reply lacks one of the four keys, the run raises
    [KeyError] for the first missing key in the order AccessKeyId,
    SecretAccessKey, SessionToken, Expiration, right after the
    role-assumption call: nothing is logged, printed or written. *)
Theorem missing_key_raises w aws' role_arn principal_arn assertion duration sts_token key :
  let run := get_credentials C aws okta_profile profile verbose logger totp_token cache
               refresh_role okta_username okta_password cookie_jar
               persistent_okta_session user_agent w in
  In (GetStsToken aws' role_arn principal_arn assertion duration (Ret sts_token))
    (trace run) ->
  first_missing sts_token = Some key ->
  result run = Raise (KeyError key) /\
  exists pre,
    trace run =
    pre ++ [GetStsToken aws' role_arn principal_arn assertion duration (Ret sts_token)].
Proof.
  intros run Hin Hkey. subst run. unfold get_credentials in Hin |- *.
  pass_call Hin u1. pass_call Hin u2. pass_call Hin got. cbv zeta in *.
  pass_call Hin role. destruct role as [pa ra].
  pass_call Hin u3. pass_call Hin du.
  apply In_trace_bind in Hin as [Hin|(d & Hd & Hin)].
  2:{ exfalso. apply (emits_not_In is_get_sts_token _ _ _ Hin eq_refl).
      unfold console_output. emits_auto. }
  rewrite trace_call in Hin. destruct Hin as [Hin|[]].
  injection Hin as <- <- <- <- <- Hr.
  rewrite (trace_bind_ret _ _ _ _ Hr), (result_bind_ret _ _ _ _ Hr), trace_call, Hr.
  unfold first_missing, sts_keys in Hkey. cbn [List.find] in Hkey.
  unfold getitem.
  repeat (rewrite bind_of_option;
          match goal with
          | |- context [match sts_token !! ?k with _ => _ end] =>
              destruct (sts_token !! k) eqn:?
          end;
          [ rewrite bool_decide_eq_false_2 in Hkey by discriminate
          | rewrite bool_decide_eq_true_2 in Hkey by reflexivity;
            injection Hkey as <-; cbn [result trace app];
            split; [reflexivity|]; eexists [_; _; _; _; _; _]; reflexivity ]).
  discriminate Hkey.
Qed.

(** The destination is decided by [aws_auth.profile] alone (the [profile]
    argument is not looked at), and in every run, failed or not: with a
    named profile nothing is ever printed or written to the cache file;
    without one [write_sts_token] is never called. *)
Theorem destinations_exclusive w :
  let run := get_credentials C aws okta_profile profile verbose logger totp_token cache
               refresh_role okta_username okta_password cookie_jar
               persistent_okta_session user_agent w in
  (truthy (AwsAuth.profile aws) = true ->
   Forall (fun e => is_print e || is_write_file e = false) (trace run)) /\
  (truthy (AwsAuth.profile aws) = false ->
   Forall (fun e => is_write_sts_token e = false) (trace run)).
Proof.
  intros run. subst run. split; intros Hp;
    match goal with |- Forall ?P (trace (?m w)) => enough (emits P m) as H by apply H end;
    unfold get_credentials, console_output; rewrite Hp; cbn [negb]; emits_auto.
Qed.

End IssuanceMore.

Lemma get_credentials_never_swallows_witness :
  result (Script.get_credentials_for Script.plain
            (Scenario.with_role (Raise (OtherError "SystemExit")) Script.w0))
  = Raise (OtherError "SystemExit") /\
  exists pre,
    trace (Script.get_credentials_for Script.plain
             (Scenario.with_role (Raise (OtherError "SystemExit")) Script.w0)) =
    pre ++ [ChooseAwsRole (main_aws_auth Script.plain "default") "PHNhbWw+" false
              (Raise (OtherError "SystemExit"))].
Proof.
  unfold Script.get_credentials_for. apply get_credentials_never_swallows; [|reflexivity].
  vm_compute. do 3 right. left. reflexivity.
Defined.

Lemma sts_call_arguments_witness :
  main_aws_auth Script.plain "default" = main_aws_auth Script.plain "default" /\
  (exists label,
     In (GetAssertion (okta_of "default" false None None None None None) false
           (Ret (label, "PHNhbWw+")))
       (trace (Script.get_credentials_for Script.plain Script.w0))) /\
  In (ChooseAwsRole (main_aws_auth Script.plain "default") "PHNhbWw+" false
        (Ret ("arn:aws:iam::1:saml-provider/okta", "arn:aws:iam::1:role/Admin")))
    (trace (Script.get_credentials_for Script.plain Script.w0)) /\
  In (DurationFor "default" (Ret 3600))
    (trace (Script.get_credentials_for Script.plain Script.w0)).
Proof.
  unfold Script.get_credentials_for.
  apply (sts_call_arguments Script.collaborators (main_aws_auth Script.plain "default")
           "default" None false Script.logger None false false None None None false None
           Script.w0 _ _ _ _ _ (Ret Script.sts_token)).
  vm_compute. do 6 right. left. reflexivity.
Defined.

Lemma missing_key_raises_witness :
  result (Script.get_credentials_for Script.plain
            (Script.with_sts (Ret Scenario.sts_token_without_secret) Script.w0))
  = Raise (KeyError "SecretAccessKey") /\
  exists pre,
    trace (Script.get_credentials_for Script.plain
             (Script.with_sts (Ret Scenario.sts_token_without_secret) Script.w0)) =
    pre ++ [GetStsToken (main_aws_auth Script.plain "default") "arn:aws:iam::1:role/Admin"
              "arn:aws:iam::1:saml-provider/okta" "PHNhbWw+" 3600
              (Ret Scenario.sts_token_without_secret)].
Proof.
  unfold Script.get_credentials_for. apply missing_key_raises.
  - vm_compute. do 6 right. left. reflexivity.
  - vm_compute. reflexivity.
Defined.

(** ** More about [main] *)

(** Decompose [emits] goals, closing the leaves with [tac]. *)
Ltac emits_by tac :=
  repeat lazymatch goal with
  | |- emits _ (bind _ _) => apply emits_bind; [|intros ?]
  | |- emits _ (ret _) => apply emits_ret
  | |- emits _ (raise _) => apply emits_raise
  | |- emits _ (of_option _ _) => apply emits_of_option
  | |- emits _ (getitem _ _) => apply emits_of_option
  | |- emits _ (call _ _) => apply emits_call; intros ?; tac
  | |- emits _ (emit _) => apply emits_emit; tac
  | |- emits _ (print _) => apply emits_emit; tac
  | |- emits _ (log _ _ _) => apply emits_emit; tac
  | |- emits _ (for_each _ _) => apply emits_for_each; intros ?
  | |- emits _ (try_except _ _) =>
      apply emits_try_except;
      [|let e := fresh "e" in let k := fresh "k" in let H := fresh "H" in
        intros e k H; destruct e; inversion H; subst; clear H]
  | |- emits _ (if ?b then _ else _) => destruct b
  | |- emits _ (match ?x with _ => _ end) => destruct x eqn:?
  | |- emits _ (let '(_, _) := ?x in _) => destruct x
  end.

Section MainMore.
Context {W : Type} (C : Collaborators W).

(** [--version] prints the version and exits with status 0 before
    anything else happens, whatever the other options are. *)
Theorem version_exits_first a w :
  Args.version a = true ->
  main C a w =
  {| result := Raise (SystemExit 0); world := w; trace := [Print (version_string W C)] |}.
Proof.
  intros H. rewrite main_blocks. unfold main_version. rewrite H.
  rewrite bind_assoc. unfold print. rewrite bind_emit. reflexivity.
Qed.

(** With [--force] the cached credentials are never checked. *)
Theorem force_skips_check a w :
  Args.force a = true ->
  Forall (fun e => is_check e = false) (trace (main C a w)).
Proof.
  intros H. enough (emits (fun e => is_check e = false) (main C a)) as E by apply E.
  rewrite main_blocks. unfold main_check. rewrite H. emits_main.
Qed.

(** The [AwsAuth] object is built from the options as given; its Okta
    profile is the one named with [-o], or ["default"] when that is
    missing or empty, unless [--switch] is on, in which case it is what
    [okta_switch] returned. *)
Theorem aws_auth_built_from_options a w aws r :
  In (NewAwsAuth aws r) (trace (main C a w)) ->
  AwsAuth.profile aws = Args.profile a /\
  AwsAuth.lookup aws = Args.lookup a /\
  AwsAuth.verbose aws = Args.verbose a /\
  (Args.switch a = false -> AwsAuth.okta_profile aws = given_okta_profile a) /\
  (Args.switch a = true ->
   exists w', result (okta_switch C (main_logger a) w') = Ret (AwsAuth.okta_profile aws)).
Proof.
  rewrite main_blocks. intros Hin.
  apply In_trace_bind in Hin as [Hin|(_ & _ & Hin)].
  { exfalso. apply (emits_not_In (of_kind 6) _ _ _ Hin eq_refl). emits_main. }
  apply In_trace_bind in Hin as [Hin|(_ & _ & Hin)].
  { exfalso. apply (emits_not_In (of_kind 6) _ _ _ Hin eq_refl). emits_main. }
  apply In_trace_bind in Hin as [Hin|(okta_profile & Hsw & Hin)].
  { exfalso. apply (emits_not_In (of_kind 6) _ _ _ Hin eq_refl). emits_main. }
  cbv zeta in Hin.
  apply In_trace_bind in Hin as [Hin|(_ & _ & Hin)].
  2:{ exfalso. apply (emits_not_In (of_kind 6) _ _ _ Hin eq_refl). emits_main. }
  rewrite trace_call in Hin. destruct Hin as [Hin|[]]. injection Hin as <- _.
  repeat split; unfold main_switch in Hsw; intros Hs; rewrite Hs in Hsw.
  - cbn [ret result] in Hsw. by injection Hsw as <-.
  - eexists. exact Hsw.
Qed.

(** The cookie jar is only ever loaded from, and saved to, the file
    named with [--cookie-jar], with [ignore_discard] and [ignore_expires]
    both equal to [--persistent-okta-session]; without [--cookie-jar]
    there is no load and no save. *)
Theorem cookie_jar_as_given a w ev f d x :
  In ev (trace (main C a w)) ->
  (exists r, ev = CookieLoad f d x r) \/ (exists r, ev = CookieSave f d x r) ->
  Args.cookie_jar a = Some f /\
  d = Args.persistent_okta_session a /\
  x = Args.persistent_okta_session a.
Proof.
  intros Hin Hev.
  enough (emits (fun e =>
            match e with
            | CookieLoad f d x _ | CookieSave f d x _ =>
                Args.cookie_jar a = Some f /\
                d = Args.persistent_okta_session a /\ x = Args.persistent_okta_session a
            | _ => True
            end) (main C a)) as E.
  { specialize (E w). rewrite Forall_forall in E.
    apply list_elem_of_In, E in Hin. by destruct Hev as [[r ->]|[r ->]]. }
  unfold main, okta_switch, get_credentials, console_output.
  emits_by ltac:(first [exact I | by repeat split]).
Qed.

(** The only exceptions [main] handles are the [OSError]s of loading and
    saving the cookie jar: when any other call raises (the configuration,
    the terminal, the identity provider, role resolution, the
    role-assumption service, a credential write, the AWS CLI), that call
    is the last thing the run does and the run raises that exception. *)
Theorem main_swallows_only_jar_errors a w ev e :
  In ev (trace (main C a w)) ->
  reply_exn ev = Some e ->
  caught_by_main ev e = false ->
  result (main C a w) = Raise e /\ exists pre, trace (main C a w) = pre ++ [ev].
Proof. apply main_stops. Qed.

(** No method of a collaborator is called twice in a run of [main]:
    there are no retries.  (Only printing and logging repeat.) *)
Theorem main_no_call_twice a w n :
  (2 <= n)%nat ->
  (count_events (of_kind n) (trace (main C a w)) <= 1)%nat.
Proof. intros Hn. by apply main_at_most_once. Qed.

(** The AWS CLI is run only with the arguments given on the command
    line, only when there are some, as the last thing [main] does, and
    [main] ends as that call ends. *)
Theorem awscli_runs_last a w aws args r :
  In (ExecuteAwsArgs aws args r) (trace (main C a w)) ->
  args = Args.awscli_args a /\ args <> [] /\
  result (main C a w) = r /\
  exists pre, trace (main C a w) = pre ++ [ExecuteAwsArgs aws args r].
Proof.
  set (G := fun r0 : run W unit =>
             args = Args.awscli_args a /\ args <> [] /\
             result r0 = r /\ exists pre, trace r0 = pre ++ [ExecuteAwsArgs aws args r]).
  assert (HG : forall pre (r0 : run W unit),
             Forall (fun x => is_execute_aws_args x = false) pre -> G r0 ->
             G (prepend pre r0)).
  { intros pre r0 _ (H1 & H2 & H3 & pre' & H4). repeat split; try assumption.
    exists (pre ++ pre'). cbn [prepend trace]. by rewrite H4, app_assoc. }
  change (In (ExecuteAwsArgs aws args r) (trace (main C a w)) -> G (main C a w)).
  rewrite main_blocks.
  pose proof (fun A m k w => run_skip (A := A) is_execute_aws_args m k w
                (ExecuteAwsArgs aws args r) G HG eq_refl) as skip.
  apply skip; [emits_main | intros _ w1].
  apply skip; [emits_main | intros _ w2].
  apply skip; [emits_main | intros okta_profile w3]. cbv zeta.
  apply skip; [emits_main | intros _ w4].
  apply skip; [emits_main | intros renew w5].
  apply skip; [emits_main | intros _ w6].
  unfold main_awscli. destruct (Args.awscli_args a) as [|arg rest] eqn:Ea; [intros []|].
  rewrite call_eq. cbn [trace result]. intros [Hin|[]]. injection Hin as <- <- <-.
  repeat split; [discriminate | by exists []].
Qed.

(** With [--switch] the profile named with [-o] plays no part. *)
Theorem switch_overrides_okta_profile a o w :
  Args.switch a = true ->
  main C (Scenario.with_okta_profile o a) w = main C a w.
Proof.
  intros H. unfold main, Scenario.with_okta_profile, Scenario.options.
  cbn [Args.okta_profile Args.profile Args.verbose Args.version Args.debug Args.force
       Args.cache Args.lookup Args.awscli_args Args.refresh_role Args.token
       Args.okta_username Args.okta_password Args.config Args.switch Args.cookie_jar
       Args.persistent_okta_session Args.user_agent].
  rewrite H. reflexivity.
Qed.

(** What the handler set up by [main] lets through: warnings always,
    informational records with [--verbose] or [--debug], debug records
    with [--debug] only. *)
Theorem handler_levels a :
  shown (main_logger a) WARNING = true /\
  shown (main_logger a) INFO = Args.verbose a || Args.debug a /\
  shown (main_logger a) DEBUG = Args.debug a.
Proof.
  unfold shown, main_logger. cbn [handler_level].
  destruct (Args.debug a), (Args.verbose a); repeat split; reflexivity.
Qed.

(** The cookie jar is saved only after [get_credentials] has returned:
    right before the save comes the complete trace of a successful
    issuance and delivery. *)
Theorem save_follows_issuance a w f d x r :
  In (CookieSave f d x r) (trace (main C a w)) ->
  exists pre post aws okta_profile got principal_arn role_arn duration sts_token k s t expiry,
    trace (main C a w) =
      pre ++
      (issuance C aws
         (okta_of okta_profile (Args.verbose a) (Args.token a) (Args.okta_username a)
            (Args.okta_password a) (Args.cookie_jar a) (Args.user_agent a))
         (Args.persistent_okta_session a) (Args.refresh_role a) got principal_arn role_arn
         duration sts_token expiry
       ++ delivery C aws (Args.verbose a) (Args.cache a) k s expiry t)
      ++ CookieSave f d x r :: post.
Proof.
  set (G := fun r0 : run W unit =>
    exists pre post aws okta_profile got principal_arn role_arn duration sts_token k s t expiry,
      trace r0 =
        pre ++
        (issuance C aws
           (okta_of okta_profile (Args.verbose a) (Args.token a) (Args.okta_username a)
              (Args.okta_password a) (Args.cookie_jar a) (Args.user_agent a))
           (Args.persistent_okta_session a) (Args.refresh_role a) got principal_arn
           role_arn duration sts_token expiry
         ++ delivery C aws (Args.verbose a) (Args.cache a) k s expiry t)
        ++ CookieSave f d x r :: post).
  assert (HG : forall pre (r0 : run W unit),
             Forall (fun x => is_cookie_save x = false) pre -> G r0 -> G (prepend pre r0)).
  { intros pre r0 _ (pre' & post & aws & op & got & pa & ra & du & st & k & s & t & e & H).
    exists (pre ++ pre'), post, aws, op, got, pa, ra, du, st, k, s, t, e.
    cbn [prepend trace]. by rewrite H, !app_assoc. }
  assert (HG' : forall (r0 : run W unit) post,
             G r0 -> G {| result := result r0; world := world r0;
                          trace := trace r0 ++ post |}).
  { intros r0 post' (pre' & post & aws & op & got & pa & ra & du & st & k & s & t & e & H).
    exists pre', (post ++ post'), aws, op, got, pa, ra, du, st, k, s, t, e.
    cbn [trace]. rewrite H, <- !app_assoc. reflexivity. }
  change (In (CookieSave f d x r) (trace (main C a w)) -> G (main C a w)).
  rewrite main_blocks.
  pose proof (fun A m k w => run_skip (A := A) is_cookie_save m k w
                (CookieSave f d x r) G HG eq_refl) as skip.
  apply skip; [emits_main | intros _ w1].
  apply skip; [emits_main | intros _ w2].
  apply skip; [emits_main | intros okta_profile w3]. cbv zeta.
  set (aws := main_aws_auth a okta_profile).
  apply skip; [emits_main | intros _ w4].
  apply skip; [emits_main | intros renew w5].
  intros Hin. apply (In_first is_cookie_save) in Hin; [|reflexivity|intros ?; emits_main].
  destruct renew; [|destruct Hin].
  enough (G (main_renew C a okta_profile aws w5)) as HGr.
  { destruct (trace_bind_prefix (main_renew C a okta_profile aws)
                (fun _ => main_awscli C a aws) w5) as [rest Hrest].
    destruct (HG' _ rest HGr) as (pre' & post & aws' & op & got & pa & ra & du & st & k & s
                                  & t & e & H).
    cbn [trace] in H. rewrite <- Hrest in H.
    by exists pre', post, aws', op, got, pa, ra, du, st, k, s, t, e. }
  revert Hin. unfold main_renew.
  apply skip; [emits_main | intros _ w6].
  apply skip; [emits_main | intros _ w7].
  intros Hin. apply In_trace_bind in Hin as [Hin|(u & Hgc & Hin)].
  { exfalso. apply (emits_not_In is_cookie_save _ _ _ Hin eq_refl). emits_main. }
  destruct u. pose proof Hgc as Hgc'. unfold main_get_credentials in Hgc.
  destruct (get_credentials_success C _ _ _ _ _ _ _ _ _ _ _ _ _ _ Hgc)
    as (got & pa & ra & du & st & k & s & t & e & _ & _ & _ & _ & Htr).
  apply in_split in Hin as (l1 & post & Hsave).
  assert (l1 = []) as ->.
  { unfold main_save_cookies in Hsave.
    destruct (Args.cookie_jar a) as [f'|]; [|by destruct l1].
    unfold try_except, log in Hsave. rewrite bind_call in Hsave.
    destruct (jar_save W C f' _ _ _) as [[u|e'] w8]; cbn [fst snd] in Hsave.
    - cbn [prepend emit result trace app] in Hsave.
      destruct l1 as [|? [|? l1]]; [reflexivity|..]; simplify_eq; by destruct l1.
    - cbn [result trace] in Hsave.
      destruct e'; cbn [trace emit app world result] in Hsave;
        (destruct l1 as [|? [|? l1]]; [reflexivity|..]; simplify_eq; by destruct l1). }
  exists [], post, aws, okta_profile, got, pa, ra, du, st, k, s, t, e.
  rewrite (trace_bind_ret _ _ _ _ Hgc'), Hsave. unfold main_get_credentials.
  rewrite Htr. reflexivity.
Qed.

End MainMore.

(** *** More runs against the scripted world *)

Lemma okta_switch_single_profile_witness :
  exists p, ["dev"] = [p] /\
    result (okta_switch Script.collaborators Script.logger
              (Scenario.with_okta_profiles ["dev"] Script.w0)) = Ret p /\
    trace (okta_switch Script.collaborators Script.logger
             (Scenario.with_okta_profiles ["dev"] Script.w0)) = [GetOktaProfiles (Ret ["dev"])].
Proof.
  apply okta_switch_single_profile; [|reflexivity]. vm_compute. left. reflexivity.
Defined.

Lemma okta_switch_returns_configured_witness : In "prod" ["prod"; "dev"].
Proof.
  apply (okta_switch_returns_configured Script.collaborators Script.logger
           (Script.with_stdin ["2"] Script.w0)).
  - vm_compute. left. reflexivity.
  - vm_compute. reflexivity.
Defined.

Lemma okta_switch_no_profiles_witness :
  (exists r, In (Input switch_prompt r)
               (trace (okta_switch Script.collaborators Script.logger
                         (Scenario.with_okta_profiles [] (Script.with_stdin ["1"] Script.w0))))) /\
  exists e, result (okta_switch Script.collaborators Script.logger
                      (Scenario.with_okta_profiles [] (Script.with_stdin ["1"] Script.w0)))
            = Raise e.
Proof. apply okta_switch_no_profiles. vm_compute. left. reflexivity. Defined.

Lemma okta_switch_not_a_number_witness :
  result (okta_switch Script.collaborators Script.logger
            (Script.with_stdin ["prod"] Script.w0)) = Raise ValueError /\
  Forall (fun e => is_log e = false)
    (trace (okta_switch Script.collaborators Script.logger
              (Script.with_stdin ["prod"] Script.w0))).
Proof.
  apply (okta_switch_not_a_number Script.collaborators Script.logger
           (Script.with_stdin ["prod"] Script.w0) "prod"); [|reflexivity].
  vm_compute. do 4 right. left. reflexivity.
Defined.

Lemma okta_switch_selects_shown_line_witness :
  In (Print "2: prod")
    (trace (okta_switch Script.collaborators Script.logger
              (Script.with_stdin ["2"] Script.w0))) /\
  In (Log DEBUG "Selected prod" [])
    (trace (okta_switch Script.collaborators Script.logger
              (Script.with_stdin ["2"] Script.w0))).
Proof.
  apply (okta_switch_selects_shown_line Script.collaborators Script.logger
           (Script.with_stdin ["2"] Script.w0) "2" 2 "prod").
  - vm_compute. do 4 right. left. reflexivity.
  - reflexivity.
  - lia.
  - vm_compute. reflexivity.
Defined.

Lemma okta_switch_never_swallows_witness :
  result (okta_switch Script.collaborators Script.logger Script.w0) = Raise EOFError /\
  exists pre,
    trace (okta_switch Script.collaborators Script.logger Script.w0) =
    pre ++ [Input switch_prompt (Raise EOFError)].
Proof.
  apply okta_switch_never_swallows; [|reflexivity].
  vm_compute. do 4 right. left. reflexivity.
Defined.

Lemma destinations_exclusive_witness :
  Forall (fun e => is_print e || is_write_file e = false)
    (trace (Script.get_credentials_for
              (Scenario.with_flags true true (Script.with_profile "dev" Script.plain))
              Script.w0)).
Proof.
  unfold Script.get_credentials_for.
  apply (destinations_exclusive Script.collaborators
           (main_aws_auth (Scenario.with_flags true true (Script.with_profile "dev" Script.plain))
              "default")).
  reflexivity.
Defined.

Lemma version_exits_first_witness :
  main Script.collaborators (Scenario.with_version (Scenario.with_force Script.plain))
    Script.w0 =
  {| result := Raise (SystemExit 0); world := Script.w0; trace := [Print "0.5.4"] |}.
Proof. apply (version_exits_first Script.collaborators). reflexivity. Defined.

Lemma force_skips_check_witness :
  Forall (fun e => is_check e = false)
    (trace (main Script.collaborators (Scenario.with_force Script.plain)
              (Script.with_cached_valid (Ret true) Script.w0))).
Proof. apply force_skips_check. reflexivity. Defined.

Lemma aws_auth_built_from_options_witness :
  AwsAuth.profile (main_aws_auth (Scenario.with_okta_profile (Some "") Script.plain) "default")
  = None /\
  AwsAuth.lookup (main_aws_auth (Scenario.with_okta_profile (Some "") Script.plain) "default")
  = LookupOff /\
  AwsAuth.verbose (main_aws_auth (Scenario.with_okta_profile (Some "") Script.plain) "default")
  = false /\
  (false = false ->
   AwsAuth.okta_profile
     (main_aws_auth (Scenario.with_okta_profile (Some "") Script.plain) "default")
   = "default") /\
  (false = true ->
   exists w', result (okta_switch Script.collaborators
                        (main_logger (Scenario.with_okta_profile (Some "") Script.plain)) w')
              = Ret "default").
Proof.
  apply (aws_auth_built_from_options Script.collaborators
           (Scenario.with_okta_profile (Some "") Script.plain) Script.w0
           (main_aws_auth (Scenario.with_okta_profile (Some "") Script.plain) "default")
           (Ret tt)).
  vm_compute. left. reflexivity.
Defined.

Lemma cookie_jar_as_given_witness :
  Args.cookie_jar (Script.with_cookie_jar "/tmp/jar" Script.plain) = Some "/tmp/jar" /\
  false = Args.persistent_okta_session (Script.with_cookie_jar "/tmp/jar" Script.plain) /\
  false = Args.persistent_okta_session (Script.with_cookie_jar "/tmp/jar" Script.plain).
Proof.
  apply (cookie_jar_as_given Script.collaborators
           (Script.with_cookie_jar "/tmp/jar" Script.plain) Script.w0
           (CookieLoad "/tmp/jar" false false (Ret tt))).
  - vm_compute. do 2 right. left. reflexivity.
  - left. by eexists.
Defined.

Lemma main_swallows_only_jar_errors_witness :
  result (main Script.collaborators (Script.with_cookie_jar "/tmp/jar" Script.plain)
            (Script.with_sts (Raise (OtherError "ClientError")) Script.w0))
  = Raise (OtherError "ClientError") /\
  exists pre,
    trace (main Script.collaborators (Script.with_cookie_jar "/tmp/jar" Script.plain)
             (Script.with_sts (Raise (OtherError "ClientError")) Script.w0)) =
    pre ++ [GetStsToken (main_aws_auth Script.plain "default") "arn:aws:iam::1:role/Admin"
              "arn:aws:iam::1:saml-provider/okta" "PHNhbWw+" 3600
              (Raise (OtherError "ClientError"))].
Proof.
  apply main_swallows_only_jar_errors; [|reflexivity|reflexivity].
  vm_compute. do 10 right. left. reflexivity.
Defined.

Lemma main_no_call_twice_witness :
  (count_events (of_kind 16) (trace (main Script.collaborators Script.plain Script.w0)) <= 1)%nat.
Proof. apply main_no_call_twice. lia. Defined.

Lemma awscli_runs_last_witness :
  ["s3"; "ls"] = Args.awscli_args (Scenario.with_awscli_args ["s3"; "ls"] Script.plain) /\
  ["s3"; "ls"] <> [] /\
  result (main Script.collaborators (Scenario.with_awscli_args ["s3"; "ls"] Script.plain)
            Script.w0) = Ret tt /\
  exists pre,
    trace (main Script.collaborators (Scenario.with_awscli_args ["s3"; "ls"] Script.plain)
             Script.w0) =
    pre ++ [ExecuteAwsArgs (main_aws_auth Script.plain "default") ["s3"; "ls"] (Ret tt)].
Proof.
  apply awscli_runs_last. vm_compute. do 10 right. left. reflexivity.
Defined.

Lemma switch_overrides_okta_profile_witness :
  main Script.collaborators
    (Scenario.with_okta_profile (Some "prod") (Scenario.with_switch Script.plain))
    (Script.with_stdin ["1"] Script.w0) =
  main Script.collaborators (Scenario.with_switch Script.plain)
    (Script.with_stdin ["1"] Script.w0).
Proof. apply (switch_overrides_okta_profile Script.collaborators). reflexivity. Defined.

Lemma save_follows_issuance_witness :
  let a := Script.with_cookie_jar "/tmp/jar" Script.plain in
  exists pre post aws okta_profile got principal_arn role_arn duration sts_token k s t expiry,
    trace (main Script.collaborators a Script.w0) =
      pre ++
      (issuance Script.collaborators aws
         (okta_of okta_profile (Args.verbose a) (Args.token a) (Args.okta_username a)
            (Args.okta_password a) (Args.cookie_jar a) (Args.user_agent a))
         (Args.persistent_okta_session a) (Args.refresh_role a) got principal_arn role_arn
         duration sts_token expiry
       ++ delivery Script.collaborators aws (Args.verbose a) (Args.cache a) k s expiry t)
      ++ CookieSave "/tmp/jar" false false (Ret tt) :: post.
Proof.
  intros a. apply (save_follows_issuance Script.collaborators a Script.w0).
  vm_compute. do 12 right. left. reflexivity.
Defined.

(** * The outside world after a run *)

(** ** Traces account for the world *)

Section FaithfulFacts.
Context {W : Type} (C : Collaborators W).

Lemma replays_app t1 t2 w w1 w2 :
  replays C t1 w w1 -> replays C t2 w1 w2 -> replays C (t1 ++ t2) w w2.
Proof.
  revert w. induction t1 as [|ev t1 IH]; cbn [replays app]; intros w.
  - intros ->. auto.
  - intros (w' & Hev & Ht1) H2. exists w'. split; [exact Hev | by apply IH].
Qed.

Lemma replays_app_inv t1 t2 w w2 :
  replays C (t1 ++ t2) w w2 -> exists w1, replays C t1 w w1 /\ replays C t2 w1 w2.
Proof.
  revert w. induction t1 as [|ev t1 IH]; cbn [replays app]; intros w.
  - intros H. exists w. auto.
  - intros (w' & Hev & H). destruct (IH _ H) as (w1 & H1 & H2).
    exists w1. split; [exists w'; auto | exact H2].
Qed.

Lemma faithful_ret {A} (a : A) : faithful C (ret a).
Proof. intros w. reflexivity. Qed.

Lemma faithful_raise {A} e : faithful C (@raise W A e).
Proof. intros w. reflexivity. Qed.

Lemma faithful_of_option {A} (o : option A) e : faithful C (of_option o e).
Proof. destruct o; [apply faithful_ret | apply faithful_raise]. Qed.

Lemma faithful_emit e : (forall w, performed C e w w) -> faithful C (emit e).
Proof. intros H w. exists w. split; [apply H | reflexivity]. Qed.

Lemma faithful_call {A} (f : W -> outcome A * W) ev :
  (forall w, performed C (ev (fst (f w))) w (snd (f w))) -> faithful C (call f ev).
Proof.
  intros H w. rewrite call_eq. exists (snd (f w)). split; [apply H | reflexivity].
Qed.

Lemma faithful_bind {A B} (m : M W A) (k : A -> M W B) :
  faithful C m -> (forall a, faithful C (k a)) -> faithful C (bind m k).
Proof.
  intros Hm Hk w. rewrite bind_run. destruct (result (m w)) as [a|e].
  - cbn [prepend trace world]. eapply replays_app; [apply Hm | apply Hk].
  - apply Hm.
Qed.

Lemma faithful_try_except {A} (m : M W A) h :
  faithful C m -> (forall e k, h e = Some k -> faithful C k) -> faithful C (try_except m h).
Proof.
  intros Hm Hh w. unfold try_except. destruct (result (m w)) as [a|e]; [apply Hm|].
  destruct (h e) as [k|] eqn:E; [|apply Hm].
  cbn [trace world]. eapply replays_app; [apply Hm | apply (Hh _ _ E)].
Qed.

Lemma faithful_for_each {A} (l : list A) (body : A -> M W unit) :
  (forall x, faithful C (body x)) -> faithful C (for_each l body).
Proof.
  intros H. induction l as [|x l IH]; cbn [for_each]; [apply faithful_ret|].
  apply faithful_bind; [apply H | intros _; exact IH].
Qed.

End FaithfulFacts.

Ltac faithful_step :=
  lazymatch goal with
  | |- faithful _ (bind _ _) => apply faithful_bind; [|intros ?]
  | |- faithful _ (ret _) => apply faithful_ret
  | |- faithful _ (raise _) => apply faithful_raise
  | |- faithful _ (of_option _ _) => apply faithful_of_option
  | |- faithful _ (getitem _ _) => apply faithful_of_option
  | |- faithful _ (call _ _) =>
      apply faithful_call; intros ?; cbn [performed];
      first [apply surjective_pairing | eexists; apply surjective_pairing]
  | |- faithful _ (emit _) => apply faithful_emit; intros ?; reflexivity
  | |- faithful _ (print _) => apply faithful_emit; intros ?; reflexivity
  | |- faithful _ (log _ _ _) => apply faithful_emit; intros ?; reflexivity
  | |- faithful _ (for_each _ _) => apply faithful_for_each; intros ?
  | |- faithful _ (try_except _ _) =>
      apply faithful_try_except;
      [|let e := fresh "e" in let k := fresh "k" in let H := fresh "H" in
        intros e k H; destruct e; inversion H; subst; clear H]
  | |- faithful _ (if ?b then _ else _) => destruct b
  | |- faithful _ (match ?x with _ => _ end) => destruct x
  | |- faithful _ (let '(_, _) := ?x in _) => destruct x
  end.

Ltac faithful_auto := repeat faithful_step.

Section DriverWorld.
Context {W : Type} (C : Collaborators W).

Lemma okta_switch_faithful logger : faithful C (okta_switch C logger).
Proof. unfold okta_switch. faithful_auto. Qed.

Lemma get_credentials_faithful aws okta_profile profile verbose logger totp cache refresh
    user pass jar persistent agent :
  faithful C
    (get_credentials C aws okta_profile profile verbose logger totp cache refresh
       user pass jar persistent agent).
Proof. unfold get_credentials, console_output. faithful_auto. Qed.

Lemma main_faithful a : faithful C (main C a).
Proof. unfold main, okta_switch, get_credentials, console_output. faithful_auto. Qed.

End DriverWorld.

(** ** What [get_credentials] leaves behind *)

Lemma delivery_named {W} (C : Collaborators W) aws verbose cache k s x t :
  truthy (AwsAuth.profile aws) = true ->
  delivery C aws verbose cache k s x t = [WriteStsToken aws k s x t (Ret tt)].
Proof. intros Hp. unfold delivery. rewrite Hp. reflexivity. Qed.

Lemma delivery_quiet {W} (C : Collaborators W) aws verbose cache k s x t :
  truthy (AwsAuth.profile aws) = false ->
  verbose = false ->
  delivery C aws verbose cache k s x t =
  if cache then [WriteFile (cache_path C) (export_lines C k s t) (Ret tt)] else [].
Proof. intros Hp ->. unfold delivery. rewrite Hp. reflexivity. Qed.

Section IssuanceWorld.
Context {W : Type} (C : Collaborators W).
Variables (aws : AwsAuth.t) (okta_profile : string) (profile : option string)
  (verbose : bool) (logger : Logger) (totp_token : option string)
  (cache refresh_role : bool) (okta_username okta_password cookie_jar : option string)
  (persistent_okta_session : bool) (user_agent : option string).

(** C5: whenever role resolution returns a role, under either
    destination, the very next thing [get_credentials] does is to call
    [write_role_to_profile] for the selected Okta profile and that role:
    the call is made in the world role resolution left, everything the run
    does afterwards starts from the world the call left, and if the call
    raises the run ends there with its exception, so that a run that
    returns has had the role written. *)
Theorem resolved_role_written_back w aws' assertion refresh principal_arn role_arn :
  let run := get_credentials C aws okta_profile profile verbose logger totp_token cache
               refresh_role okta_username okta_password cookie_jar
               persistent_okta_session user_agent w in
  In (ChooseAwsRole aws' assertion refresh (Ret (principal_arn, role_arn))) (trace run) ->
  exists pre r post w1 w2,
    trace run =
      pre ++ ChooseAwsRole aws' assertion refresh (Ret (principal_arn, role_arn))
          :: WriteRoleToProfile okta_profile role_arn r :: post /\
    replays C (pre ++ [ChooseAwsRole aws' assertion refresh (Ret (principal_arn, role_arn))])
      w w1 /\
    config_write_role_to_profile W C okta_profile role_arn w1 = (r, w2) /\
    replays C post w2 (world run) /\
    (forall e, r = Raise e -> post = [] /\ result run = Raise e) /\
    (result run = Ret tt -> r = Ret tt).
Proof.
  intros run Hin. subst run.
  destruct (role_written_next C _ _ _ _ _ _ _ _ _ _ _ _ _ _ _ _ _ _ _ Hin)
    as (pre & r & post & Htr & Hraise).
  pose proof (get_credentials_faithful C aws okta_profile profile verbose logger totp_token
                cache refresh_role okta_username okta_password cookie_jar
                persistent_okta_session user_agent w) as Hw.
  rewrite Htr in Hw.
  change (pre ++ ?a :: ?b :: post) with (pre ++ [a] ++ b :: post) in Hw.
  rewrite app_assoc in Hw.
  apply replays_app_inv in Hw as (w1 & Hpre & w2 & Hcall & Hpost).
  exists pre, r, post, w1, w2.
  split; [exact Htr|]. split; [exact Hpre|]. split; [exact Hcall|].
  split; [exact Hpost|]. split; [exact Hraise|].
  intros Hret. destruct r as [[]|e]; [reflexivity|].
  destruct (Hraise e eq_refl) as [_ He]. congruence.
Qed.

(** C10: the role-assumption call is made in a world in which the
    resolved role has already been written to the Okta profile: between
    the write and the call only the duration is looked up.  When the
    role-assumption call raises, [get_credentials] raises the same
    exception at once and the world is left as the failed call left it:
    nothing is undone. *)
Theorem role_persisted_before_issuance w aws' role_arn principal_arn assertion duration r :
  let run := get_credentials C aws okta_profile profile verbose logger totp_token cache
               refresh_role okta_username okta_password cookie_jar
               persistent_okta_session user_agent w in
  In (GetStsToken aws' role_arn principal_arn assertion duration r) (trace run) ->
  exists pre post w1 w2 w3 w4,
    trace run =
      pre ++ WriteRoleToProfile okta_profile role_arn (Ret tt)
          :: DurationFor okta_profile (Ret duration)
          :: GetStsToken aws' role_arn principal_arn assertion duration r :: post /\
    replays C pre w w1 /\
    config_write_role_to_profile W C okta_profile role_arn w1 = (Ret tt, w2) /\
    config_duration_for W C okta_profile w2 = (Ret duration, w3) /\
    aws_get_sts_token W C aws' role_arn principal_arn assertion duration w3 = (r, w4) /\
    replays C post w4 (world run) /\
    (forall e, r = Raise e -> post = [] /\ result run = Raise e /\ world run = w4).
Proof.
  intros run Hin. subst run.
  destruct (role_written_before_sts C _ _ _ _ _ _ _ _ _ _ _ _ _ _ _ _ _ _ _ _ Hin)
    as (pre & post & Htr & Hraise).
  pose proof (get_credentials_faithful C aws okta_profile profile verbose logger totp_token
                cache refresh_role okta_username okta_password cookie_jar
                persistent_okta_session user_agent w) as Hw.
  rewrite Htr in Hw.
  apply replays_app_inv in Hw as (w1 & Hpre & w2 & Hwrite & w3 & Hdur & w4 & Hsts & Hpost).
  exists pre, post, w1, w2, w3, w4.
  split; [exact Htr|]. split; [exact Hpre|]. split; [exact Hwrite|].
  split; [exact Hdur|]. split; [exact Hsts|]. split; [exact Hpost|].
  intros e He. destruct (Hraise e He) as [-> Hres]. cbn [replays] in Hpost.
  split; [reflexivity | split; assumption].
Qed.

(** A run of [get_credentials] that returns, with the worlds it went
    through: the role-assumption call was made in the world the calls
    before it left, and the delivery started from the world it left. *)
Lemma get_credentials_success_world w :
  let run := get_credentials C aws okta_profile profile verbose logger totp_token cache
               refresh_role okta_username okta_password cookie_jar
               persistent_okta_session user_agent w in
  result run = Ret tt ->
  exists pre role_arn principal_arn assertion duration sts_token k s t x w1 w2,
    sts_token !! "AccessKeyId" = Some k /\
    sts_token !! "SecretAccessKey" = Some s /\
    sts_token !! "SessionToken" = Some t /\
    sts_token !! "Expiration" = Some x /\
    trace run =
      pre ++ GetStsToken aws role_arn principal_arn assertion duration (Ret sts_token)
          :: Log INFO ("Session token expires on: " +:+ py_str C x) []
          :: delivery C aws verbose cache k s x t /\
    Forall (fun e => is_print e = false /\ is_write_file e = false /\
                     is_write_sts_token e = false) pre /\
    replays C pre w w1 /\
    aws_get_sts_token W C aws role_arn principal_arn assertion duration w1
      = (Ret sts_token, w2) /\
    replays C (delivery C aws verbose cache k s x t) w2 (world run).
Proof.
  intros run Hr. subst run.
  destruct (get_credentials_success C _ _ _ _ _ _ _ _ _ _ _ _ _ _ Hr)
    as (got & pa & ra & du & d & k & s & t & x & Hk & Hs & Ht & Hx & Htr).
  pose proof (get_credentials_faithful C aws okta_profile profile verbose logger totp_token
                cache refresh_role okta_username okta_password cookie_jar
                persistent_okta_session user_agent w) as Hw.
  rewrite Htr in Hw |- *. unfold issuance in Hw |- *.
  set (okta := okta_of okta_profile verbose totp_token okta_username okta_password
                 cookie_jar user_agent) in *.
  exists [NewOktaAuthConfig (Ret tt); NewOktaAuth okta (Ret tt);
          GetAssertion okta persistent_okta_session (Ret got);
          ChooseAwsRole aws (snd got) refresh_role (Ret (pa, ra));
          WriteRoleToProfile (OktaAuth.okta_profile okta) ra (Ret tt);
          DurationFor (OktaAuth.okta_profile okta) (Ret du)].
  exists ra, pa, (snd got), du, d, k, s, t, x.
  change (?a :: ?b :: ?c :: ?d0 :: ?e :: ?f :: ?g :: ?h :: nil)
    with ([a; b; c; d0; e; f] ++ [g; h]) in Hw.
  rewrite <- app_assoc in Hw.
  apply replays_app_inv in Hw as (w1 & Hpre & w2 & Hsts & w3 & Hlog & Hdel).
  cbn [performed] in Hlog. subst w3.
  exists w1, w2.
  split; [exact Hk|]. split; [exact Hs|]. split; [exact Ht|]. split; [exact Hx|].
  split; [reflexivity|]. split; [repeat constructor|].
  split; [exact Hpre|]. split; [exact Hsts | exact Hdel].
Qed.

(** C6: in a run of [get_credentials] that returns, the expiration is the
    ["Expiration"] entry of the dictionary the role-assumption call
    returned: that value is logged, and with a named profile it is the
    value [write_sts_token] is given, in a call made in the world the
    role-assumption call left and leaving the world the run ends in. *)
Theorem expiration_from_response w :
  let run := get_credentials C aws okta_profile profile verbose logger totp_token cache
               refresh_role okta_username okta_password cookie_jar
               persistent_okta_session user_agent w in
  result run = Ret tt ->
  exists pre role_arn principal_arn assertion duration sts_token k s t x w1 w2,
    sts_token !! "AccessKeyId" = Some k /\
    sts_token !! "SecretAccessKey" = Some s /\
    sts_token !! "SessionToken" = Some t /\
    sts_token !! "Expiration" = Some x /\
    trace run =
      pre ++ GetStsToken aws role_arn principal_arn assertion duration (Ret sts_token)
          :: Log INFO ("Session token expires on: " +:+ py_str C x) []
          :: delivery C aws verbose cache k s x t /\
    replays C pre w w1 /\
    aws_get_sts_token W C aws role_arn principal_arn assertion duration w1
      = (Ret sts_token, w2) /\
    (truthy (AwsAuth.profile aws) = true ->
     delivery C aws verbose cache k s x t = [WriteStsToken aws k s x t (Ret tt)] /\
     aws_write_sts_token W C aws k s x t w2 = (Ret tt, world run)).
Proof.
  intros run Hr. subst run.
  destruct (get_credentials_success_world w Hr)
    as (pre & ra & pa & assertion & du & d & k & s & t & x & w1 & w2
        & Hk & Hs & Ht & Hx & Htr & _ & Hpre & Hsts & Hdel).
  exists pre, ra, pa, assertion, du, d, k, s, t, x, w1, w2.
  split; [exact Hk|]. split; [exact Hs|]. split; [exact Ht|]. split; [exact Hx|].
  split; [exact Htr|]. split; [exact Hpre|]. split; [exact Hsts|].
  intros Hp. rewrite (delivery_named _ _ _ _ _ _ _ _ Hp) in Hdel |- *.
  split; [reflexivity|].
  destruct Hdel as (w3 & Hwrite & Hend). cbn [replays] in Hend. subst w3. exact Hwrite.
Qed.

(** C2, where the code falls short of it: without a named profile and
    without [verbose], a run of [get_credentials] that returns prints
    nothing at all.  The export lines go to the cache file if [cache] is
    set and nowhere otherwise: the world is then left as the
    role-assumption call left it. *)
Theorem credentials_dropped_when_quiet w :
  let run := get_credentials C aws okta_profile profile verbose logger totp_token cache
               refresh_role okta_username okta_password cookie_jar
               persistent_okta_session user_agent w in
  truthy (AwsAuth.profile aws) = false ->
  verbose = false ->
  result run = Ret tt ->
  exists pre role_arn principal_arn assertion duration sts_token k s t x w1 w2,
    sts_token !! "AccessKeyId" = Some k /\
    sts_token !! "SecretAccessKey" = Some s /\
    sts_token !! "SessionToken" = Some t /\
    sts_token !! "Expiration" = Some x /\
    trace run =
      pre ++ GetStsToken aws role_arn principal_arn assertion duration (Ret sts_token)
          :: Log INFO ("Session token expires on: " +:+ py_str C x) []
          :: (if cache
              then [WriteFile (cache_path C) (export_lines C k s t) (Ret tt)]
              else []) /\
    Forall (fun e => is_print e = false /\ is_write_sts_token e = false) (trace run) /\
    replays C pre w w1 /\
    aws_get_sts_token W C aws role_arn principal_arn assertion duration w1
      = (Ret sts_token, w2) /\
    (cache = false -> world run = w2).
Proof.
  intros run Hp Hv Hr. subst run.
  destruct (get_credentials_success_world w Hr)
    as (pre & ra & pa & assertion & du & d & k & s & t & x & w1 & w2
        & Hk & Hs & Ht & Hx & Htr & Hnone & Hpre & Hsts & Hdel).
  exists pre, ra, pa, assertion, du, d, k, s, t, x, w1, w2.
  rewrite (delivery_quiet _ _ _ _ _ _ _ _ Hp Hv) in Htr, Hdel.
  split; [exact Hk|]. split; [exact Hs|]. split; [exact Ht|]. split; [exact Hx|].
  split; [exact Htr|]. split.
  - rewrite Htr. apply Forall_app. split.
    + eapply Forall_impl; [exact Hnone|]. cbn beta. tauto.
    + destruct cache; repeat constructor.
  - split; [exact Hpre|]. split; [exact Hsts|].
    intros Hc. destruct cache; [discriminate Hc|]. cbn [replays] in Hdel. exact Hdel.
Qed.

End IssuanceWorld.

(** *** Runs against the scripted world *)

Lemma resolved_role_written_back_witness :
  exists pre r post w1 w2,
    trace (Script.get_credentials_for Script.plain Script.w0) =
      pre ++ ChooseAwsRole (main_aws_auth Script.plain "default") "PHNhbWw+" false
               (Ret ("arn:aws:iam::1:saml-provider/okta", "arn:aws:iam::1:role/Admin"))
          :: WriteRoleToProfile "default" "arn:aws:iam::1:role/Admin" r :: post /\
    replays Script.collaborators
      (pre ++ [ChooseAwsRole (main_aws_auth Script.plain "default") "PHNhbWw+" false
                 (Ret ("arn:aws:iam::1:saml-provider/okta", "arn:aws:iam::1:role/Admin"))])
      Script.w0 w1 /\
    config_write_role_to_profile _ Script.collaborators "default" "arn:aws:iam::1:role/Admin" w1
      = (r, w2) /\
    replays Script.collaborators post w2
      (world (Script.get_credentials_for Script.plain Script.w0)) /\
    (forall e, r = Raise e ->
       post = [] /\ result (Script.get_credentials_for Script.plain Script.w0) = Raise e) /\
    (result (Script.get_credentials_for Script.plain Script.w0) = Ret tt -> r = Ret tt).
Proof.
  unfold Script.get_credentials_for. apply resolved_role_written_back.
  vm_compute. do 3 right. left. reflexivity.
Defined.

(** The role-assumption call fails: the run fails with it, and the
    scripted configuration store holds the new role. *)
Lemma role_persisted_before_issuance_witness :
  result (Script.get_credentials_for Script.plain
            (Script.with_sts (Raise (OtherError "ClientError")) Script.w0))
  = Raise (OtherError "ClientError") /\
  Script.last_role
    (world (Script.get_credentials_for Script.plain
              (Script.with_sts (Raise (OtherError "ClientError")) Script.w0)))
    !! "default" = Some "arn:aws:iam::1:role/Admin".
Proof.
  unfold Script.get_credentials_for.
  destruct (role_persisted_before_issuance Script.collaborators
              (main_aws_auth Script.plain "default") "default" None false Script.logger
              None false false None None None false None
              (Script.with_sts (Raise (OtherError "ClientError")) Script.w0)
              (main_aws_auth Script.plain "default") "arn:aws:iam::1:role/Admin"
              "arn:aws:iam::1:saml-provider/okta" "PHNhbWw+" 3600
              (Raise (OtherError "ClientError")))
    as (pre & post & w1 & w2 & w3 & w4 & _ & _ & Hwrite & Hdur & Hsts & _ & Hraise).
  - vm_compute. do 6 right. left. reflexivity.
  - destruct (Hraise _ eq_refl) as (_ & Hres & Hworld).
    split; [exact Hres|].
    refine (eq_trans (f_equal (fun x => Script.last_role x !! "default") Hworld) _).
    cbn in Hwrite, Hdur, Hsts. unfold Script.reply in Hdur, Hsts.
    injection Hsts as _ <-. injection Hdur as <-. injection Hwrite as <-.
    cbn [Script.last_role]. apply lookup_insert_eq.
Defined.

Lemma expiration_from_response_witness :
  exists pre role_arn principal_arn assertion duration sts_token k s t x w1 w2,
    sts_token !! "AccessKeyId" = Some k /\
    sts_token !! "SecretAccessKey" = Some s /\
    sts_token !! "SessionToken" = Some t /\
    sts_token !! "Expiration" = Some x /\
    trace (Script.get_credentials_for (Script.with_profile "dev" Script.plain) Script.w0) =
      pre ++ GetStsToken (main_aws_auth (Script.with_profile "dev" Script.plain) "default")
               role_arn principal_arn assertion duration (Ret sts_token)
          :: Log INFO ("Session token expires on: " +:+ py_str Script.collaborators x) []
          :: delivery Script.collaborators
               (main_aws_auth (Script.with_profile "dev" Script.plain) "default")
               false false k s x t /\
    replays Script.collaborators pre Script.w0 w1 /\
    aws_get_sts_token _ Script.collaborators
      (main_aws_auth (Script.with_profile "dev" Script.plain) "default")
      role_arn principal_arn assertion duration w1 = (Ret sts_token, w2) /\
    (truthy (AwsAuth.profile (main_aws_auth (Script.with_profile "dev" Script.plain) "default"))
     = true ->
     delivery Script.collaborators
       (main_aws_auth (Script.with_profile "dev" Script.plain) "default") false false k s x t
     = [WriteStsToken (main_aws_auth (Script.with_profile "dev" Script.plain) "default")
          k s x t (Ret tt)] /\
     aws_write_sts_token _ Script.collaborators
       (main_aws_auth (Script.with_profile "dev" Script.plain) "default") k s x t w2
     = (Ret tt,
        world (Script.get_credentials_for (Script.with_profile "dev" Script.plain) Script.w0))).
Proof.
  unfold Script.get_credentials_for.
  apply (expiration_from_response Script.collaborators
           (main_aws_auth (Script.with_profile "dev" Script.plain) "default")).
  vm_compute. reflexivity.
Defined.

(** No profile, no [--verbose], no [--cache]: the run returns, nothing is
    printed, and the world is as the role-assumption call left it. *)
Lemma credentials_dropped_when_quiet_witness :
  exists pre role_arn principal_arn assertion duration sts_token k s t x w1 w2,
    sts_token !! "AccessKeyId" = Some k /\
    sts_token !! "SecretAccessKey" = Some s /\
    sts_token !! "SessionToken" = Some t /\
    sts_token !! "Expiration" = Some x /\
    trace (Script.get_credentials_for Script.plain Script.w0) =
      pre ++ GetStsToken (main_aws_auth Script.plain "default")
               role_arn principal_arn assertion duration (Ret sts_token)
          :: Log INFO ("Session token expires on: " +:+ py_str Script.collaborators x) []
          :: [] /\
    Forall (fun e => is_print e = false /\ is_write_sts_token e = false)
      (trace (Script.get_credentials_for Script.plain Script.w0)) /\
    replays Script.collaborators pre Script.w0 w1 /\
    aws_get_sts_token _ Script.collaborators (main_aws_auth Script.plain "default")
      role_arn principal_arn assertion duration w1 = (Ret sts_token, w2) /\
    (false = false -> world (Script.get_credentials_for Script.plain Script.w0) = w2).
Proof.
  unfold Script.get_credentials_for.
  apply (credentials_dropped_when_quiet Script.collaborators
           (main_aws_auth Script.plain "default") "default" None false Script.logger
           None false false None None None false None Script.w0).
  - reflexivity.
  - reflexivity.
  - vm_compute. reflexivity.
Defined.

(** The same run, evaluated: the credentials have reached no destination. *)
Example quiet_run_leaves_nothing :
  result (Script.get_credentials_for Script.plain Script.w0) = Ret tt /\
  filter (fun e => is_print e || is_write_file e || is_write_sts_token e)
    (trace (Script.get_credentials_for Script.plain Script.w0)) = [] /\
  Script.files (world (Script.get_credentials_for Script.plain Script.w0)) = ∅ /\
  Script.credentials (world (Script.get_credentials_for Script.plain Script.w0)) = ∅.
Proof. vm_compute. split; [reflexivity|]. split; [reflexivity|]. split; reflexivity. Qed.

(** C3 as stated fails for a jar file whose bytes cannot be decoded:
    [load] raises [UnicodeDecodeError], no handler of [main] catches it,
    and the run ends there, before [get_credentials] is called. *)
Lemma undecodable_jar_aborts :
  result (main Script.collaborators (Script.with_cookie_jar "/tmp/jar" Script.plain)
            (Script.with_jar (Raise (UnicodeDecodeError "invalid start byte")) (Ret tt)
               Script.w0))
  = Raise (UnicodeDecodeError "invalid start byte") /\
  trace (main Script.collaborators (Script.with_cookie_jar "/tmp/jar" Script.plain)
           (Script.with_jar (Raise (UnicodeDecodeError "invalid start byte")) (Ret tt)
              Script.w0))
  = [NewAwsAuth (main_aws_auth (Script.with_cookie_jar "/tmp/jar" Script.plain) "default")
       (Ret tt);
     CheckStsToken (main_aws_auth (Script.with_cookie_jar "/tmp/jar" Script.plain) "default")
       (Ret false);
     CookieLoad "/tmp/jar" false false (Raise (UnicodeDecodeError "invalid start byte"))].
Proof. vm_compute. split; reflexivity. Qed.
